(** * SAGA: host resolution, table joins, value filling, spectra readers
      and SDSS query construction

    A shallow embedding of the Python sources
      - [SAGA/hosts/host_catalog.py]    (module [Hosts])
      - [SAGA/utils.py]                 (module [Utils], on the tables of
                                         module [Tables])
      - [SAGA/spectra/read_observed.py] (module [Spectra])
      - [SAGA/database/external.py]     (modules [External], [Download])
      - [SAGA/objects/sdss.py]          (module [Sdss], with the files of
                                         [SAGA/utils.py] in module [Files])
    followed by the properties stated about them (modules [...Facts],
    [...Claims] and [...More]).  What the sources take from astropy,
    numpy and the file system (angular separation, the conversion of a
    value assigned into a column, FITS headers, the heliocentric
    correction, float formatting, the services queried) is a parameter
    of the definitions that use it; module [Examples] holds the concrete
    inputs of the examples.

    Conventions.  A Python call that may raise returns a [result]; code
    that mutates an object in place returns the object's final state next
    to the result, so that a mutation that happened before an exception is
    still visible.  Python [str] values are modelled as byte strings
    (ASCII); [dict]s keyed by strings are [gmap string _]; astropy tables
    are ordered lists of named columns. *)

From Stdlib Require Import ZArith QArith Qabs Ascii String List Lia Bool.
From stdpp Require Import base option list strings gmap pretty.

Local Open Scope Z_scope.

(** ** Python exceptions and results *)

Inductive exn : Type :=
  | ValueError (msg : string)
  | TypeError (msg : string)
  | KeyError (key : string)
  | IndexError (msg : string)
  | AttributeError (msg : string)
  | IOError (msg : string)
  | CParserError (msg : string)
  | TableMergeError (msg : string).

Inductive result (A : Type) : Type :=
  | Return (a : A)
  | Raise (e : exn).
Arguments Return {A} a.
Arguments Raise {A} e.

(** Sequencing: an exception raised by the first computation skips the
    rest.  With the instances below, [x ← r; k] is stdpp's notation for
    it. *)
#[global] Instance result_bind : MBind result := fun A B k r =>
  match r with
  | Return a => k a
  | Raise e => Raise e
  end.
#[global] Instance result_ret : MRet result := fun A a => Return a.
#[global] Instance result_fmap : FMap result := fun A B f r =>
  match r with
  | Return a => Return (f a)
  | Raise e => Raise e
  end.

(** ** Python string primitives (ASCII) *)

Module PyStr.

(** [str.isspace] on one character, restricted to ASCII: TAB, LF, VT, FF,
    CR, the separators 0x1c-0x1f and the space.  The same set is what
    [\s] matches in a [str] pattern of [re]. *)
Definition is_space (c : ascii) : bool :=
  let n := nat_of_ascii c in
  ((9 <=? n) && (n <=? 13) || (28 <=? n) && (n <=? 32))%nat.

Definition is_upper (c : ascii) : bool :=
  let n := nat_of_ascii c in ((65 <=? n) && (n <=? 90))%nat.

Definition is_lower (c : ascii) : bool :=
  let n := nat_of_ascii c in ((97 <=? n) && (n <=? 122))%nat.

(** The character class [A-Za-z]. *)
Definition is_letter (c : ascii) : bool := is_upper c || is_lower c.

Definition is_digit (c : ascii) : bool :=
  let n := nat_of_ascii c in ((48 <=? n) && (n <=? 57))%nat.

Definition lower_char (c : ascii) : ascii :=
  if is_upper c then ascii_of_nat (nat_of_ascii c + 32) else c.

(** [s.lower()] *)
Fixpoint lower (s : string) : string :=
  match s with
  | EmptyString => EmptyString
  | String c s' => String (lower_char c) (lower s')
  end.

(** [s.lstrip()], [s.rstrip()], [s.strip()] *)
Fixpoint lstrip (s : string) : string :=
  match s with
  | EmptyString => EmptyString
  | String c s' => if is_space c then lstrip s' else s
  end.

Fixpoint rstrip (s : string) : string :=
  match s with
  | EmptyString => EmptyString
  | String c s' =>
      match rstrip s' with
      | EmptyString => if is_space c then EmptyString else String c EmptyString
      | r => String c r
      end
  end.

Definition strip (s : string) : string := rstrip (lstrip s).

(** [s.startswith(p)] *)
Fixpoint startswith (p s : string) : bool :=
  match p, s with
  | EmptyString, _ => true
  | String a p', String b s' => if Ascii.eqb a b then startswith p' s' else false
  | String _ _, EmptyString => false
  end.

(** [p in s] *)
Fixpoint contains (p s : string) : bool :=
  startswith p s ||
  match s with
  | EmptyString => false
  | String _ s' => contains p s'
  end.

(** [s.endswith(p)]: some suffix of [s] is [p]. *)
Fixpoint endswith (p s : string) : bool :=
  String.eqb p s ||
  match s with
  | EmptyString => false
  | String _ s' => endswith p s'
  end.

(** [s.replace(old, new)] for a non-empty [old]: a left-to-right scan
    that substitutes every non-overlapping occurrence.  [skip] counts the
    characters of the occurrence just replaced that are still to be
    dropped. *)
Fixpoint replace_from (old new : string) (skip : nat) (s : string) : string :=
  match s with
  | EmptyString => EmptyString
  | String c s' =>
      match skip with
      | S k => replace_from old new k s'
      | O =>
          if startswith old s
          then new +:+ replace_from old new (String.length old - 1) s'
          else String c (replace_from old new 0 s')
      end
  end.

Definition replace (old new s : string) : string := replace_from old new 0 s.

(** Decimal digits with single underscores between them, as [int]
    accepts them; [prev] tells whether the previous character was a
    digit. *)
Fixpoint parse_digits (acc : Z) (prev : bool) (s : string) : option Z :=
  match s with
  | EmptyString => if prev then Some acc else None
  | String c s' =>
      if is_digit c
      then parse_digits (10 * acc + Z.of_nat (nat_of_ascii c - 48)) true s'
      else if Ascii.eqb c "_" && prev then parse_digits acc false s'
      else None
  end.

(** The white space that [int] skips around a numeral in an ASCII
    [str]: TAB, LF, VT, FF, CR and the space.  Unlike [str.strip], [int]
    does not skip the separators 0x1c-0x1f. *)
Definition is_int_space (c : ascii) : bool :=
  let n := nat_of_ascii c in
  ((9 <=? n) && (n <=? 13) || (n =? 32))%nat.

Fixpoint int_lstrip (s : string) : string :=
  match s with
  | EmptyString => EmptyString
  | String c s' => if is_int_space c then int_lstrip s' else s
  end.

Fixpoint int_rstrip (s : string) : string :=
  match s with
  | EmptyString => EmptyString
  | String c s' =>
      match int_rstrip s' with
      | EmptyString => if is_int_space c then EmptyString else String c EmptyString
      | r => String c r
      end
  end.

(** [int(s)] for a [str] argument: [None] stands for [ValueError]. *)
Definition int_of_str (s : string) : option Z :=
  match int_rstrip (int_lstrip s) with
  | String "+" r => parse_digits 0 false r
  | String "-" r => Z.opp <$> parse_digits 0 false r
  | t => parse_digits 0 false t
  end.

End PyStr.

(** ** Host catalog ([SAGA/hosts/host_catalog.py]) *)

Module Hosts.
Import PyStr.

(** The argument of [resolve_id]: "hosts : int, str, list". *)
#[warnings="-register-all"]
Inductive hosts : Type :=
  | HInt (n : Z)
  | HStr (s : string)
  | HList (l : list hosts).

Record HostCatalog : Type := {
  _all_host_ids : list Z;
  _host_name_to_id : gmap string Z;
  _host_id_to_name : gmap Z string
}.

Definition _paper1_complete_hosts : list Z :=
  [166313; 147100; 165536; 61945; 132339; 149781; 33446; 150887].
Definition _paper1_incomplete_hosts : list Z :=
  [161174; 85746; 145729; 140594; 126115; 13927; 137625; 129237].

(** [dict(zip(keys, values))]: a later pair overrides an earlier one. *)
Definition dict_of_pairs {K V} `{Countable K} (l : list (K * V)) : gmap K V :=
  foldl (fun m p => <[p.1 := p.2]> m) ∅ l.

(** [HostCatalog.__init__]: [all_ids] is the NSAID column of the loaded
    host list, [named] the rows (SAGA name, NSA id) of [hosts_named]. *)
Definition init (all_ids : list Z) (named : list (string * Z)) : HostCatalog :=
  {| _all_host_ids := all_ids;
     _host_name_to_id := dict_of_pairs (map (fun p => (lower p.1, p.2)) named);
     _host_id_to_name := dict_of_pairs (map (fun p => (p.2, p.1)) named) |}.

(** [int(hosts)] at the top of [resolve_id]: [None] stands for the
    [TypeError] or [ValueError] that the [try] swallows. *)
Definition int_of_hosts (h : hosts) : option Z :=
  match h with
  | HInt n => Some n
  | HStr s => int_of_str s
  | HList _ => None
  end.

(** The branch taken for a string that [int] rejected. *)
Definition resolve_name (self : HostCatalog) (s : string) : result (list Z) :=
  let hosts := lower s in
  if String.eqb hosts "all" then Return (_all_host_ids self)
  else if String.eqb hosts "paper1_complete" then Return _paper1_complete_hosts
  else if String.eqb hosts "paper1_incomplete" then Return _paper1_incomplete_hosts
  else if String.eqb hosts "paper1"
       then Return (_paper1_complete_hosts ++ _paper1_incomplete_hosts)
  else match _host_name_to_id self !! lower hosts with
       | Some i => Return [i]
       | None => Raise (ValueError ("cannot resolve " +:+ hosts))
       end.

(** [HostCatalog.resolve_id].  [int] accepts every [int], so the first
    [try] already returns for [HInt]; a list has no [lower] and is
    resolved element by element. *)
Fixpoint resolve_id (self : HostCatalog) (h : hosts) : result (list Z) :=
  match int_of_hosts h with
  | Some n => Return [n]
  | None =>
      match h with
      | HInt n => Return [n]
      | HStr s => resolve_name self s
      | HList l =>
          (fix extend_all (l : list hosts) : result (list Z) :=
             match l with
             | [] => Return []
             | host :: rest =>
                 ids ← resolve_id self host;
                 out ← extend_all rest;
                 Return (ids ++ out)
             end) l
      end
  end.

(** [HostCatalog.id_to_name] *)
Definition id_to_name (self : HostCatalog) (host_id : Z) : option string :=
  _host_id_to_name self !! host_id.

End Hosts.

(** ** Tables ([astropy.table.Table], as far as the sources use it) *)

Module Tables.

(** A table cell.  Floating-point numbers are modelled by the rationals
    they denote (rounding is not modelled); [NaN] is [np.nan]. *)
Inductive cell : Type :=
  | NaN
  | Num (q : Q)
  | Str (s : string)
  | Bool (b : bool).

Abbreviation Column := (list cell).

(** The columns in [colnames] order.  In a table all columns have one
    length, [table_ok]. *)
Abbreviation Table := (list (string * Column)).

Definition colnames (t : Table) : list string := map fst t.

(** [len(t)] *)
Definition nrows (t : Table) : nat :=
  match t with
  | [] => 0
  | (_, c) :: _ => length c
  end.

Definition table_ok (t : Table) : Prop :=
  Forall (fun nc => length nc.2 = nrows t) t.

Fixpoint getcol (name : string) (t : Table) : option Column :=
  match t with
  | [] => None
  | (n, c) :: t' => if String.eqb n name then Some c else getcol name t'
  end.

(** [name in t] *)
Definition has_col (name : string) (t : Table) : bool :=
  match getcol name t with Some _ => true | None => false end.

(** [t[name]] *)
Definition getitem (name : string) (t : Table) : result Column :=
  match getcol name t with
  | Some c => Return c
  | None => Raise (KeyError name)
  end.

(** Store a column under [name]: in place of the column of that name,
    or as a new last column. *)
Fixpoint setcol (name : string) (c : Column) (t : Table) : Table :=
  match t with
  | [] => [(name, c)]
  | (n, c0) :: t' =>
      if String.eqb n name then (n, c) :: t' else (n, c0) :: setcol name c t'
  end.

(** [t[name] = v] for a scalar [v]: every row of the column gets [v];
    a new column is broadcast to the table's length, and astropy refuses
    to add one to a table without rows. *)
Definition setitem_scalar (name : string) (v : cell) (t : Table) : result Table :=
  match getcol name t with
  | Some c => Return (setcol name (map (fun _ => v) c) t)
  | None =>
      if Nat.eqb (nrows t) 0
      then Raise (TypeError "Empty table cannot have column set to scalar value")
      else Return (setcol name (replicate (nrows t) v) t)
  end.

(** [del t[name]] *)
Definition delitem (name : string) (t : Table) : result Table :=
  match getcol name t with
  | Some _ => Return (List.filter (fun nc => negb (String.eqb nc.1 name)) t)
  | None => Raise (KeyError name)
  end.

(** [col[idx]] for a list of row numbers. *)
Definition take_rows (col : Column) (idx : list nat) : result (list cell) :=
  match mapM (fun j => col !! j) idx with
  | Some vs => Return vs
  | None => Raise (IndexError "index out of bounds")
  end.

(** The column [col] with [x] at the rows where the mask is true. *)
Fixpoint masked_fill (mask : list bool) (x : cell) (col : Column) : Column :=
  match mask, col with
  | m :: mask', y :: col' => (if m then x else y) :: masked_fill mask' x col'
  | _, _ => col
  end.

Section Assignment.

(** Assigning to elements of a column converts the value to the
    column's dtype: [astype col v] is the cell that numpy stores when [v]
    is assigned into column [col], or the exception of the conversion. *)
Variable astype : Column -> cell -> result cell.

(** [col[idx] = vs] for a list of row numbers: the values are converted
    and the assignments made in order, so the last one to a row stays. *)
Definition put_rows (col : Column) (idx : list nat) (vs : list cell) : result Column :=
  if forallb (fun i => Nat.ltb i (length col)) idx
  then vs ← mapM (astype col) vs;
       Return (foldl (fun c iv => <[iv.1 := iv.2]> c) col (zip idx vs))
  else Raise (IndexError "index out of bounds").

(** [col[mask] = v] for a boolean mask and a scalar. *)
Definition put_masked (mask : list bool) (v : cell) (col : Column) : result Column :=
  x ← astype col v;
  Return (masked_fill mask x col).

End Assignment.

(** Row [i] as the list of its named cells. *)
Abbreviation Row := (list (string * cell)).

Definition row_at (t : Table) (i : nat) : Row :=
  omap (fun nc => pair nc.1 <$> nc.2 !! i) t.

Definition rows (t : Table) : list Row := map (row_at t) (seq 0 (nrows t)).

(** [easyquery.Query]: a row predicate; [Query(q).mask(t)] evaluates it
    on every row. *)
Definition Query : Type := Row -> bool.

Definition mask (q : Query) (t : Table) : list bool := map q (rows t).

(** [np.count_nonzero(mask)] *)
Definition count_nonzero (m : list bool) : nat := length (List.filter id m).

(** The truth value of an [int] in [if n:]. *)
Definition truthy (n : nat) : bool := negb (Nat.eqb n 0).

End Tables.

(** ** [SAGA/utils.py] *)

Module Utils.
Import Tables.

(** A sky position: (RA, DEC) in degrees. *)
Definition coord : Type := (Q * Q)%type.

(** [SkyCoord(ra, dec, unit='deg')] on two columns: both must hold
    numbers, row by row (a position with a NaN is not modelled: it is
    refused like any cell that is not a number). *)
Fixpoint SkyCoord (ra dec : Column) : result (list coord) :=
  match ra, dec with
  | [], [] => Return []
  | Num a :: ra', Num d :: dec' => sc ← SkyCoord ra' dec'; Return ((a, d) :: sc)
  | _, _ => Raise (TypeError "cannot convert to a coordinate")
  end.

(** The coordinates of a table: [SkyCoord(t[ra_name], t[dec_name],
    unit='deg')]. *)
Definition sky_coords (ra_name dec_name : string) (t : Table) : result (list coord) :=
  ra ← getitem ra_name t;
  dec ← getitem dec_name t;
  SkyCoord ra dec.

(** [missing_value]: one value for all columns, or a [dict] from column
    name to value. *)
Inductive missing : Type :=
  | MissingValue (v : cell)
  | MissingDict (d : gmap string cell).

(** A numpy array of row numbers or of numbers. *)
Inductive ndarray : Type :=
  | Ints (l : list nat)
  | Floats (l : list Q).

(** [len(a)] *)
Definition len (a : ndarray) : nat :=
  match a with
  | Ints l => length l
  | Floats l => length l
  end.

(** An array used as an index must hold integers. *)
Definition as_index (a : ndarray) : result (list nat) :=
  match a with
  | Ints l => Return l
  | Floats _ =>
      Raise (IndexError "arrays used as indices must be of integer (or boolean) type")
  end.

(** [a, b, c = t]: the tuple [t] must have exactly three components. *)
Definition unpack3 {A} (t : list A) : result (A * A * A) :=
  match t with
  | [a; b; c] => Return (a, b, c)
  | _ :: _ :: _ :: _ :: _ =>
      Raise (ValueError "too many values to unpack (expected 3)")
  | _ =>
      Raise (ValueError ("not enough values to unpack (expected 3, got "
                         +:+ pretty (length t) +:+ ")"))
  end.

Section Join.

(** The on-sky angular separation of two positions, in degrees, and
    their three-dimensional distance, as astropy computes them. *)
Variable separation : coord -> coord -> Q.
Variable distance3d : coord -> coord -> Q.

(** The conversion of a value on assignment into a column, see
    [Tables.put_rows]. *)
Variable astype : Column -> cell -> result cell.

(** [row == c] for a row of a table and a string. *)
Variable row_eq : Row -> string -> bool.

(** The positions of [self] no farther than [seplimit] from [p], with
    their row numbers. *)
Definition neighbours (self : list coord) (seplimit : Q) (p : coord)
  : list (nat * coord) :=
  List.filter (fun jq => Qle_bool (separation p jq.2) seplimit) (imap pair self).

(** [self.search_around_sky(searcharound, seplimit)] returns a tuple of
    four arrays: for every pair no farther apart than [seplimit], the
    row number in [searcharound], the row number in [self], the on-sky
    separation and the three-dimensional distance. *)
Definition search_around_sky (self searcharound : list coord) (seplimit : Q)
  : list ndarray :=
  let pairs :=
    concat (imap (fun i p =>
                    map (fun jq => (i, jq.1, separation p jq.2, distance3d p jq.2))
                        (neighbours self seplimit p))
                 searcharound) in
  [Ints (map (fun '(i, _, _, _) => i) pairs);
   Ints (map (fun '(_, j, _, _) => j) pairs);
   Floats (map (fun '(_, _, sep2d, _) => sep2d) pairs);
   Floats (map (fun '(_, _, _, dist3d) => dist3d) pairs)].

(** [c in t] for a table [t]: Python iterates over the table, that is
    over its rows, and compares each row with [c]. *)
Definition Table_contains (t : Table) (c : string) : bool :=
  existsb (fun row => row_eq row c) (rows t).

(** One turn of the loop [for c2 in columns_to_join], on the current
    state [t1] of the base table. *)
Definition join_column (t2 : Table) (columns_to_rename : gmap string string)
    (missing_value_dict : gmap string cell) (missing_value : cell)
    (idx1 idx2 : ndarray) (t1 : Table) (c2 : string) : Table * result unit :=
  let c1 := default c2 (columns_to_rename !! c2) in
  let created :=
    if negb (Table_contains t1 c1)
    then setitem_scalar c1 (default missing_value (missing_value_dict !! c1)) t1
    else Return t1 in
  match created with
  | Raise e => (t1, Raise e)
  | Return t1' =>
      match (src ← getitem c2 t2;
             rows2 ← as_index idx2;
             vs ← take_rows src rows2;
             dst ← getitem c1 t1';
             rows1 ← as_index idx1;
             put_rows astype dst rows1 vs) with
      | Raise e => (t1', Raise e)
      | Return col => (setcol c1 col t1', Return ())
      end
  end.

Fixpoint join_columns (t2 : Table) (columns_to_rename : gmap string string)
    (missing_value_dict : gmap string cell) (missing_value : cell)
    (idx1 idx2 : ndarray) (t1 : Table) (columns_to_join : list string)
  : Table * result unit :=
  match columns_to_join with
  | [] => (t1, Return ())
  | c2 :: rest =>
      match join_column t2 columns_to_rename missing_value_dict missing_value
                        idx1 idx2 t1 c2 with
      | (t1', Raise e) => (t1', Raise e)
      | (t1', Return _) =>
          join_columns t2 columns_to_rename missing_value_dict missing_value
                       idx1 idx2 t1' rest
      end
  end.

(** [join_table_by_coordinates]: the final state of [table] and the
    value returned (or the exception raised). *)
Definition join_table_by_coordinates (table table_to_join : Table)
    (columns_to_join : option (list string))
    (columns_to_rename : option (gmap string string))
    (max_distance : Q) (missing_value : missing)
    (table_ra_name table_dec_name : string)
    (table_to_join_ra_name table_to_join_dec_name : string)
  : Table * result nat :=
  let t1 := table in
  let t2 := table_to_join in
  match (sc ← sky_coords table_ra_name table_dec_name table;
         sc_to_join ← sky_coords table_to_join_ra_name table_to_join_dec_name
                                 table_to_join;
         unpack3 (search_around_sky sc_to_join sc max_distance)) with
  | Raise e => (t1, Raise e)
  | Return (idx1, idx2, _) =>
      let n_matched := len idx1 in
      if truthy n_matched then
        let columns_to_join := default (colnames t2) columns_to_join in
        let columns_to_rename := default ∅ columns_to_rename in
        let '(missing_value_dict, missing_value) :=
          match missing_value with
          | MissingDict d => (d, NaN)
          | MissingValue v => (∅, v)
          end in
        match join_columns t2 columns_to_rename missing_value_dict missing_value
                           idx1 idx2 t1 columns_to_join with
        | (t1', Raise e) => (t1', Raise e)
        | (t1', Return _) => (t1', Return n_matched)
        end
      else (t1, Return n_matched)
  end.

End Join.

(** [d.get(c)] on the items of a [dict]. *)
Fixpoint dict_get {V} (c : string) (items : list (string * V)) : option V :=
  match items with
  | [] => None
  | (k, v) :: rest => if String.eqb k c then Some v else dict_get c rest
  end.

Section Fill.

Variable astype : Column -> cell -> result cell.

(** [fill_values_by_query]: the loop over [values_to_fill.items()]. *)
Fixpoint fill_columns (m : list bool) (table : Table)
    (items : list (string * cell)) : Table * result unit :=
  match items with
  | [] => (table, Return ())
  | (c, v) :: rest =>
      match (col ← getitem c table; put_masked astype m v col) with
      | Raise e => (table, Raise e)
      | Return col => fill_columns m (setcol c col table) rest
      end
  end.

(** [fill_values_by_query(table, query, values_to_fill)]; the [dict]
    [values_to_fill] is given by its items. *)
Definition fill_values_by_query (table : Table) (query : Query)
    (values_to_fill : list (string * cell)) : Table * result nat :=
  let m := mask query table in
  let n_matched := count_nonzero m in
  if truthy n_matched then
    match fill_columns m table values_to_fill with
    | (table', Raise e) => (table', Raise e)
    | (table', Return _) => (table', Return n_matched)
    end
  else (table, Return n_matched).

End Fill.

End Utils.

(** ** [SAGA/spectra/read_observed.py] *)

Module Spectra.
Import PyStr Tables.

(** What [Table.read] finds in a spectra file: a file that cannot be
    opened, or its data lines, each split into fields (the splitting,
    governed by [delimiter], is not modelled). *)
Inductive file : Type :=
  | Unreadable (msg : string)
  | Lines (fields : list (list cell)).

(** The two [logging.warning] calls of [read_generic_spectra]. *)
Inductive warning : Type :=
  | ConflictedCopy (dir_path f : string)
  | CouldNotRead (dir_path f : string) (e : exn).

(** [os.path.join(a, b)] *)
Definition path_join (a b : string) : string :=
  if startswith "/" b then b
  else if String.eqb a EmptyString || endswith "/" a then a +:+ b
  else a +:+ "/" +:+ b.

(** [names = [usecols.get(i + 1, "_{}".format(i)) for i in range(n_cols_total)]] *)
Definition column_names (usecols : gmap nat string) (n_cols_total : nat) : list string :=
  map (fun i => default ("_" +:+ pretty i) (usecols !! (i + 1)%nat))
      (seq 0 n_cols_total).

(** [exclude_names = [n for n in names if n.startswith("_")]] *)
Definition excluded_names (names : list string) : list string :=
  List.filter (startswith "_") names.

(** [Table.read(path, format="ascii.fast_no_header", guess=False,
    names=names, exclude_names=exclude_names)].  A file that cannot be
    opened raises IOError.  A file without data raises a ValueError, and
    so does a file whose first data line does not have one field per
    name (astropy's InconsistentTableError is a ValueError); a later
    line with another number of fields raises CParserError.  The columns
    named in [exclude_names] are dropped, and the names that are kept
    must be distinct. *)
Definition Table_read (names exclude_names : list string) (content : file)
  : result Table :=
  match content with
  | Unreadable msg => Raise (IOError msg)
  | Lines [] => Raise (ValueError "no data lines found")
  | Lines ((first :: rest) as fields) =>
      if negb (Nat.eqb (length first) (length names))
      then Raise (ValueError
                    "Number of header columns inconsistent with data columns in data line 0")
      else if negb (forallb (fun r => Nat.eqb (length r) (length names)) rest)
      then Raise (CParserError "wrong number of columns")
      else
        let table :=
          omap (fun kn : nat * string =>
                  if existsb (String.eqb kn.2) exclude_names then None
                  else Some (kn.2, map (fun r => default NaN (r !! kn.1)) fields))
               (imap pair names) in
        if bool_decide (NoDup (colnames table)) then Return table
        else Raise (ValueError "Duplicate column names")
  end.

(** [Query(cuts).filter(t)]: the rows that satisfy the cuts; without
    cuts, all rows. *)
Definition keep_rows (m : list bool) (col : Column) : Column :=
  map snd (List.filter fst (zip m col)).

Definition Query_filter (cuts : option Query) (t : Table) : Table :=
  match cuts with
  | None => t
  | Some q => let m := mask q t in map (fun nc => (nc.1, keep_rows m nc.2)) t
  end.

(** Comparisons of a row's cell, as the cuts of the readers use them.
    The columns the cuts name are columns of every parsed file; a row
    without the column does not pass. *)
Definition cell_ne_num (c : option cell) (q : Q) : bool :=
  match c with
  | Some (Num x) => negb (Qeq_bool x q)
  | Some _ => true
  | None => false
  end.

Definition cell_ge_num (c : option cell) (q : Q) : bool :=
  match c with
  | Some (Num x) => Qle_bool q x
  | _ => false
  end.

Definition cell_ne_str (c : option cell) (s : string) : bool :=
  match c with
  | Some (Str x) => negb (String.eqb x s)
  | Some _ => true
  | None => false
  end.

(** [col += x] and [col *= x] on a column of numbers. *)
Definition iadd (col : Column) (x : Q) : result Column :=
  mapM (fun c => match c with
                 | Num q => Return (Num (q + x))
                 | NaN => Return NaN
                 | _ => Raise (TypeError "unsupported operand")
                 end) col.

Definition imul (col : Column) (x : Q) : result Column :=
  mapM (fun c => match c with
                 | Num q => Return (Num (q * x))
                 | NaN => Return NaN
                 | _ => Raise (TypeError "unsupported operand")
                 end) col.

(** [vstack(tables, "exact")].  astropy refuses an empty sequence with
    a ValueError and a sequence with an element that is not a table
    (such as [None]) with a TypeError; a single table is returned as it
    is; several tables must have the same column names and are stacked
    column by column. *)
Definition same_names (a b : list string) : bool :=
  forallb (fun n => existsb (String.eqb n) b) a &&
  forallb (fun n => existsb (String.eqb n) a) b.

Definition stack_column (tables : list Table) (n : string) : Column :=
  concat (map (fun t => default [] (getcol n t)) tables).

Definition vstack (tables : list (option Table)) : result Table :=
  match mapM id tables with
  | Some [] => Raise (ValueError "no values provided to stack.")
  | None =>
      Raise (TypeError "`tables` arg must be a Table or sequence of Tables or Rows")
  | Some [t] => Return t
  | Some (t0 :: ts) =>
      if forallb (fun t => same_names (colnames t0) (colnames t)) ts
      then Return (map (fun n => (n, stack_column (t0 :: ts) n)) (colnames t0))
      else Raise (TableMergeError "Inconsistent columns in input arrays")
  end.

(** [np.pi], the double nearest to pi. *)
Definition np_pi : Q := 884279719003555 # 281474976710656.

Section Readers.

(** [ensure_specs_dtype(table, skip_missing_cols)] of
    [SAGA/spectra/common.py], which is not among the sources. *)
Variable ensure_specs_dtype : Table -> bool -> result Table.

(** [SPEED_OF_LIGHT] of [SAGA/spectra/common.py]. *)
Variable SPEED_OF_LIGHT : Q.

(** [fits.getheader(path)]: the header cards of the FITS file at [path],
    or the exception raised on opening it. *)
Variable getheader : string -> result (gmap string cell).

(** The value of [sc.radial_velocity_correction("heliocentric",
    obstime, EarthLocation.of_site(site_name)).to_value(c)] for the
    header's position and time. *)
Variable radial_velocity_correction : string -> cell -> cell -> Q -> Q.

Definition header_get (hdr : gmap string cell) (key : string) : result cell :=
  match hdr !! key with
  | Some v => Return v
  | None => Raise (KeyError key)
  end.

(** [Time(v, format="mjd")] *)
Definition Time (v : cell) : result Q :=
  match v with
  | Num q => Return q
  | _ => Raise (ValueError "Input values did not match the format class mjd")
  end.

(** [heliocentric_correction] *)
Definition heliocentric_correction (fits_filepath site_name : string)
    (ra_name dec_name time_name : string) : result (Q * Q) :=
  hdr ← getheader fits_filepath;
  ra ← header_get hdr ra_name;
  dec ← header_get hdr dec_name;
  time ← header_get hdr time_name;
  obstime ← Time time;
  Return (radial_velocity_correction site_name ra dec obstime, obstime).

(** What one turn of the loop over [os.listdir(dir_path)] does. *)
Inductive step : Type :=
  | Skipped
  | Warned (w : warning)
  | Appended (this : option Table)
  | Failed (e : exn).

Section Generic.

Variable dir_path : string.
Variable extension : string.
Variable telname : string.
Variable usecols : gmap nat string.
Variable n_cols_total : nat.
Variable cuts : option Query.
Variable postprocess : option (Table -> result Table).

(** [midprocess] returns a table, or [None] when it ends in a bare
    [return]. *)
Variable midprocess : option (Table -> result (option Table)).

Definition names : list string := column_names usecols n_cols_total.
Definition exclude_names : list string := excluded_names names.

(** The body of the [for] loop. *)
Definition read_one (f : string) (content : file) : step :=
  if negb (endswith extension f) then Skipped
  else if contains "conflicted copy" f then Warned (ConflictedCopy dir_path f)
  else
    match Table_read names exclude_names content with
    | Raise (IOError msg) => Warned (CouldNotRead dir_path f (IOError msg))
    | Raise (CParserError msg) => Warned (CouldNotRead dir_path f (CParserError msg))
    | Raise e => Failed e
    | Return this =>
        match ensure_specs_dtype this true with
        | Raise e => Failed e
        | Return this =>
            let this := Query_filter cuts this in
            if negb (truthy (nrows this)) then Skipped
            else
              match (if negb (has_col "MASKNAME" this)
                     then setitem_scalar "MASKNAME" (Str f) this
                     else Return this) with
              | Raise e => Failed e
              | Return this =>
                  match midprocess with
                  | Some mid =>
                      match mid this with
                      | Raise e => Failed e
                      | Return this => Appended this
                      end
                  | None => Appended (Some this)
                  end
              end
        end
    end.

(** The loop: the warnings logged and the list [output] it builds, or
    the exception that ends it. *)
Fixpoint read_all (files : list (string * file))
  : list warning * result (list (option Table)) :=
  match files with
  | [] => ([], Return [])
  | (f, content) :: rest =>
      match read_one f content with
      | Skipped => read_all rest
      | Warned w => let '(ws, out) := read_all rest in (w :: ws, out)
      | Appended this =>
          let '(ws, out) := read_all rest in (ws, cons this <$> out)
      | Failed e => ([], Raise e)
      end
  end.

(** [read_generic_spectra]; [files] is the content of [dir_path] in
    [os.listdir] order. *)
Definition read_generic_spectra (files : list (string * file))
  : list warning * result Table :=
  let '(ws, output) := read_all files in
  (ws,
   output ← output;
   output ← vstack output;
   output ← setitem_scalar "TELNAME" (Str telname) output;
   output ← match postprocess with
            | Some post => post output
            | None => Return output
            end;
   ensure_specs_dtype output false).

End Generic.

(** The [midprocess] of [read_mmt], [read_aat] and [read_aat_mz]; they
    differ in the extension replaced, the site and the header keys. *)
Definition midprocess_of (dir_path : string) (before_time : option Q)
    (extension site ra_name dec_name time_name : string)
    (t : Table) : result (option Table) :=
  maskname ← getitem "MASKNAME" t;
  first ← match maskname !! 0%nat with
          | Some (Str m) => Return m
          | Some _ => Raise (AttributeError "replace")
          | None => Raise (IndexError "index 0 is out of bounds")
          end;
  let fits_filepath := path_join dir_path (replace extension ".fits.gz" first) in
  match heliocentric_correction fits_filepath site ra_name dec_name time_name with
  | Raise (IOError _) =>
      t ← setitem_scalar "HELIO_CORR" (Bool false) t;
      Return (Some t)
  | Raise e => Raise e
  | Return (corr, obstime) =>
      if match before_time with
         | Some before => negb (Qle_bool obstime before)
         | None => false
         end
      then Return None
      else
        spec_z ← getitem "SPEC_Z" t;
        spec_z ← iadd spec_z corr;
        t ← setitem_scalar "HELIO_CORR" (Bool true) (setcol "SPEC_Z" spec_z t);
        Return (Some t)
  end.

(** [read_mmt] *)
Definition read_mmt (dir_path : string) (files : list (string * file))
    (before_time : option Q) : list warning * result Table :=
  let usecols : gmap nat string :=
    list_to_map [(2, "RA"); (3, "DEC"); (4, "mag"); (5, "SPEC_Z");
                 (6, "SPEC_Z_ERR"); (7, "ZQUALITY"); (8, "SPECOBJID")]%nat in
  let cuts : Query := fun row =>
    cell_ne_num (Utils.dict_get "mag" row) 0 &&
    cell_ge_num (Utils.dict_get "ZQUALITY" row) 0 &&
    cell_ne_str (Utils.dict_get "SPECOBJID" row) "0" in
  let midprocess :=
    midprocess_of dir_path before_time ".zlog" "mmt" "RA" "DEC" "MJD" in
  let postprocess (t : Table) : result Table :=
    t ← delitem "mag" t;
    ra ← getitem "RA" t;
    ra ← imul ra 15;
    Return (setcol "RA" ra t) in
  read_generic_spectra dir_path ".zlog" "MMT" usecols 11 (Some cuts)
    (Some postprocess) (Some midprocess) files.

(** [read_aat] *)
Definition read_aat (dir_path : string) (files : list (string * file))
    (before_time : option Q) : list warning * result Table :=
  let usecols : gmap nat string :=
    list_to_map [(2, "RA"); (3, "DEC"); (5, "SPEC_Z"); (7, "ZQUALITY");
                 (8, "SPECOBJID")]%nat in
  let cuts : Query := fun row =>
    cell_ge_num (Utils.dict_get "ZQUALITY" row) 0 &&
    cell_ne_str (Utils.dict_get "SPECOBJID" row) "0" in
  let midprocess :=
    midprocess_of dir_path before_time ".zlog" "sso" "MEANRA" "MEANDEC" "UTMJD" in
  let postprocess (t : Table) : result Table :=
    setitem_scalar "SPEC_Z_ERR" (Num (10 / SPEED_OF_LIGHT)) t in
  read_generic_spectra dir_path ".zlog" "AAT" usecols 11 (Some cuts)
    (Some postprocess) (Some midprocess) files.

(** [read_aat_mz] *)
Definition read_aat_mz (dir_path : string) (files : list (string * file))
    (before_time : option Q) : list warning * result Table :=
  let usecols : gmap nat string :=
    list_to_map [(3, "RA"); (4, "DEC"); (13, "SPEC_Z"); (14, "ZQUALITY");
                 (1, "SPECOBJID")]%nat in
  let cuts : Query := fun row => cell_ge_num (Utils.dict_get "ZQUALITY" row) 0 in
  let midprocess :=
    midprocess_of dir_path before_time ".mz" "sso" "MEANRA" "MEANDEC" "UTMJD" in
  let postprocess (t : Table) : result Table :=
    ra ← getitem "RA" t;
    ra ← imul ra (180 / np_pi);
    let t := setcol "RA" ra t in
    dec ← getitem "DEC" t;
    dec ← imul dec (180 / np_pi);
    let t := setcol "DEC" dec t in
    setitem_scalar "SPEC_Z_ERR" (Num (10 / SPEED_OF_LIGHT)) t in
  read_generic_spectra dir_path ".mz" "AAT" usecols 15 (Some cuts)
    (Some postprocess) (Some midprocess) files.

(** [read_imacs] *)
Definition read_imacs (dir_path : string) (files : list (string * file))
  : list warning * result Table :=
  let usecols : gmap nat string :=
    list_to_map [(2, "RA"); (3, "DEC"); (5, "SPEC_Z"); (6, "SPEC_Z_ERR");
                 (7, "ZQUALITY"); (8, "SPECOBJID"); (11, "MASKNAME")]%nat in
  let cuts : Query := fun row =>
    cell_ge_num (Utils.dict_get "ZQUALITY" row) 1 &&
    cell_ne_str (Utils.dict_get "SPECOBJID" row) "0" in
  read_generic_spectra dir_path ".zlog" "IMACS" usecols 12 (Some cuts)
    None None files.

End Readers.

End Spectra.

(** ** [SAGA/database/external.py] *)

Module External.
Import PyStr.

(** [re.sub(r'\s+', ' ', s)]: every maximal run of white space becomes
    one space; [in_run] tells whether the previous character was white
    space. *)
Fixpoint sub_spaces (in_run : bool) (s : string) : string :=
  match s with
  | EmptyString => EmptyString
  | String c s' =>
      if is_space c
      then if in_run then sub_spaces true s' else String " " (sub_spaces true s')
      else String c (sub_spaces false s')
  end.

(** [re.sub('[^A-Za-z]', '', s)] *)
Fixpoint keep_letters (s : string) : string :=
  match s with
  | EmptyString => EmptyString
  | String c s' => if is_letter c then String c (keep_letters s') else keep_letters s'
  end.

Definition newline : string := String (ascii_of_nat 10) EmptyString.
Definition unlines (lines : list string) : string := String.concat newline lines.

(** The text of [_query_template] up to the field [{ra:.10g}]. *)
Definition template_select : string :=
  unlines
    [
     EmptyString;
     "        SELECT  p.objId  as OBJID,";
     "        p.ra as RA, p.dec as DEC,";
     "        p.type as PHOTPTYPE,  dbo.fPhotoTypeN(p.type) as PHOT_SG,";
     EmptyString;
     "        p.flags as FLAGS, p.clean,";
     "        flags & dbo.fPhotoFlags('SATURATED') as SATURATED,";
     "        flags & dbo.fPhotoFlags('BAD_COUNTS_ERROR') as BAD_COUNTS_ERROR,";
     "        flags & dbo.fPhotoFlags('BINNED1') as BINNED1,";
     "        flags & dbo.fPhotoFlags('TOO_FEW_GOOD_DETECTIONS') as TOO_FEW_GOOD_DETECTIONS,";
     EmptyString;
     "        p.modelMag_u as u, p.modelMag_g as g, p.modelMag_r as r,p.modelMag_i as i,p.modelMag_z as z,";
     "        p.modelMagErr_u as u_err, p.modelMagErr_g as g_err,";
     "        p.modelMagErr_r as r_err,p.modelMagErr_i as i_err,p.modelMagErr_z as z_err,";
     EmptyString;
     "        p.MODELMAGERR_U,p.MODELMAGERR_G,p.MODELMAGERR_R,p.MODELMAGERR_I,p.MODELMAGERR_Z,";
     EmptyString;
     "        p.EXTINCTION_U, p.EXTINCTION_G, p.EXTINCTION_R, p.EXTINCTION_I, p.EXTINCTION_Z,";
     "        p.DERED_U,p.DERED_G,p.DERED_R,p.DERED_I,p.DERED_Z,";
     EmptyString;
     "        p.PETRORAD_U,p.PETRORAD_G,p.PETRORAD_R,p.PETRORAD_I,p.PETRORAD_Z,";
     "        p.PETRORADERR_U,p.PETRORADERR_G,p.PETRORADERR_R,p.PETRORADERR_I,p.PETRORADERR_Z,";
     EmptyString;
     "        p.DEVRAD_U,p.DEVRADERR_U,p.DEVRAD_G,p.DEVRADERR_G,p.DEVRAD_R,p.DEVRADERR_R,";
     "        p.DEVRAD_I,p.DEVRADERR_I,p.DEVRAD_Z,p.DEVRADERR_Z,";
     "        p.DEVAB_U,p.DEVAB_G,p.DEVAB_R,p.DEVAB_I,p.DEVAB_Z,";
     EmptyString;
     "        p.CMODELMAG_U, p.CMODELMAGERR_U, p.CMODELMAG_G,p.CMODELMAGERR_G,";
     "        p.CMODELMAG_R, p.CMODELMAGERR_R, p.CMODELMAG_I,p.CMODELMAGERR_I,";
     "        p.CMODELMAG_Z, p.CMODELMAGERR_Z,";
     EmptyString;
     "        p.PSFMAG_U, p.PSFMAGERR_U, p.PSFMAG_G, p.PSFMAGERR_G,";
     "        p.PSFMAG_R, p.PSFMAGERR_R, p.PSFMAG_I, p.PSFMAGERR_I,";
     "        p.PSFMAG_Z, p.PSFMAGERR_Z,";
     EmptyString;
     "        p.FIBERMAG_U, p.FIBERMAGERR_U, p.FIBERMAG_G, p.FIBERMAGERR_G,";
     "        p.FIBERMAG_R, p.FIBERMAGERR_R, p.FIBERMAG_I, p.FIBERMAGERR_I,";
     "        p.FIBERMAG_Z, p.FIBERMAGERR_Z,";
     EmptyString;
     "        p.FRACDEV_U, p.FRACDEV_G, p.FRACDEV_R, p.FRACDEV_I, p.FRACDEV_Z,";
     "        p.Q_U,p.U_U, p.Q_G,p.U_G, p.Q_R,p.U_R, p.Q_I,p.U_I, p.Q_Z,p.U_Z,";
     EmptyString;
     "        p.EXPAB_U, p.EXPRAD_U, p.EXPPHI_U, p.EXPAB_G, p.EXPRAD_G, p.EXPPHI_G,";
     "        p.EXPAB_R, p.EXPRAD_R, p.EXPPHI_R, p.EXPAB_I, p.EXPRAD_I, p.EXPPHI_I,";
     "        p.EXPAB_Z, p.EXPRAD_Z, p.EXPPHI_Z,";
     EmptyString;
     "        p.FIBER2MAG_R, p.FIBER2MAGERR_R,";
     "        p.EXPMAG_R, p.EXPMAGERR_R,";
     EmptyString;
     "        p.PETROR50_R, p.PETROR90_R, p.PETROMAG_R,";
     "        p.expMag_r + 2.5*log10(2*PI()*p.expRad_r*p.expRad_r + 1e-20) as SB_EXP_R,";
     "        p.petroMag_r + 2.5*log10(2*PI()*p.petroR50_r*p.petroR50_r) as SB_PETRO_R,";
     EmptyString;
     "        ISNULL(w.j_m_2mass,9999) as J, ISNULL(w.j_msig_2mass,9999) as JERR,";
     "        ISNULL(w.H_m_2mass,9999) as H, ISNULL(w.h_msig_2mass,9999) as HERR,";
     "        ISNULL(w.k_m_2mass,9999) as K, ISNULL(w.k_msig_2mass,9999) as KERR,";
     EmptyString;
     "        s.survey,";
     "        ISNULL(s.z, -1) as SPEC_Z, ISNULL(s.zErr, -1) as SPEC_Z_ERR, ISNULL(s.zWarning, -1) as SPEC_Z_WARN,";
     "        ISNULL(pz.z,-1) as PHOTOZ, ISNULL(pz.zerr,-1) as PHOTOZ_ERR";
     EmptyString;
     "        FROM dbo.fGetNearbyObjEq("
    ].

(** The text between [{r_arcmin:.10g}] and [{db_table_name}]. *)
Definition template_into : string :=
  unlines
    [
     ") n, PhotoPrimary p";
     "        INTO mydb."
    ].

(** The text after [{db_table_name}]. *)
Definition template_joins : string :=
  unlines
    [
     EmptyString;
     "        LEFT JOIN SpecObj s ON p.specObjID = s.specObjID";
     "        LEFT JOIN PHOTOZ  pz ON p.ObjID = pz.ObjID";
     "        LEFT join WISE_XMATCH as wx on p.objid = wx.sdss_objid";
     "        LEFT join wise_ALLSKY as w on  wx.wise_cntr = w.cntr";
     "        WHERE n.objID = p.objID";
     "    "
    ].

(** [_query_template.format(ra=.., dec=.., r_arcmin=.., db_table_name=..)],
    the three numbers already formatted. *)
Definition _query_template (ra dec r_arcmin db_table_name : string) : string :=
  template_select +:+ ra +:+ ", " +:+ dec +:+ ", " +:+ r_arcmin +:+
  template_into +:+ db_table_name +:+ template_joins.

(** The pieces of a finished query: the select list up to the opening
    bracket of [fGetNearbyObjEq], as the substitutions leave it, the text
    up to the staging table name, and the joins. *)
Definition query_select : string :=
  replace ", " "," (lstrip (sub_spaces false template_select)).

Definition query_into : string := ") n,PhotoPrimary p INTO mydb.".

Definition query_from : string := ") n,PhotoPrimary p".

Definition query_joins : string :=
  " LEFT JOIN SpecObj s ON p.specObjID = s.specObjID" +:+
  " LEFT JOIN PHOTOZ pz ON p.ObjID = pz.ObjID" +:+
  " LEFT join WISE_XMATCH as wx on p.objid = wx.sdss_objid" +:+
  " LEFT join wise_ALLSKY as w on wx.wise_cntr = w.cntr" +:+
  " WHERE n.objID = p.objID".

(** An angle argument: a plain number of degrees, or an astropy
    [Quantity] with the size of its unit in degrees. *)
Inductive angle : Type :=
  | Float (x : Q)
  | Quantity (x : Q) (unit_in_deg : Q).

(** [ensure_deg] *)
Definition ensure_deg (value : angle) : Q :=
  match value with
  | Quantity x unit_in_deg => (x * unit_in_deg)%Q
  | Float x => x
  end.

(** The characters of a float printed with [.10g]: digits, sign, point,
    exponent mark and the letters of [inf] and [nan]. *)
Definition is_numeral_char (c : ascii) : bool :=
  is_digit c || existsb (Ascii.eqb c) ["."; "+"; "-"; "e"; "i"; "n"; "f"; "a"]%char.

Fixpoint all_chars (p : ascii -> bool) (s : string) : bool :=
  match s with
  | EmptyString => true
  | String c s' => p c && all_chars p s'
  end.

(** [s] has no character [ch]; [s] has no white space. *)
Definition lacks (ch : ascii) (s : string) : bool :=
  all_chars (fun c => negb (Ascii.eqb c ch)) s.

Definition no_space (s : string) : bool :=
  all_chars (fun c => negb (is_space c)) s.

(** [x] is a proper prefix of [old]: a scan for [old] that starts at
    [x] would have to look past the end of [x]. *)
Definition hangs (old x : string) : bool :=
  startswith x old && (String.length x <? String.length old)%nat.

(** No scan for [old] that starts inside [a] looks past the end of [a]. *)
Fixpoint safe (old a : string) : bool :=
  match a with
  | EmptyString => true
  | String _ a' => negb (hangs old a) && safe old a'
  end.

(** Whether the scan of [sub_spaces] is inside a run of white space
    after reading [s]. *)
Fixpoint ws_after (in_run : bool) (s : string) : bool :=
  match s with
  | EmptyString => in_run
  | String c s' => ws_after (is_space c) s'
  end.

Definition is_numeral (s : string) : bool :=
  match s with
  | EmptyString => false
  | _ => all_chars is_numeral_char s
  end.

(** The truth value of an optional string, and [a or b]. *)
Definition truthy_str (o : option string) : bool :=
  match o with
  | Some (String _ _) => true
  | _ => false
  end.

Definition py_or (a b : option string) : option string :=
  if truthy_str a then a else b.

(** The attributes [SdssQuery.__init__] sets. *)
Record SdssQuery : Type := {
  sciserver_user : option string;
  sciserver_pass : option string;
  casjobs_user : option string;
  casjobs_pass : option string;
  use_sciserver : bool;
  db_table_name : option string;
  query : string;
  context : string
}.

Section Query.

(** [format(x, '.10g')] for a float [x]. *)
Variable format_10g : Q -> string.

(** [SdssQuery.construct_query] *)
Definition construct_query (ra dec radius : angle) (db_table_name : option string)
  : string :=
  let '(db_table_name, select_into_mydb) :=
    match db_table_name with
    | None => ("TO_BE_REMOVED", false)
    | Some name => (name, true)
    end in
  let ra := ensure_deg ra in
  let dec := ensure_deg dec in
  let r_arcmin := (ensure_deg radius * 60)%Q in
  let q := _query_template (format_10g ra) (format_10g dec) (format_10g r_arcmin)
                           db_table_name in
  let q := strip (sub_spaces false q) in
  let q := replace ", " "," q in
  if negb select_into_mydb
  then replace ("INTO mydb." +:+ db_table_name +:+ " ") EmptyString q
  else q.

(** [os.getenv], the module flag [_HAS_SCISERVER_] and the draw of
    [get_random_string]. *)
Variable getenv : string -> option string.
Variable _HAS_SCISERVER_ : bool.
Variable get_random_string : nat -> string.

(** [SdssQuery.__init__] *)
Definition init (ra dec radius : angle) (db_table_name : option string)
    (context : string) (user password : option string)
    (default_use_sciserver : bool) : SdssQuery :=
  let sciserver_user := py_or user (getenv "SCISERVER_USER") in
  let sciserver_pass := py_or password (getenv "SCISERVER_PASS") in
  let casjobs_user := py_or user (getenv "CASJOBS_WSID") in
  let casjobs_pass := py_or password (getenv "CASJOBS_PW") in
  let use_sciserver :=
    default_use_sciserver && _HAS_SCISERVER_ &&
    truthy_str sciserver_user && truthy_str sciserver_pass in
  let db_table_name :=
    if use_sciserver then None
    else
      let db_table_name :=
        match db_table_name with
        | Some (String c s) => String c s
        | _ => "SAGA" +:+ get_random_string 4
        end in
      Some (keep_letters db_table_name) in
  {| sciserver_user := sciserver_user;
     sciserver_pass := sciserver_pass;
     casjobs_user := casjobs_user;
     casjobs_pass := casjobs_pass;
     use_sciserver := use_sciserver;
     db_table_name := db_table_name;
     query := construct_query ra dec radius db_table_name;
     context := context |}.

End Query.

End External.

(** ** Files ([SAGA/utils.py]: [get_decals_viewer_image], [gzip_compress]) *)

Module Files.
Import PyStr.

(** A [bytes] value, and the regular files of the file system by path. *)
Abbreviation bytes := (list Byte.byte).
Abbreviation files := (gmap string bytes).

(** [os.path.isfile(path)] and [os.path.getsize] of an existing file. *)
Definition isfile (fs : files) (path : string) : bool :=
  match fs !! path with
  | Some _ => true
  | None => false
  end.

Definition getsize (data : bytes) : Z := Z.of_nat (length data).

(** Exceptions that are not among [exn], and the outcome of a call that
    may raise any of them; [Exception] stands for an exception of a class
    that no [except] clause of the sources names. *)
Inductive raised : Type :=
  | Builtin (e : exn)
  | RuntimeError (msg : string)
  | AssertionError
  | Exception (msg : string).

Inductive outcome (A : Type) : Type :=
  | Done (a : A)
  | Fail (r : raised).
Arguments Done {A} a.
Arguments Fail {A} r.

Section IO.

(** The bytes a [gzip.open(_, 'wb')] file holds once the given bytes
    have been written to it and it is closed. *)
Variable gzip : bytes -> bytes.

(** Whether [open(path, 'wb')] succeeds. *)
Variable writable : string -> bool.

(** [requests.get(url).content], or the exception of [requests]; its
    exceptions are [IOError]s. *)
Variable requests_get : string -> result bytes.

(** [str(x)] for a float. *)
Variable str_float : Q -> string.

(** [get_decals_viewer_image] *)
Definition get_decals_viewer_image (fs : files) (ra dec pixscale : Q)
    (layer : string) (size : nat) (out : option string) : files * result bytes :=
  let url :=
    "http://legacysurvey.org/viewer-dev/jpeg-cutout/?ra=" +:+ str_float ra +:+
    "&dec=" +:+ str_float dec +:+ "&pixscale=" +:+ str_float pixscale +:+
    "&layer=" +:+ layer +:+ "&size=" +:+ pretty size in
  match requests_get url with
  | Raise e => (fs, Raise e)
  | Return content =>
      match out with
      | None => (fs, Return content)
      | Some out =>
          let out := if negb (endswith ".jpg" (lower out)) then out +:+ ".jpg"
                     else out in
          if writable out then (<[out := content]> fs, Return content)
          else (fs, Raise (IOError out))
      end
  end.

(** [gzip_compress].  The source is opened first; opening the output for
    writing creates or truncates it, and what is copied is what the
    source path holds after that. *)
Definition gzip_compress (fs : files) (path : string) (out_path : option string)
    (delete_original : bool) : files * result string :=
  let out_path := default (path +:+ ".gz") out_path in
  match fs !! path with
  | None => (fs, Raise (IOError path))
  | Some _ =>
      if negb (writable out_path) then (fs, Raise (IOError out_path))
      else
        let fs := <[out_path := []]> fs in
        let copied := default [] (fs !! path) in
        let fs := <[out_path := gzip copied]> fs in
        let fs := if delete_original then delete path fs else fs in
        (fs, Return out_path)
  end.

End IO.

End Files.

(** ** [SAGA/objects/sdss.py]: [run_casjob] *)

Module Sdss.
Import PyStr Files.

(** The calls made to the CasJobs service, in order.  Logging and
    [time.sleep] are not modelled. *)
Inductive call : Type :=
  | Submit (query : string)
  | Status
  | RequestOutput (table : string)
  | DropTable (table : string).

Section Casjob.

Variable gzip : bytes -> bytes.
Variable writable : string -> bool.

(** [k in os.environ] *)
Variable environ : string -> bool.

(** [cjob.submit(query)] returns a job id or raises. *)
Variable submit : string -> outcome unit.

(** The code that the call number [k] (from 0) of [cjob.status(job_id)]
    returns, or the exception it raises. *)
Variable status : nat -> outcome Z.

(** [cjob.request_and_get_output(table, 'FITS', path)] writes the bytes
    it has fetched to [path], or raises before writing. *)
Variable request_and_get_output : string -> outcome bytes.

(** [cjob.drop_table(table)] *)
Variable drop_table : string -> outcome unit.

(** The loop [while code != 5], entered after [k] calls of
    [cjob.status]: the number of calls made when the loop is left, with
    the exception that left it, if any; [None] when the loop is still
    running after [fuel] more calls. *)
Fixpoint wait (fuel k : nat) : option (nat * outcome unit) :=
  match fuel with
  | O => None
  | S fuel =>
      match status k with
      | Fail r => Some (S k, Fail r)
      | Done code => if code =? 5 then Some (S k, Done tt) else wait fuel (S k)
      end
  end.

(** [run_casjob]: the files and the calls made when it returns or
    raises; [None] when it is still waiting after [fuel] calls of
    [cjob.status]. *)
Definition run_casjob (fuel : nat) (fs : files)
    (query db_table_name output_path : string) (compress overwrite : bool)
  : option (files * list call * outcome unit) :=
  if negb (forallb environ ["CASJOBS_WSID"; "CASJOBS_PW"])
  then Some (fs, [], Fail (Builtin (ValueError "You are not setup to run casjobs")))
  else
    let output_path_tmp :=
      if compress then output_path +:+ ".tmp" else output_path in
    if overwrite || negb (isfile fs output_path) then
      match submit query with
      | Fail r => Some (fs, [Submit query], Fail r)
      | Done _ =>
          match wait fuel 0 with
          | None => None
          | Some (polls, Fail r) =>
              Some (fs, Submit query :: replicate polls Status, Fail r)
          | Some (polls, Done _) =>
              let calls := Submit query :: replicate polls Status
                           ++ [RequestOutput db_table_name] in
              match request_and_get_output db_table_name with
              | Fail r => Some (fs, calls, Fail r)
              | Done content =>
                  if negb (writable output_path_tmp)
                  then Some (fs, calls, Fail (Builtin (IOError output_path_tmp)))
                  else
                    let fs := <[output_path_tmp := content]> fs in
                    let calls := calls ++ [DropTable db_table_name] in
                    match drop_table db_table_name with
                    | Fail r => Some (fs, calls, Fail r)
                    | Done _ =>
                        if compress then
                          let '(fs, r) :=
                            gzip_compress gzip writable fs output_path_tmp
                              (Some output_path) true in
                          Some (fs, calls,
                                match r with
                                | Return _ => Done tt
                                | Raise e => Fail (Builtin e)
                                end)
                        else Some (fs, calls, Done tt)
                    end
              end
          end
      end
    else Some (fs, [], Done tt).

End Casjob.

End Sdss.

(** ** [SAGA/database/external.py]: running a query *)

Module Download.
Import PyStr Tables Files External.

(** The calls made to CasJobs and SciServer, in order.  What is printed
    is not modelled. *)
Inductive call : Type :=
  | Submit (query context task_name : string)
  | Monitor
  | RequestOutput (table : string)
  | DropTable (table : string)
  | Login (username password : string)
  | ExecuteQuery (query context : string).

(** The string an optional string stands for where it is known to be
    true. *)
Definition str_of (o : option string) : string := default EmptyString o.

Section Services.

Variable gzip : bytes -> bytes.
Variable writable : string -> bool.
Variable getenv : string -> option string.
Variable _HAS_CASJOBS_ : bool.
Variable _HAS_SCISERVER_ : bool.

(** [time.strftime('[%m/%d %H:%M:%S]')] *)
Variable strftime : string.

(** [cjob.submit(query, context=.., task_name=.., estimate=1)] *)
Variable submit : string -> string -> string -> outcome unit.

(** The code of [cjob.monitor(job_id)] for the job of a query. *)
Variable monitor : string -> outcome Z.

(** [cjob.request_and_get_output(table, 'FITS', f_out)] writes the bytes
    it has fetched to [f_out], or raises before writing. *)
Variable request_and_get_output : string -> outcome bytes.

(** [cjob.drop_table(table)] *)
Variable drop_table : string -> outcome unit.

(** [SciServer.Authentication.login(username, password)] *)
Variable login : string -> string -> outcome unit.

(** [SciServer.CasJobs.executeQuery(query, context=.., format="fits")],
    read to its end. *)
Variable executeQuery : string -> string -> outcome bytes.

Definition file_open (compress : bool) (content : bytes) : bytes :=
  if compress then gzip content else content.

(** [SdssQuery.run_casjobs_with_casjobs]; the table name is the
    attribute [db_table_name], which may be [None]. *)
Definition run_casjobs_with_casjobs (fs : files) (query : string)
    (db_table_name : option string) (output_path : string) (compress : bool)
    (context : string) (userid password : option string)
  : files * list call * outcome unit :=
  if negb _HAS_CASJOBS_
  then (fs, [], Fail (Builtin (ValueError "Please install casjobs.")))
  else
    match db_table_name with
    | None => (fs, [], Fail (Builtin (TypeError "must be str, not NoneType")))
    | Some db_table_name =>
        let task_name := "casjobs_" +:+ db_table_name in
        match submit query context task_name with
        | Fail r => (fs, [Submit query context task_name], Fail r)
        | Done _ =>
            let calls := [Submit query context task_name; Monitor] in
            match monitor query with
            | Fail r => (fs, calls, Fail r)
            | Done code =>
                if (code =? 3) || (code =? 4)
                then (fs, calls,
                      Fail (RuntimeError
                              (strftime +:+ " casjob (" +:+ db_table_name +:+ ") "
                               +:+ (if code =? 3 then "cancelled" else "failed")
                               +:+ "!")))
                else if negb (code =? 5) then (fs, calls, Fail AssertionError)
                else if negb (writable output_path)
                then (fs, calls, Fail (Builtin (IOError output_path)))
                else
                  let calls := calls ++ [RequestOutput db_table_name;
                                         DropTable db_table_name] in
                  match request_and_get_output db_table_name with
                  | Fail r =>
                      (<[output_path := file_open compress []]> fs, calls,
                       match drop_table db_table_name with
                       | Fail r' => Fail r'
                       | Done _ => Fail r
                       end)
                  | Done content =>
                      (<[output_path := file_open compress content]> fs, calls,
                       drop_table db_table_name)
                  end
            end
        end
    end.

(** [SdssQuery.run_casjobs_with_sciserver] *)
Definition run_casjobs_with_sciserver (fs : files) (query output_path : string)
    (compress : bool) (context : string) (username password : option string)
  : files * list call * outcome unit :=
  let username := py_or username (getenv "SCISERVER_USER") in
  let password := py_or password (getenv "SCISERVER_PASS") in
  if negb (_HAS_SCISERVER_ && truthy_str username && truthy_str password)
  then (fs, [],
        Fail (Builtin (ValueError "You are not setup to run casjobs with SciServer")))
  else
    let calls := [Login (str_of username) (str_of password)] in
    match login (str_of username) (str_of password) with
    | Fail r => (fs, calls, Fail r)
    | Done _ =>
        let calls := calls ++ [ExecuteQuery query context] in
        match executeQuery query context with
        | Fail r => (fs, calls, Fail r)
        | Done r =>
            if negb (writable output_path)
            then (fs, calls, Fail (Builtin (IOError output_path)))
            else (<[output_path := file_open compress r]> fs, calls, Done tt)
        end
    end.

(** [SdssQuery.download_as_file] *)
Definition download_as_file (self : SdssQuery) (fs : files) (file_path : string)
    (overwrite compress : bool) : files * list call * outcome unit :=
  if isfile fs file_path && negb overwrite then (fs, [], Done tt)
  else if use_sciserver self
  then run_casjobs_with_sciserver fs (query self) file_path compress
         (context self) (sciserver_user self) (sciserver_pass self)
  else run_casjobs_with_casjobs fs (query self) (db_table_name self) file_path
         compress (context self) (casjobs_user self) (casjobs_pass self).

End Services.

(** What [download_catalogs_for_hosts] needs of a query object: its
    method [download_as_file(path, overwrite=.., compress=..)]. *)
Definition downloader : Type :=
  string -> bool -> bool -> files -> files * list call * outcome unit.

(** The method of an [SdssQuery] object; [download] is
    [download_as_file] with its services. *)
Definition method_of
    (download : SdssQuery -> files -> string -> bool -> bool ->
                files * list call * outcome unit)
    (self : SdssQuery) : downloader :=
  fun path overwrite compress fs => download self fs path overwrite compress.

(** The exceptions of [except (IOError, OSError, RuntimeError)]. *)
Definition caught (r : raised) : bool :=
  match r with
  | Builtin (IOError _) => true
  | RuntimeError _ => true
  | _ => false
  end.

Section Hosts.

(** [query_class(host_ra, host_dec, **query_class_kwargs)], which may
    raise. *)
Variable query_class : cell -> cell -> outcome downloader.

(** [file_path_pattern.format(host_id)] *)
Variable format : string -> cell -> string.

Variable file_path_pattern : string.
Variables overwrite compress : bool.
Variables host_id_label host_ra_label host_dec_label : string.

(** [host[label]] for a row of the table. *)
Definition row_get (host : Row) (label : string) : outcome cell :=
  match Utils.dict_get label host with
  | Some v => Done v
  | None => Fail (Builtin (KeyError label))
  end.

(** The loop over the rows: the flags of [failed] for the rows given,
    or the exception that ends the loop. *)
Fixpoint download_all (hosts : list Row) (fs : files)
  : files * list call * outcome (list bool) :=
  match hosts with
  | [] => (fs, [], Done [])
  | host :: rest =>
      let next (fs : files) (calls : list call) (flag : bool) :=
        let '(fs, calls', failed) := download_all rest fs in
        (fs, calls ++ calls',
         match failed with
         | Done failed => Done (flag :: failed)
         | Fail r => Fail r
         end) in
      match row_get host host_id_label with
      | Fail r => (fs, [], Fail r)
      | Done host_id =>
      match row_get host host_ra_label with
      | Fail r => (fs, [], Fail r)
      | Done host_ra =>
      match row_get host host_dec_label with
      | Fail r => (fs, [], Fail r)
      | Done host_dec =>
          let path := format file_path_pattern host_id in
          match query_class host_ra host_dec with
          | Fail r => (fs, [], Fail r)
          | Done query_obj =>
              let '(fs, calls, r) := query_obj path overwrite compress fs in
              match r with
              | Fail r =>
                  if caught r then next fs calls true else (fs, calls, Fail r)
              | Done _ =>
                  match fs !! path with
                  | None => (fs, calls, Fail (Builtin (IOError path)))
                  | Some data =>
                      if getsize data <? 1000000
                      then next (delete path fs) calls true
                      else next fs calls false
                  end
              end
          end
      end end end
  end.

(** [download_catalogs_for_hosts]; [file_size_check] is an argument of
    the function. *)
Definition download_catalogs_for_hosts (fs : files) (hosts : Table)
    (file_size_check : Q) : files * list call * outcome (list bool) :=
  download_all (rows hosts) fs.

End Hosts.

End Download.

(** ** The number a decimal numeral denotes *)

Module HostsSpec.

Definition digit_value (c : ascii) : Z := Z.of_nat (nat_of_ascii c) - 48.

(** The value of a string of decimal digits, most significant first. *)
Definition decimal (digits : string) : Z :=
  fold_left (fun acc c => 10 * acc + digit_value c)
            (list_ascii_of_string digits) 0.

Definition all_digits (s : string) : bool :=
  forallb PyStr.is_digit (list_ascii_of_string s).

End HostsSpec.

(** ** The catalog files of a host table *)

Module DownloadSpec.
Import Tables Files Download.

(** The path of the catalog of a host row. *)
Definition host_path (format : string -> cell -> string)
    (file_path_pattern host_id_label : string) (host : Row) : string :=
  format file_path_pattern (default NaN (Utils.dict_get host_id_label host)).

(** The objects of a query class write no file but the one they are
    asked to download. *)
Definition writes_only_its_path (query_class : cell -> cell -> outcome downloader)
  : Prop :=
  forall ra dec query_obj path overwrite compress fs fs' calls r,
    query_class ra dec = Done query_obj ->
    query_obj path overwrite compress fs = (fs', calls, r) ->
    forall p, p <> path -> fs' !! p = fs !! p.

(** The flags of the rows from a row on: its own flag before those of
    the rows after it, unless the loop ended with an exception. *)
Definition flagged (flag : bool) (failed : outcome (list bool))
  : outcome (list bool) :=
  match failed with
  | Done failed => Done (flag :: failed)
  | Fail r => Fail r
  end.

End DownloadSpec.

(** ** The rows a query matches *)

Module FillSpec.
Import Tables.

(** The numbers of the rows of [table] that satisfy [query]. *)
Definition matching_rows (query : Query) (table : Table) : list nat :=
  List.filter (fun i => query (row_at table i)) (seq 0 (nrows table)).


(** Every column the map names exists and converts its value. *)
Definition storable (astype : Column -> cell -> result cell)
    (table : Table) (values_to_fill : list (string * cell)) : Prop :=
  Forall (fun cv => exists col x, getcol cv.1 table = Some col /\
                                  astype col cv.2 = Return x) values_to_fill.

End FillSpec.

(** ** Cells of a numeric column *)

Module SpectraSpec.
Import PyStr Tables Spectra.

(** [x + corr] on a cell of a numeric column. *)
Definition shift_cell (corr : Q) (c : cell) : cell :=
  match c with
  | Num q => Num (q + corr)
  | other => other
  end.

Definition is_number (c : cell) : bool :=
  match c with
  | Num _ | NaN => true
  | _ => false
  end.

End SpectraSpec.

(** ** Concrete inputs used by the examples *)

Module Examples.
Import Hosts.

(** A small host list: three named hosts out of five known ids. *)
Definition catalog : HostCatalog :=
  init [166313; 147100; 61945; 13927; 85746]
       [("Odyssey", 147100); ("AnaK", 61945); ("Gilgamesh", 166313)].

(** Two positions on the celestial equator whose right ascensions differ
    by less than 180 degrees are separated by the difference of their
    right ascensions; the examples use only such positions. *)
Definition equator_separation (p q : Utils.coord) : Q := Qabs (p.1 - q.1).

Import Tables.

Definition base : Table :=
  [("OBJID", [Num 1; Num 2; Num 3]);
   ("RA", [Num 10; Num 20; Num 30]);
   ("DEC", [Num 0; Num 0; Num 0])].

(** A catalog whose positions are all 90 degrees or more from [base]. *)
Definition wise_far : Table :=
  [("RA", [Num 120; Num 130]);
   ("DEC", [Num 0; Num 0]);
   ("W1_MAG", [Num 15; Num 16])].

(** A catalog with two rows within one arcsecond of the second row of
    [base]. *)
Definition wise_near : Table :=
  [("RA", [Num (200001 # 10000); Num 120; Num (199999 # 10000)]);
   ("DEC", [Num 0; Num 0; Num 0]);
   ("W1_MAG", [Num 15; Num 16; Num 17])].

Definition one_arcsec : Q := 1 # 3600.

(** The three-dimensional distance of two such positions on the unit
    sphere, to the first order: the separation in radians. *)
Definition equator_distance (p q : Utils.coord) : Q :=
  equator_separation p q * (3141593 # 180000000).

(** The conversion on assignment, for the assignments that the examples
    make: a number or a NaN is stored as it is in a column of numbers, a
    truth value in a column of truth values and a string in a column of
    strings wide enough for it; a string that is not a numeral is
    refused by a column of numbers.  The examples make no other
    assignment; here it is refused as well. *)
Definition same_kind (col : Column) (v : cell) : result cell :=
  match col, v with
  | (Num _ | NaN) :: _, (Num _ | NaN) => Return v
  | Str _ :: _, Str _ => Return v
  | Bool _ :: _, Bool _ => Return v
  | (Num _ | NaN) :: _, Str _ =>
      Raise (ValueError "could not convert string to float")
  | _, _ => Raise (ValueError "could not convert")
  end.

(** A row of the examples is never equal to a string. *)
Definition row_is : Row -> string -> bool := fun _ _ => false.

(** The query [OBJID == 2]. *)
Definition objid_is_2 : Query := fun row =>
  match Utils.dict_get "OBJID" row with
  | Some (Num q) => Qeq_bool q 2
  | _ => false
  end.


(** *** A directory of spectra *)

Import Spectra.

(** The instance of [ensure_specs_dtype] used by the examples: their
    tables need no coercion and are returned as they are. *)
Definition no_coercion : Table -> bool -> result Table := fun t _ => Return t.

Definition speed_of_light : Q := 299792458 # 1000.

(** Two masks have a companion FITS file, observed on MJD 58000 and MJD
    56000; any other path cannot be opened. *)
Definition header (mjd : Q) : gmap string cell :=
  list_to_map [("RA", Str "10:00:00"); ("DEC", Str "+02:00:00"); ("MJD", Num mjd);
               ("MEANRA", Num 150); ("MEANDEC", Num 2); ("UTMJD", Num mjd)].

Definition fits_headers (path : string) : result (gmap string cell) :=
  if String.eqb path "/spectra/late.fits.gz" then Return (header 58000)
  else if String.eqb path "/spectra/early.fits.gz" then Return (header 56000)
  else Raise (IOError "No such file or directory").

(** A fixed value stands for the heliocentric correction. *)
Definition fixed_correction : string -> cell -> cell -> Q -> Q :=
  fun _ _ _ _ => 1 # 10000.

(** One data line of a [.zlog] file (eleven fields) and of a [.mz] file
    (fifteen fields), for an object of quality 4. *)
Definition zlog_line (objid : string) (z : Q) : list cell :=
  [Num 1; Num 10; Num 2; Num 20; Num z; Num (1 # 1000); Num 4; Str objid;
   NaN; NaN; NaN].

Definition mz_line (objid : string) (z : Q) : list cell :=
  [Str objid; NaN; Num 2; Num (1 # 10); NaN; NaN; NaN; NaN; NaN; NaN; NaN; NaN;
   Num z; Num 4; NaN].

Definition zlog_dir : list (string * file) :=
  [("late.zlog", Lines [zlog_line "a1" (1 # 10)]);
   ("early.zlog", Lines [zlog_line "b1" (2 # 10); zlog_line "b2" (3 # 10)])].

Definition mz_dir : list (string * file) :=
  [("late.mz", Lines [mz_line "a1" (1 # 10)]);
   ("early.mz", Lines [mz_line "b1" (2 # 10); mz_line "b2" (3 # 10)])].

(** A directory with a file that cannot be opened, a file with rows and
    a file observed after the cutoff. *)
Definition mixed_dir : list (string * file) :=
  [("broken.zlog", Unreadable "Permission denied");
   ("early.zlog", Lines [zlog_line "b1" (2 # 10)]);
   ("late.zlog", Lines [zlog_line "a1" (1 # 10)])].

Definition conflicted_dir : list (string * file) :=
  [("early.zlog", Lines [zlog_line "b1" (2 # 10)]);
   ("early (conflicted copy 2017-01-01).zlog", Lines [zlog_line "c1" (9 # 10)])].

Definition cutoff : option Q := Some 57000%Q.

(** The rows of one mask as [midprocess] receives them: with a companion
    FITS file observed before the cutoff, and without one. *)
Definition early_mask : Table :=
  [("SPEC_Z", [Num (2 # 10); NaN]);
   ("ZQUALITY", [Num 4; Num 3]);
   ("MASKNAME", [Str "early.zlog"; Str "early.zlog"])].

Definition orphan_mask : Table :=
  [("SPEC_Z", [Num (2 # 10); Num (3 # 10)]);
   ("ZQUALITY", [Num 4; Num 3]);
   ("MASKNAME", [Str "orphan.zlog"; Str "orphan.zlog"])].

(** *** Files and services *)

Import Files.

(** A stand-in for the compression: the two magic bytes of gzip before
    the data. *)
Definition gz (data : bytes) : bytes := Byte.x1f :: Byte.x8b :: data.

Definition any_path : string -> bool := fun _ => true.

Definition disk : files :=
  {[ "/data/nsa61945.fits" := [Byte.x53; Byte.x49; Byte.x4d] ]}.

(** Both environment variables of CasJobs are set; a job is accepted,
    reports "started" twice and then "finished"; another job stays
    "cancelled". *)
Definition environment : string -> bool := fun _ => true.

Definition accepted : string -> outcome unit := fun _ => Done tt.

Definition finishes_third : nat -> outcome Z := fun k =>
  Done (if (k <? 2)%nat then 1 else 5).

Definition cancelled : nat -> outcome Z := fun _ => Done 3.

Definition fetched : string -> outcome bytes := fun _ =>
  Done [Byte.x53; Byte.x49; Byte.x4d].

(** The services of [SdssQuery]: the credentials of SciServer are in
    the environment, every call succeeds, a job is reported finished and
    a query is answered with a catalog of 10^6 bytes. *)
Import Tables External Download.

Definition sciserver_environment : string -> option string := fun k =>
  if String.eqb k "SCISERVER_USER" then Some "saga"
  else if String.eqb k "SCISERVER_PASS" then Some "secret"
  else None.

Definition submitted : string -> string -> string -> outcome unit :=
  fun _ _ _ => Done tt.

Definition finished : string -> outcome Z := fun _ => Done 5.

Definition logged_in : string -> string -> outcome unit := fun _ _ => Done tt.

Definition catalog_bytes : bytes := replicate (Z.to_nat 1000000) Byte.x00.

Definition answered : string -> string -> outcome bytes :=
  fun _ _ => Done catalog_bytes.

Definition host_table : Table :=
  [("NSAID", [Num 61945; Num 13927]);
   ("RA", [Num 10; Num 20]);
   ("Dec", [Num 0; Num 1])].

(** [pattern.format(host_id)] for a pattern with one field. *)
Definition nsa_path (pattern : string) (host_id : cell) : string :=
  PyStr.replace "{}"
    match host_id with
    | Num q => pretty (Qnum q)
    | Str s => s
    | _ => "nan"
    end
    pattern.

(** *** An SDSS query *)

(** The [.10g] format of the three numbers of the example query: right
    ascension 150.25, declination 2.5 and a radius of one degree, that
    is, 60 arc minutes. *)
Definition format_example (x : Q) : string :=
  if Qeq_bool x (60100 # 400) then "150.25"
  else if Qeq_bool x (5 # 2) then "2.5"
  else if Qeq_bool x 60 then "60"
  else "nan".

Definition no_environment : string -> option string := fun _ => None.

(** The draw of [get_random_string(4)] in the example. *)
Definition drawn : nat -> string := fun _ => "qxzv".

(** [SdssQuery] as the query class of [download_catalogs_for_hosts],
    for hosts whose coordinates are numbers, with the services above. *)
Definition sdss_download :=
  download_as_file gz any_path sciserver_environment true true
    "[11/04 12:00:00]" submitted finished fetched accepted logged_in answered.

Definition sdss_query (ra dec : cell) : outcome downloader :=
  match ra, dec with
  | Num ra, Num dec =>
      Done (method_of sdss_download
              (init format_example sciserver_environment true drawn
                 (Float ra) (Float dec) (Float 1) None "DR14" None None true))
  | _, _ => Fail (Builtin (TypeError "float() argument must be a number"))
  end.

End Examples.

(** * Properties *)

(** ** Facts about the string primitives *)

Module PyStrFacts.
Import PyStr.

Lemma lower_char_inv (c d : ascii) :
  lower_char c = d ->
  c = d \/ (is_lower d = true /\ c = ascii_of_nat (nat_of_ascii d - 32)).
Proof.
  intros <-.
  destruct c as [[] [] [] [] [] [] [] []]; vm_compute; auto.
Qed.

Lemma lower_char_idemp (c : ascii) : lower_char (lower_char c) = lower_char c.
Proof. destruct c as [[] [] [] [] [] [] [] []]; reflexivity. Qed.

Lemma lower_idemp (s : string) : lower (lower s) = lower s.
Proof.
  induction s as [|c s IH]; simpl; [reflexivity|].
  now rewrite lower_char_idemp, IH.
Qed.

Lemma lower_inv_nil (s : string) : lower s = EmptyString -> s = EmptyString.
Proof. destruct s; simpl; congruence. Qed.

Lemma lower_inv_cons (s : string) (d : ascii) (t : string) :
  lower s = String d t ->
  exists c s', s = String c s' /\ lower_char c = d /\ lower s' = t.
Proof.
  destruct s as [|c s']; simpl; [discriminate|].
  intros [= Hc Hs]. eauto.
Qed.

End PyStrFacts.

(** ** Host resolution *)

Module HostsFacts.
Import PyStr PyStrFacts Hosts.

Lemma resolve_id_int (self : HostCatalog) (n : Z) :
  resolve_id self (HInt n) = Return [n].
Proof. reflexivity. Qed.

Lemma resolve_id_str (self : HostCatalog) (s : string) :
  resolve_id self (HStr s) =
  match int_of_str s with
  | Some n => Return [n]
  | None => resolve_name self s
  end.
Proof. simpl. destruct (int_of_str s); reflexivity. Qed.

(** A list is resolved element by element, left to right; the results
    are concatenated and the first exception aborts the call. *)
Lemma resolve_id_list (self : HostCatalog) (l : list hosts) :
  resolve_id self (HList l) = @concat Z <$> mapM (resolve_id self) l.
Proof.
  change (resolve_id self (HList l)) with
    ((fix extend_all (l : list hosts) : result (list Z) :=
        match l with
        | [] => Return []
        | host :: rest =>
            ids ← resolve_id self host;
            out ← extend_all rest;
            Return (ids ++ out)
        end) l).
  induction l as [|h l IH]; [reflexivity|].
  rewrite IH. cbn [mapM].
  destruct (resolve_id self h) as [ids|e]; [|reflexivity].
  cbn. destruct (mapM (resolve_id self) l) as [rs|e]; reflexivity.
Qed.

Lemma mapM_resolved (self : HostCatalog) (l : list hosts) (rs : list (list Z)) :
  Forall2 (fun h r => resolve_id self h = Return r) l rs ->
  mapM (resolve_id self) l = Return rs.
Proof.
  induction 1 as [|h r l rs Hh _ IH]; [reflexivity|].
  cbn [mapM]. rewrite Hh, IH. reflexivity.
Qed.

Lemma mapM_first_failure (self : HostCatalog) pre rs h e post :
  Forall2 (fun h r => resolve_id self h = Return r) pre rs ->
  resolve_id self h = Raise e ->
  mapM (resolve_id self) (pre ++ h :: post) = Raise e.
Proof.
  intros Hpre Hh. induction Hpre as [|h' r l rs' Hh' _ IH]; cbn [mapM app].
  - now rewrite Hh.
  - now rewrite Hh', IH.
Qed.

(** The name dictionary built by [init] has no entry for a key exactly
    when no named host lower-cases to that key. *)
Lemma dict_of_pairs_lookup_None {V} (l : list (string * V)) (k : string) :
  dict_of_pairs l !! k = None <-> Forall (fun p => p.1 <> k) l.
Proof.
  unfold dict_of_pairs.
  assert (G : forall (m : gmap string V),
    foldl (fun m p => <[p.1 := p.2]> m) m l !! k = None <->
    m !! k = None /\ Forall (fun p => p.1 <> k) l).
  { induction l as [|[a v] l IH]; intros m; simpl.
    - split; [intros H; split; [exact H|constructor] | intros [H _]; exact H].
    - rewrite IH, Forall_cons. simpl.
      destruct (decide (a = k)) as [->|Hne].
      + rewrite lookup_insert_eq. split; [intros [[=] _] | intros (_ & Hk & _); congruence].
      + rewrite lookup_insert_ne by exact Hne. tauto. }
  rewrite G, lookup_empty. tauto.
Qed.

Lemma init_unknown_name all_ids named (s : string) :
  _host_name_to_id (init all_ids named) !! lower s = None <->
  Forall (fun p => lower p.1 <> lower s) named.
Proof.
  unfold init; simpl. rewrite dict_of_pairs_lookup_None, Forall_map.
  reflexivity.
Qed.

(** [int] on a plain decimal numeral, with or without a minus sign. *)
Lemma parse_digits_decimal (d : string) :
  forall (acc : Z) (prev : bool),
    HostsSpec.all_digits d = true ->
    d <> EmptyString \/ prev = true ->
    parse_digits acc prev d
    = Some (fold_left (fun acc c => 10 * acc + HostsSpec.digit_value c)
                      (list_ascii_of_string d) acc).
Proof.
  unfold HostsSpec.all_digits.
  induction d as [|c d IH]; intros acc prev Hd Hne.
  - destruct Hne as [Hne| ->]; [congruence|reflexivity].
  - cbn [list_ascii_of_string forallb] in Hd.
    apply andb_true_iff in Hd as [Hc Hd].
    cbn [parse_digits list_ascii_of_string fold_left]. rewrite Hc.
    rewrite (IH _ true Hd) by now right.
    unfold HostsSpec.digit_value. do 2 f_equal.
    unfold is_digit in Hc. apply andb_true_iff in Hc as [Hlo%Nat.leb_le _]. lia.
Qed.

Lemma digit_not_int_space (c : ascii) :
  is_digit c = true ->
  is_int_space c = false /\ c <> "+"%char /\ c <> "-"%char.
Proof.
  destruct c as [[] [] [] [] [] [] [] []]; vm_compute; intros H;
    try discriminate H; repeat split; discriminate.
Qed.

Lemma int_rstrip_digits (d : string) :
  HostsSpec.all_digits d = true -> int_rstrip d = d.
Proof.
  unfold HostsSpec.all_digits. induction d as [|c d IH]; [reflexivity|].
  cbn [list_ascii_of_string forallb]. intros [Hc Hd]%andb_true_iff.
  cbn [int_rstrip]. rewrite (IH Hd).
  destruct (digit_not_int_space c Hc) as (-> & _). now destruct d.
Qed.

Lemma int_of_str_decimal (d : string) :
  d <> EmptyString -> HostsSpec.all_digits d = true ->
  int_of_str d = Some (HostsSpec.decimal d) /\
  int_of_str ("-" +:+ d) = Some (- HostsSpec.decimal d).
Proof.
  intros Hne Hd. unfold int_of_str, HostsSpec.decimal. split.
  - destruct d as [|c d]; [congruence|].
    assert (Hc : is_digit c = true).
    { unfold HostsSpec.all_digits in Hd. cbn in Hd.
      now apply andb_true_iff in Hd as [? _]. }
    destruct (digit_not_int_space c Hc) as (Hsp & Hplus & Hminus).
    cbn [int_lstrip]. rewrite Hsp, (int_rstrip_digits _ Hd).
    rewrite <- (parse_digits_decimal (String c d) 0 false Hd) by now left.
    destruct c as [[] [] [] [] [] [] [] []]; try reflexivity; congruence.
  - change ("-" +:+ d) with (String "-" d). cbn [int_lstrip].
    change (is_int_space "-") with false. cbn [int_rstrip].
    rewrite (int_rstrip_digits _ Hd).
    destruct d as [|c d]; [congruence|].
    now rewrite (parse_digits_decimal (String c d) 0 false Hd) by now left.
Qed.

End HostsFacts.

(** ** Claims about [resolve_id] *)

Module HostsClaims.
Import PyStr PyStrFacts Hosts HostsFacts.

(** C7: [resolve_id] always returns a list, never a bare scalar (its
    result type is a list of ids): a numeric token [n] gives the
    one-element list [[n]], a numeric string [s] gives [[int(s)]] (for a
    string of decimal digits, with or without a minus sign, the number
    that the digits denote), and a list gives the concatenation, in
    input order and without deduplication, of the lists its elements
    resolve to; in particular [resolve_id([12345, "AnaK"])] is
    [[12345, <AnaK's id>]]. *)
Theorem resolve_id_returns_list (self : HostCatalog) :
  (forall n : Z, resolve_id self (HInt n) = Return [n]) /\
  (forall (s : string) (n : Z),
      int_of_str s = Some n -> resolve_id self (HStr s) = Return [n]) /\
  (forall d : string,
      d <> EmptyString -> HostsSpec.all_digits d = true ->
      resolve_id self (HStr d) = Return [HostsSpec.decimal d] /\
      resolve_id self (HStr ("-" +:+ d)) = Return [- HostsSpec.decimal d]) /\
  (forall (l : list hosts) (rs : list (list Z)),
      Forall2 (fun h r => resolve_id self h = Return r) l rs ->
      resolve_id self (HList l) = Return (concat rs)) /\
  (forall i : Z,
      _host_name_to_id self !! "anak" = Some i ->
      resolve_id self (HList [HInt 12345; HStr "AnaK"]) = Return [12345; i]).
Proof.
  split; [reflexivity|]. split; [|split; [|split]].
  - intros s n Hs. rewrite resolve_id_str, Hs. reflexivity.
  - intros d Hne Hd. rewrite !resolve_id_str.
    destruct (int_of_str_decimal d Hne Hd) as [-> ->]. now split.
  - intros l rs Hl. rewrite resolve_id_list, (mapM_resolved _ _ _ Hl).
    reflexivity.
  - intros i Hi. rewrite resolve_id_list. cbn [mapM].
    rewrite resolve_id_int, resolve_id_str.
    change (int_of_str "AnaK") with (@None Z).
    unfold resolve_name.
    change (lower "AnaK") with "anak".
    change (lower "anak") with "anak". cbn [String.eqb Ascii.eqb Bool.eqb].
    rewrite Hi. reflexivity.
Qed.

Lemma resolve_id_returns_list_witness :
  resolve_id Examples.catalog (HStr " +61_945 ") = Return [61945] /\
  resolve_id Examples.catalog (HStr "-0042") = Return [-42] /\
  resolve_id Examples.catalog
    (HList [HInt 5; HList [HStr "anak"; HInt 5]; HStr "ANAK"])
  = Return [5; 61945; 5; 61945] /\
  resolve_id Examples.catalog (HList [HInt 12345; HStr "AnaK"])
  = Return [12345; 61945].
Proof.
  destruct (resolve_id_returns_list Examples.catalog)
    as (_ & Hs & Hd & Hl & Ha).
  split; [apply Hs; reflexivity|].
  split; [apply (Hd "0042"); [discriminate|reflexivity]|].
  split; [|apply Ha; reflexivity].
  apply (Hl _ [[5]; [61945; 5]; [61945]]).
  repeat constructor; reflexivity.
Defined.

(** C8: [resolve_id("paper1")], in any mix of upper and lower case,
    returns the paper1-complete ids followed by the paper1-incomplete
    ids, sixteen ids in all. *)
Theorem resolve_id_paper1 (self : HostCatalog) (s : string) :
  lower s = "paper1" ->
  resolve_id self (HStr s)
  = Return (_paper1_complete_hosts ++ _paper1_incomplete_hosts) /\
  length (_paper1_complete_hosts ++ _paper1_incomplete_hosts) = 16%nat.
Proof.
  intros Hs. split; [|reflexivity].
  repeat (apply lower_inv_cons in Hs as (? & ? & -> & ?%lower_char_inv & Hs)).
  apply lower_inv_nil in Hs as ->.
  repeat match goal with
         | H : _ \/ _ |- _ => destruct H as [-> | [Hlow ->]];
             [|first [discriminate Hlow | clear Hlow]]
         end;
    reflexivity.
Qed.

Lemma resolve_id_paper1_witness :
  resolve_id Examples.catalog (HStr "Paper1")
  = Return [166313; 147100; 165536; 61945; 132339; 149781; 33446; 150887;
            161174; 85746; 145729; 140594; 126115; 13927; 137625; 129237].
Proof.
  apply (resolve_id_paper1 Examples.catalog "Paper1"). reflexivity.
Defined.

(** C9: a string that [int] rejects, that is none of the shorthands
    "all", "paper1", "paper1_complete", "paper1_incomplete" and that has
    no entry in the lower-cased name dictionary makes [resolve_id] raise
    the ValueError "cannot resolve <token>", the token being named in
    its lower-cased form; nothing catches the error, so a list
    containing such a token raises the same error once the elements
    before it have resolved. *)
Theorem resolve_id_unknown_raises (self : HostCatalog) (s : string) :
  int_of_str s = None ->
  lower s <> "all" ->
  lower s <> "paper1" ->
  lower s <> "paper1_complete" ->
  lower s <> "paper1_incomplete" ->
  _host_name_to_id self !! lower s = None ->
  resolve_id self (HStr s)
  = Raise (ValueError ("cannot resolve " +:+ lower s)) /\
  (forall (pre post : list hosts) (rs : list (list Z)),
      Forall2 (fun h r => resolve_id self h = Return r) pre rs ->
      resolve_id self (HList (pre ++ HStr s :: post))
      = Raise (ValueError ("cannot resolve " +:+ lower s))).
Proof.
  intros Hint Hall Hp Hc Hi Hname.
  assert (Hstr : resolve_id self (HStr s)
                 = Raise (ValueError ("cannot resolve " +:+ lower s))).
  { rewrite resolve_id_str, Hint. unfold resolve_name.
    rewrite (proj2 (String.eqb_neq _ _) Hall), (proj2 (String.eqb_neq _ _) Hc),
      (proj2 (String.eqb_neq _ _) Hi), (proj2 (String.eqb_neq _ _) Hp).
    rewrite lower_idemp, Hname. reflexivity. }
  split; [exact Hstr|].
  intros pre post rs Hpre.
  rewrite resolve_id_list, (mapM_first_failure _ _ _ _ _ _ Hpre Hstr).
  reflexivity.
Qed.

Lemma resolve_id_unknown_raises_witness :
  resolve_id Examples.catalog (HStr "NGC 1015")
  = Raise (ValueError "cannot resolve ngc 1015") /\
  resolve_id Examples.catalog (HList [HInt 7; HStr "AnaK"; HStr "NGC 1015"; HInt 8])
  = Raise (ValueError "cannot resolve ngc 1015").
Proof.
  assert (H := resolve_id_unknown_raises Examples.catalog "NGC 1015").
  destruct H as [Hs Hl]; try (reflexivity || discriminate).
  split; [exact Hs|].
  apply (Hl [HInt 7; HStr "AnaK"] [HInt 8] [[7]; [61945]]).
  repeat constructor; reflexivity.
Defined.

End HostsClaims.

(** ** Facts about tables *)

Module TablesFacts.
Import Tables.

Lemma getcol_setcol_eq (n : string) (c : Column) (t : Table) :
  getcol n (setcol n c t) = Some c.
Proof.
  induction t as [|[n0 c0] t IH]; simpl.
  - now rewrite String.eqb_refl.
  - destruct (String.eqb n0 n) eqn:E; simpl; rewrite E; [reflexivity|exact IH].
Qed.

Lemma getcol_setcol_ne (n n' : string) (c : Column) (t : Table) :
  n <> n' -> getcol n' (setcol n c t) = getcol n' t.
Proof.
  intros Hne. induction t as [|[n0 c0] t IH]; simpl.
  - now rewrite (proj2 (String.eqb_neq _ _) Hne).
  - destruct (String.eqb n0 n) eqn:E; simpl.
    + apply String.eqb_eq in E as ->.
      now rewrite (proj2 (String.eqb_neq _ _) Hne).
    + now rewrite IH.
Qed.

Lemma colnames_setcol_present (n : string) (c : Column) (t : Table) :
  has_col n t = true -> colnames (setcol n c t) = colnames t.
Proof.
  unfold has_col. induction t as [|[n0 c0] t IH]; simpl; [discriminate|].
  destruct (String.eqb n0 n); simpl; [reflexivity|].
  intros H. now rewrite IH.
Qed.

Lemma nrows_setcol (n : string) (c : Column) (t : Table) :
  length c = nrows t -> nrows (setcol n c t) = nrows t.
Proof.
  destruct t as [|[n0 c0] t]; simpl; [easy|].
  destruct (String.eqb n0 n); simpl; easy.
Qed.

Lemma table_ok_getcol (n : string) (c : Column) (t : Table) :
  table_ok t -> getcol n t = Some c -> length c = nrows t.
Proof.
  unfold table_ok. generalize (nrows t) as k. intros k Hok.
  induction Hok as [|[n0 c0] t H0 _ IH]; simpl; [discriminate|].
  destruct (String.eqb n0 n); [intros [= <-]; exact H0 | exact IH].
Qed.

Lemma Forall_length_setcol (k : nat) (n : string) (c : Column) (t : Table) :
  Forall (fun nc => length nc.2 = k) t -> length c = k ->
  Forall (fun nc => length nc.2 = k) (setcol n c t).
Proof.
  intros Hok Hc. induction Hok as [|[n0 c0] t H0 Hok IH]; simpl.
  - repeat constructor. exact Hc.
  - destruct (String.eqb n0 n); constructor; assumption.
Qed.

Lemma table_ok_setcol (n : string) (c : Column) (t : Table) :
  table_ok t -> length c = nrows t -> table_ok (setcol n c t).
Proof.
  unfold table_ok. intros Hok Hc. rewrite (nrows_setcol _ _ _ Hc).
  now apply Forall_length_setcol.
Qed.

Lemma has_col_setcol (n n' : string) (c : Column) (t : Table) :
  has_col n' t = true -> has_col n' (setcol n c t) = true.
Proof.
  unfold has_col. destruct (String.eqb_spec n n') as [->|Hne].
  - now rewrite getcol_setcol_eq.
  - now rewrite getcol_setcol_ne.
Qed.




End TablesFacts.

(** ** Facts about [SAGA/utils.py] *)

Module UtilsFacts.
Import Tables TablesFacts Utils FillSpec.

Lemma dict_get_notin {V} (c : string) (items : list (string * V)) :
  c ∉ items.*1 -> dict_get c items = None.
Proof.
  induction items as [|[k v] items IH]; simpl; [reflexivity|].
  rewrite not_elem_of_cons. intros [Hne Hin].
  destruct (String.eqb_spec k c); [congruence|auto].
Qed.


(** What numpy counts in the mask of a query is the number of rows that
    satisfy it. *)
Lemma count_nonzero_mask (q : Query) (t : Table) :
  count_nonzero (mask q t) = length (matching_rows q t).
Proof.
  unfold count_nonzero, mask, rows, matching_rows. rewrite map_map.
  generalize (seq 0 (nrows t)) as l.
  induction l as [|i l IH]; [reflexivity|]. cbn [map List.filter].
  destruct (q (row_at t i)); cbn [id length]; now rewrite IH.
Qed.

Section Fill.

Variable astype : Column -> cell -> result cell.

(** The loop of [fill_values_by_query] on a table whose columns exist
    and convert the values: every column named by an item holds the
    converted value under the mask, the others are left as they are. *)
Lemma fill_columns_spec (m : list bool) (items : list (string * cell)) :
  forall t : Table,
    NoDup items.*1 ->
    storable astype t items ->
    exists t', fill_columns astype m t items = (t', Return ()) /\
      colnames t' = colnames t /\
      forall c,
        match dict_get c items with
        | Some v => exists col x, getcol c t = Some col /\
                      astype col v = Return x /\
                      getcol c t' = Some (masked_fill m x col)
        | None => getcol c t' = getcol c t
        end.
Proof.
  unfold storable.
  induction items as [|[c0 v0] items IH]; intros t Hnd Hall.
  - exists t. simpl. auto.
  - apply NoDup_cons in Hnd as [Hc0 Hnd]. apply Forall_cons in Hall as [H0 Hall].
    destruct H0 as (col0 & x0 & Hcol0 & Hx0). cbn [fst snd] in Hcol0, Hx0, Hc0.
    set (t1 := setcol c0 (masked_fill m x0 col0) t).
    destruct (IH t1 Hnd) as (t' & Hrun & Hnames & Hget).
    { rewrite Forall_forall in Hall |- *. intros [c v] Hin.
      destruct (Hall _ Hin) as (col & x & Hcol & Hx). exists col, x.
      split; [|exact Hx]. cbn [fst] in *. unfold t1.
      rewrite getcol_setcol_ne; [exact Hcol|].
      intros ->. apply Hc0. apply list_elem_of_fmap. now exists (c, v). }
    exists t'. cbn [fill_columns]. unfold getitem, put_masked.
    rewrite Hcol0. cbn [mbind result_bind]. rewrite Hx0. cbn [mbind result_bind].
    fold t1. split; [exact Hrun|]. split.
    { rewrite Hnames. apply colnames_setcol_present.
      unfold has_col. now rewrite Hcol0. }
    intros c. specialize (Hget c). cbn [dict_get].
    destruct (String.eqb_spec c0 c) as [<-|Hne].
    + rewrite (dict_get_notin _ _ Hc0) in Hget. exists col0, x0.
      split; [exact Hcol0|]. split; [exact Hx0|].
      rewrite Hget. apply getcol_setcol_eq.
    + unfold t1 in Hget. rewrite (getcol_setcol_ne _ _ _ _ Hne) in Hget.
      exact Hget.
Qed.

Lemma fill_columns_app (m : list bool) (pre rest : list (string * cell)) :
  forall t : Table,
    fill_columns astype m t (pre ++ rest)
    = match fill_columns astype m t pre with
      | (t', Return _) => fill_columns astype m t' rest
      | (t', Raise e) => (t', Raise e)
      end.
Proof.
  induction pre as [|[c v] pre IH]; intros t; [reflexivity|].
  cbn [app fill_columns].
  destruct (col ← getitem c t; put_masked astype m v col); [apply IH|reflexivity].
Qed.

End Fill.

End UtilsFacts.

(** ** Claims about [join_table_by_coordinates] and [fill_values_by_query] *)

Module UtilsClaims.
Import Tables TablesFacts Utils UtilsFacts FillSpec.

(** C1: [join_table_by_coordinates] does not return the number of
    matched pairs.  [search_around_sky] returns a tuple of four arrays
    and the function unpacks it into three names, so on every pair of
    tables whose coordinate columns are read the call raises ValueError
    at that statement; the base table is as it was, but no count is
    returned, whether pairs match or not. *)
Theorem join_raises_instead_of_counting
    (separation distance3d : coord -> coord -> Q)
    (astype : Column -> cell -> result cell) (row_eq : Row -> string -> bool)
    (table table_to_join : Table)
    (columns_to_join : option (list string))
    (columns_to_rename : option (gmap string string))
    (max_distance : Q) (missing_value : missing)
    (ra dec ra2 dec2 : string) (sc sc2 : list coord) :
  sky_coords ra dec table = Return sc ->
  sky_coords ra2 dec2 table_to_join = Return sc2 ->
  join_table_by_coordinates separation distance3d astype row_eq
    table table_to_join columns_to_join columns_to_rename max_distance
    missing_value ra dec ra2 dec2
  = (table, Raise (ValueError "too many values to unpack (expected 3)")).
Proof.
  intros Hsc Hsc2. unfold join_table_by_coordinates.
  rewrite Hsc, Hsc2. reflexivity.
Qed.

Lemma join_raises_instead_of_counting_witness :
  search_around_sky Examples.equator_separation Examples.equator_distance
    [(200001 # 10000, 0); (120, 0); (199999 # 10000, 0)]%Q
    [(10, 0); (20, 0); (30, 0)]%Q Examples.one_arcsec !! 0%nat
  = Some (Ints [1; 1]%nat) /\
  join_table_by_coordinates Examples.equator_separation
    Examples.equator_distance Examples.same_kind Examples.row_is
    Examples.base Examples.wise_near (Some ["W1_MAG"]) None
    Examples.one_arcsec (MissingValue NaN) "RA" "DEC" "RA" "DEC"
  = (Examples.base, Raise (ValueError "too many values to unpack (expected 3)")).
Proof.
  split; [reflexivity|].
  apply (join_raises_instead_of_counting Examples.equator_separation
           Examples.equator_distance Examples.same_kind Examples.row_is
           Examples.base Examples.wise_near (Some ["W1_MAG"]) None
           Examples.one_arcsec (MissingValue NaN) "RA" "DEC" "RA" "DEC"
           [(10, 0); (20, 0); (30, 0)]%Q
           [(200001 # 10000, 0); (120, 0); (199999 # 10000, 0)]%Q);
    reflexivity.
Defined.

(** C2: on two tables whose positions are all farther apart than the
    tolerance, the search finds no pair, and the call does not return 0:
    it raises ValueError where the four arrays of the search are
    unpacked into three names.  The base table is as it was; no column
    is created. *)
Theorem join_far_apart_raises :
  search_around_sky Examples.equator_separation Examples.equator_distance
    [(120, 0); (130, 0)]%Q [(10, 0); (20, 0); (30, 0)]%Q Examples.one_arcsec
  = [Ints []; Ints []; Floats []; Floats []] /\
  join_table_by_coordinates Examples.equator_separation
    Examples.equator_distance Examples.same_kind Examples.row_is
    Examples.base Examples.wise_far (Some ["W1_MAG"]) None
    Examples.one_arcsec (MissingValue NaN) "RA" "DEC" "RA" "DEC"
  = (Examples.base, Raise (ValueError "too many values to unpack (expected 3)")).
Proof. split; reflexivity. Qed.




End UtilsClaims.

(** ** Facts about the spectra readers *)

Module SpectraFacts.
Import PyStr Tables Spectra.

(** [vstack] refuses a list that holds a [None]. *)
Lemma vstack_None (tables : list (option Table)) :
  None ∈ tables ->
  vstack tables
  = Raise (TypeError "`tables` arg must be a Table or sequence of Tables or Rows").
Proof.
  intros Hin. unfold vstack.
  replace (mapM id tables) with (@None (list Table)); [reflexivity|].
  symmetry. apply mapM_None. apply Exists_exists. exists None. auto.
Qed.

Section Generic.

Variable ensure_specs_dtype : Table -> bool -> result Table.
Variable dir_path extension telname : string.
Variable usecols : gmap nat string.
Variable n_cols_total : nat.
Variable cuts : option Query.
Variable postprocess : option (Table -> result Table).
Variable midprocess : option (Table -> result (option Table)).

Let read_one := read_one ensure_specs_dtype dir_path extension usecols
                         n_cols_total cuts midprocess.
Let read_all := read_all ensure_specs_dtype dir_path extension usecols
                         n_cols_total cuts midprocess.
Let read_generic_spectra :=
  read_generic_spectra ensure_specs_dtype dir_path extension telname usecols
                       n_cols_total cuts postprocess midprocess.

(** A conflicted copy is never opened: it is passed over, with a warning
    when it has the reader's extension. *)
Lemma read_one_conflicted (f : string) (content : file) :
  contains "conflicted copy" f = true ->
  read_one f content
  = if endswith extension f then Warned (ConflictedCopy dir_path f) else Skipped.
Proof.
  intros Hf. unfold read_one, Spectra.read_one. rewrite Hf.
  destruct (endswith extension f); reflexivity.
Qed.

Lemma read_all_conflicted (pre post : list (string * file))
    (f : string) (content : file) :
  contains "conflicted copy" f = true ->
  (read_all (pre ++ (f, content) :: post)).2 = (read_all (pre ++ post)).2.
Proof.
  intros Hf. induction pre as [|[g c] pre IH].
  - cbn [app]. unfold read_all. cbn [Spectra.read_all].
    fold read_all. fold (read_one f content).
    rewrite (read_one_conflicted _ _ Hf).
    destruct (endswith extension f); [|reflexivity].
    now destruct (read_all post).
  - cbn [app]. unfold read_all in *. cbn [Spectra.read_all].
    destruct (Spectra.read_one _ _ _ _ _ _ _ g c) as [|w|this|e].
    + exact IH.
    + destruct (Spectra.read_all _ _ _ _ _ _ _ (pre ++ (f, content) :: post)),
               (Spectra.read_all _ _ _ _ _ _ _ (pre ++ post)).
      exact IH.
    + destruct (Spectra.read_all _ _ _ _ _ _ _ (pre ++ (f, content) :: post)),
               (Spectra.read_all _ _ _ _ _ _ _ (pre ++ post)).
      simpl in *. now rewrite IH.
    + reflexivity.
Qed.

Lemma read_generic_spectra_result (files : list (string * file)) :
  (read_generic_spectra files).2 =
  (output ← (read_all files).2;
   output ← vstack output;
   output ← setitem_scalar "TELNAME" (Str telname) output;
   output ← match postprocess with
            | Some post => post output
            | None => Return output
            end;
   ensure_specs_dtype output false).
Proof.
  unfold read_generic_spectra, Spectra.read_generic_spectra, read_all.
  now destruct (Spectra.read_all _ _ _ _ _ _ _ files).
Qed.

(** A [None] appended to [output] makes the reader raise, whatever else
    was appended. *)
Lemma read_generic_spectra_None (files : list (string * file))
    (ws : list warning) (output : list (option Table)) :
  read_all files = (ws, Return output) ->
  None ∈ output ->
  read_generic_spectra files
  = (ws, Raise (TypeError
                  "`tables` arg must be a Table or sequence of Tables or Rows")).
Proof.
  intros Hall Hin.
  unfold read_generic_spectra, Spectra.read_generic_spectra.
  unfold read_all in Hall. rewrite Hall. cbn [mbind result_bind].
  now rewrite (vstack_None _ Hin).
Qed.

(** With nothing appended to [output] the reader raises. *)
Lemma read_generic_spectra_empty (files : list (string * file))
    (ws : list warning) :
  read_all files = (ws, Return []) ->
  read_generic_spectra files
  = (ws, Raise (ValueError "no values provided to stack.")).
Proof.
  intros Hall.
  unfold read_generic_spectra, Spectra.read_generic_spectra.
  unfold read_all in Hall. now rewrite Hall.
Qed.

(** A file for which [Table.read] raises one of the two exceptions that
    are caught is passed over with a warning. *)
Lemma read_one_unreadable (f : string) (content : file) (e : exn) :
  endswith extension f = true ->
  contains "conflicted copy" f = false ->
  Table_read (names usecols n_cols_total)
             (exclude_names usecols n_cols_total) content = Raise e ->
  (exists msg, e = IOError msg) \/ (exists msg, e = CParserError msg) ->
  read_one f content = Warned (CouldNotRead dir_path f e).
Proof.
  intros Hext Hcopy Hread He. unfold read_one, Spectra.read_one.
  rewrite Hext, Hcopy, Hread. cbn [negb].
  destruct He as [[msg ->]|[msg ->]]; reflexivity.
Qed.

End Generic.

Section Midprocess.

Variable getheader : string -> result (gmap string cell).
Variable radial_velocity_correction : string -> cell -> cell -> Q -> Q.

(** The [midprocess] of the readers with a cutoff returns [None] for a
    mask whose header gives a time after the cutoff. *)
Lemma midprocess_of_after_cutoff (dir_path : string) (before : Q)
    (extension site ra_name dec_name time_name : string) (t : Table)
    (m : string) (rest : Column) (corr obstime : Q) :
  getcol "MASKNAME" t = Some (Str m :: rest) ->
  heliocentric_correction getheader radial_velocity_correction
    (path_join dir_path (replace extension ".fits.gz" m))
    site ra_name dec_name time_name = Return (corr, obstime) ->
  (before < obstime)%Q ->
  midprocess_of getheader radial_velocity_correction dir_path (Some before)
    extension site ra_name dec_name time_name t = Return None.
Proof.
  intros Hmask Hcorr Hlate. unfold midprocess_of, getitem.
  rewrite Hmask. cbn [mbind result_bind lookup list_lookup].
  rewrite Hcorr.
  destruct (Qle_bool obstime before) eqn:E; [|reflexivity].
  apply Qle_bool_iff in E. exfalso. revert E. now apply Qlt_not_le.
Qed.

End Midprocess.

End SpectraFacts.

(** ** Claims about the spectra readers *)

Module SpectraClaims.
Import PyStr Tables Spectra SpectraFacts.

(** C3 does not hold of the code: in a directory with a mask observed
    after the cutoff (late) and a mask observed before it (early),
    [read_mmt], [read_aat] and [read_aat_mz] do not return the rows of
    the early mask, which is what they return for the early mask alone;
    they raise the TypeError of [vstack], because the [None] that
    [midprocess] returns for the late mask is appended to [output]. *)
Theorem cutoff_file_raises_instead_of_being_dropped :
  let bad := Raise (TypeError
               "`tables` arg must be a Table or sequence of Tables or Rows") in
  let objids (r : list warning * result Table) := getcol "SPECOBJID" <$> r.2 in
  let mmt := read_mmt Examples.no_coercion Examples.fits_headers
               Examples.fixed_correction "/spectra" in
  let aat := read_aat Examples.no_coercion Examples.speed_of_light
               Examples.fits_headers Examples.fixed_correction "/spectra" in
  let aat_mz := read_aat_mz Examples.no_coercion Examples.speed_of_light
               Examples.fits_headers Examples.fixed_correction "/spectra" in
  (mmt Examples.zlog_dir Examples.cutoff).2 = bad /\
  objids (mmt (tail Examples.zlog_dir) Examples.cutoff)
    = Return (Some [Str "b1"; Str "b2"]) /\
  (aat Examples.zlog_dir Examples.cutoff).2 = bad /\
  objids (aat (tail Examples.zlog_dir) Examples.cutoff)
    = Return (Some [Str "b1"; Str "b2"]) /\
  (aat_mz Examples.mz_dir Examples.cutoff).2 = bad /\
  objids (aat_mz (tail Examples.mz_dir) Examples.cutoff)
    = Return (Some [Str "b1"; Str "b2"]).
Proof. cbv zeta. repeat split; vm_compute; reflexivity. Qed.

(** C4 does not hold of the code: a reader raises as soon as the
    [midprocess] of one file has returned [None], also when other files
    have contributed tables; it is then not true that only a directory
    without contributing files makes the reader raise. *)
Theorem reader_raises_although_files_contribute
    (ensure_specs_dtype : Table -> bool -> result Table)
    (dir_path extension telname : string) (usecols : gmap nat string)
    (n_cols_total : nat) (cuts : option Query)
    (postprocess : option (Table -> result Table))
    (midprocess : option (Table -> result (option Table)))
    (files : list (string * file)) (ws : list warning)
    (output : list (option Table)) (t : Table) :
  read_all ensure_specs_dtype dir_path extension usecols n_cols_total cuts
           midprocess files = (ws, Return output) ->
  Some t ∈ output ->
  None ∈ output ->
  read_generic_spectra ensure_specs_dtype dir_path extension telname usecols
    n_cols_total cuts postprocess midprocess files
  = (ws, Raise (TypeError
                  "`tables` arg must be a Table or sequence of Tables or Rows")).
Proof. intros Hall _ Hnone. eapply read_generic_spectra_None; eassumption. Qed.

Lemma reader_raises_although_files_contribute_witness :
  read_mmt Examples.no_coercion Examples.fits_headers Examples.fixed_correction
    "/spectra" Examples.mixed_dir Examples.cutoff
  = ([CouldNotRead "/spectra" "broken.zlog" (IOError "Permission denied")],
     Raise (TypeError
              "`tables` arg must be a Table or sequence of Tables or Rows")).
Proof.
  unfold read_mmt. cbv zeta.
  eapply reader_raises_although_files_contribute.
  - vm_compute. reflexivity.
  - apply list_elem_of_here.
  - apply list_elem_of_further, list_elem_of_here.
Defined.

(** C5: in a directory with one other file and a file whose name
    contains "conflicted copy", in either order, a reader gives exactly
    what it gives for the other file alone, be it a table or an
    exception: the conflicted copy is not read, contributes no rows and
    raises nothing. *)
Theorem conflicted_copy_contributes_nothing
    (ensure_specs_dtype : Table -> bool -> result Table)
    (dir_path extension telname : string) (usecols : gmap nat string)
    (n_cols_total : nat) (cuts : option Query)
    (postprocess : option (Table -> result Table))
    (midprocess : option (Table -> result (option Table)))
    (good bad : string) (good_content bad_content : file) :
  contains "conflicted copy" bad = true ->
  let read := read_generic_spectra ensure_specs_dtype dir_path extension
                telname usecols n_cols_total cuts postprocess midprocess in
  (read [(good, good_content); (bad, bad_content)]).2
    = (read [(good, good_content)]).2 /\
  (read [(bad, bad_content); (good, good_content)]).2
    = (read [(good, good_content)]).2.
Proof.
  intros Hbad read. subst read. rewrite !read_generic_spectra_result.
  rewrite (read_all_conflicted _ _ _ _ _ _ _ [(good, good_content)] []
             bad bad_content Hbad).
  rewrite (read_all_conflicted _ _ _ _ _ _ _ [] [(good, good_content)]
             bad bad_content Hbad).
  split; reflexivity.
Qed.

Lemma conflicted_copy_contributes_nothing_witness :
  let read := read_generic_spectra Examples.no_coercion "/spectra" ".zlog"
                "IMACS" (list_to_map [(2, "RA"); (3, "DEC"); (8, "SPECOBJID")]%nat)
                11 None None None in
  (read Examples.conflicted_dir).2 = (read (take 1 Examples.conflicted_dir)).2 /\
  getcol "SPECOBJID" <$> (read Examples.conflicted_dir).2
    = Return (Some [Str "b1"]).
Proof.
  cbv zeta. split; [|vm_compute; reflexivity].
  eapply proj1, conflicted_copy_contributes_nothing. reflexivity.
Defined.

End SpectraClaims.

(** ** Scanning strings: how [replace], [in] and the white-space
    substitution distribute over a concatenation *)

Module ScanFacts.
Import PyStr External.

#[local] Arguments String.append !s1 s2 : simpl nomatch.

Lemma append_assoc (a b c : string) : (a +:+ b) +:+ c = a +:+ b +:+ c.
Proof.
  induction a as [|x a IH]; [reflexivity|]. cbn [String.append]. f_equal. exact IH.
Qed.

Lemma append_nil_r (a : string) : a +:+ EmptyString = a.
Proof.
  induction a as [|x a IH]; [reflexivity|]. cbn [String.append]. f_equal. exact IH.
Qed.

Lemma append_eq_nil (a b : string) :
  a +:+ b = EmptyString -> a = EmptyString /\ b = EmptyString.
Proof. destruct a; simpl; [auto|discriminate]. Qed.

Lemma startswith_length (p s : string) :
  startswith p s = true -> (String.length p <= String.length s)%nat.
Proof.
  revert s. induction p as [|a p IH]; intros [|b s]; simpl; try lia; try discriminate.
  destruct (Ascii.eqb a b); [|discriminate]. intros H%IH. lia.
Qed.

Lemma startswith_app (old x b : string) :
  hangs old x = false -> startswith old (x +:+ b) = startswith old x.
Proof.
  revert x. induction old as [|o old IH]; intros x; [now destruct x|].
  destruct x as [|c x]; [discriminate|].
  unfold hangs. cbn [startswith String.length String.append].
  rewrite (Ascii.eqb_sym c o).
  destruct (Ascii.eqb o c); [|reflexivity].
  intros H. apply IH. exact H.
Qed.

Lemma replace_from_app (old new : string) (a : string) :
  forall (skip : nat) (b : string),
    (skip <= String.length a)%nat -> safe old a = true ->
    replace_from old new skip (a +:+ b)
    = replace_from old new skip a +:+ replace_from old new 0 b.
Proof.
  induction a as [|c a IH]; intros skip b Hskip Hsafe.
  - simpl in Hskip. now replace skip with 0%nat by lia.
  - cbn [safe] in Hsafe. apply andb_true_iff in Hsafe as [Hhang Hsafe].
    apply negb_true_iff in Hhang.
    cbn [String.append replace_from]. destruct skip as [|k].
    + change (String c (a +:+ b)) with (String c a +:+ b).
      rewrite (startswith_app _ _ _ Hhang).
      destruct (startswith old (String c a)) eqn:Hst.
      * apply startswith_length in Hst. simpl in Hst.
        rewrite IH by (try assumption; lia). now rewrite append_assoc.
      * rewrite IH by (try assumption; lia). reflexivity.
    + simpl in Hskip. apply IH; [lia|assumption].
Qed.

Lemma replace_app (old new a b : string) :
  safe old a = true ->
  replace old new (a +:+ b) = replace old new a +:+ replace old new b.
Proof. intros H. apply replace_from_app; [lia|exact H]. Qed.

Lemma contains_app (o : ascii) (p a b : string) :
  safe (String o p) a = true ->
  contains (String o p) (a +:+ b)
  = contains (String o p) a || contains (String o p) b.
Proof.
  induction a as [|c a IH]; intros Hsafe.
  - simpl. reflexivity.
  - cbn [safe] in Hsafe. apply andb_true_iff in Hsafe as [Hhang Hsafe].
    apply negb_true_iff in Hhang.
    cbn [String.append contains].
    change (String c (a +:+ b)) with (String c a +:+ b).
    rewrite (startswith_app _ _ _ Hhang), (IH Hsafe).
    now rewrite orb_assoc.
Qed.

(** Strings without the first character of the pattern. *)
Lemma lacks_safe (o : ascii) (p s : string) :
  lacks o s = true -> safe (String o p) s = true.
Proof.
  unfold lacks. induction s as [|c s IH]; [reflexivity|].
  cbn [all_chars safe]. intros [Hc Hs]%andb_true_iff.
  rewrite (IH Hs), andb_true_r. unfold hangs. cbn [startswith].
  apply negb_true_iff in Hc. now rewrite Hc.
Qed.

Lemma lacks_replace (o : ascii) (p new s : string) :
  lacks o s = true -> replace (String o p) new s = s.
Proof.
  unfold lacks, replace. induction s as [|c s IH]; [reflexivity|].
  cbn [all_chars replace_from startswith]. intros [Hc Hs]%andb_true_iff.
  apply negb_true_iff in Hc. rewrite (Ascii.eqb_sym o c), Hc. now rewrite (IH Hs).
Qed.

Lemma lacks_contains (o : ascii) (p s : string) :
  lacks o s = true -> contains (String o p) s = false.
Proof.
  unfold lacks. induction s as [|c s IH]; [reflexivity|].
  cbn [all_chars contains startswith]. intros [Hc Hs]%andb_true_iff.
  apply negb_true_iff in Hc. rewrite (Ascii.eqb_sym o c), Hc. now rewrite (IH Hs).
Qed.

Lemma all_chars_impl (p q : ascii -> bool) (s : string) :
  (forall c, p c = true -> q c = true) ->
  all_chars p s = true -> all_chars q s = true.
Proof.
  intros Hpq. induction s as [|c s IH]; [reflexivity|].
  cbn [all_chars]. intros [Hc Hs]%andb_true_iff.
  now rewrite (Hpq _ Hc), (IH Hs).
Qed.

(** The white-space substitution. *)
Lemma sub_spaces_app (a : string) :
  forall (in_run : bool) (b : string),
    sub_spaces in_run (a +:+ b)
    = sub_spaces in_run a +:+ sub_spaces (ws_after in_run a) b.
Proof.
  induction a as [|c a IH]; intros in_run b; [reflexivity|].
  cbn [String.append sub_spaces ws_after].
  destruct (is_space c); [destruct in_run|]; rewrite IH; reflexivity.
Qed.

Lemma no_space_sub_spaces (in_run : bool) (s : string) :
  no_space s = true -> sub_spaces in_run s = s.
Proof.
  unfold no_space. revert in_run. induction s as [|c s IH]; intros in_run;
    [reflexivity|].
  cbn [all_chars sub_spaces]. intros [Hc Hs]%andb_true_iff.
  apply negb_true_iff in Hc. now rewrite Hc, (IH _ Hs).
Qed.

Lemma no_space_ws_after (s : string) :
  no_space s = true -> ws_after false s = false.
Proof.
  unfold no_space. induction s as [|c s IH]; [reflexivity|].
  cbn [all_chars ws_after]. intros [Hc Hs]%andb_true_iff.
  apply negb_true_iff in Hc. rewrite Hc. exact (IH Hs).
Qed.

Lemma no_space_ws_after_cons (in_run : bool) (s : string) :
  no_space s = true -> s <> EmptyString -> ws_after in_run s = false.
Proof.
  destruct s as [|c s]; [congruence|]. unfold no_space.
  cbn [all_chars ws_after]. intros [Hc Hs]%andb_true_iff _.
  apply negb_true_iff in Hc. rewrite Hc. now apply no_space_ws_after.
Qed.

Lemma lstrip_app (a b : string) :
  lstrip a <> EmptyString -> lstrip (a +:+ b) = lstrip a +:+ b.
Proof.
  induction a as [|c a IH]; [simpl; congruence|].
  cbn [String.append lstrip]. destruct (is_space c); [exact IH|reflexivity].
Qed.

Lemma rstrip_app (a b : string) :
  rstrip b <> EmptyString -> rstrip (a +:+ b) = a +:+ rstrip b.
Proof.
  intros Hb. induction a as [|c a IH]; [reflexivity|].
  cbn [String.append rstrip]. rewrite IH.
  destruct (a +:+ rstrip b) eqn:E; [|reflexivity].
  apply append_eq_nil in E as [_ E]. congruence.
Qed.

Lemma append_nonempty_r (a b : string) :
  b <> EmptyString -> a +:+ b <> EmptyString.
Proof. intros Hb E. apply append_eq_nil in E as [_ E]. congruence. Qed.

Lemma rstrip_app_nonempty (a b : string) :
  rstrip b <> EmptyString -> rstrip (a +:+ b) <> EmptyString.
Proof.
  intros Hb. rewrite (rstrip_app _ _ Hb). now apply append_nonempty_r.
Qed.

End ScanFacts.

(** ** Facts about [SdssQuery] *)

Module ExternalFacts.
Import PyStr External ScanFacts.

Lemma numeral_char_facts (c : ascii) :
  is_numeral_char c = true ->
  negb (is_space c) = true /\ negb (Ascii.eqb c ",") = true /\
  negb (Ascii.eqb c "I") = true.
Proof. destruct c as [[] [] [] [] [] [] [] []]; vm_compute; auto; discriminate. Qed.

Lemma letter_facts (c : ascii) :
  is_letter c = true ->
  negb (is_space c) = true /\ negb (Ascii.eqb c ",") = true.
Proof. destruct c as [[] [] [] [] [] [] [] []]; vm_compute; auto; discriminate. Qed.

Lemma is_numeral_plain (s : string) :
  is_numeral s = true ->
  s <> EmptyString /\ no_space s = true /\ lacks "," s = true /\ lacks "I" s = true.
Proof.
  destruct s as [|c s]; [discriminate|]. unfold is_numeral. intros H.
  split; [discriminate|].
  repeat split; (eapply all_chars_impl; [|exact H]); intros x Hx;
    now apply numeral_char_facts in Hx.
Qed.

Lemma letters_plain (s : string) :
  all_chars is_letter s = true -> no_space s = true /\ lacks "," s = true.
Proof.
  intros H. split; (eapply all_chars_impl; [|exact H]); intros x Hx;
    now apply letter_facts in Hx.
Qed.

Lemma keep_letters_letters (s : string) :
  all_chars is_letter (keep_letters s) = true.
Proof.
  induction s as [|c s IH]; [reflexivity|]. simpl.
  destruct (is_letter c) eqn:E; [|exact IH]. simpl. now rewrite E.
Qed.

(** The filled template after the white-space substitution, [strip]
    and the substitution of [", "]: the three numbers and the table name
    stand where the template has them, between fixed pieces of text. *)
Lemma template_normal_form (fra fdec fr n : string) :
  is_numeral fra = true -> is_numeral fdec = true -> is_numeral fr = true ->
  no_space n = true -> lacks "," n = true ->
  replace ", " "," (strip (sub_spaces false (_query_template fra fdec fr n)))
  = query_select +:+ fra +:+ "," +:+ fdec +:+ "," +:+ fr +:+ query_into +:+ n
    +:+ query_joins.
Proof.
  intros (Hra0 & Hra1 & Hra2 & _)%is_numeral_plain
         (Hdec0 & Hdec1 & Hdec2 & _)%is_numeral_plain
         (Hr0 & Hr1 & Hr2 & _)%is_numeral_plain Hn1 Hn2.
  unfold _query_template.
  rewrite !sub_spaces_app.
  replace (ws_after false template_select) with false by (vm_compute; reflexivity).
  rewrite (no_space_sub_spaces _ fra Hra1), (no_space_ws_after _ Hra1).
  replace (sub_spaces false ", ") with ", " by reflexivity.
  replace (ws_after false ", ") with true by reflexivity.
  rewrite (no_space_sub_spaces _ fdec Hdec1),
    (no_space_ws_after_cons _ _ Hdec1 Hdec0).
  rewrite (no_space_sub_spaces _ fr Hr1), (no_space_ws_after_cons _ _ Hr1 Hr0).
  replace (ws_after false template_into) with false by (vm_compute; reflexivity).
  rewrite (no_space_sub_spaces _ n Hn1), (no_space_ws_after _ Hn1).
  replace (sub_spaces false ", ") with ", " by reflexivity.
  assert (Hjoins : rstrip (sub_spaces false template_joins) = query_joins)
    by (vm_compute; reflexivity).
  assert (Hjoins_ne : rstrip (sub_spaces false template_joins) <> EmptyString)
    by (rewrite Hjoins; discriminate).
  unfold strip.
  rewrite lstrip_app by (vm_compute; discriminate).
  rewrite !rstrip_app by (repeat apply rstrip_app_nonempty; exact Hjoins_ne).
  rewrite Hjoins. unfold query_select.
  rewrite (replace_app ", " "," (lstrip (sub_spaces false template_select)))
    by (vm_compute; reflexivity).
  rewrite (replace_app ", " "," fra) by now apply lacks_safe.
  rewrite (lacks_replace _ _ _ fra Hra2).
  rewrite (replace_app ", " "," ", ") by reflexivity.
  rewrite (replace_app ", " "," fdec) by now apply lacks_safe.
  rewrite (lacks_replace _ _ _ fdec Hdec2).
  rewrite (replace_app ", " "," ", ") by reflexivity.
  rewrite (replace_app ", " "," fr) by now apply lacks_safe.
  rewrite (lacks_replace _ _ _ fr Hr2).
  rewrite (replace_app ", " "," (sub_spaces false template_into))
    by (vm_compute; reflexivity).
  rewrite (replace_app ", " "," n) by now apply lacks_safe.
  rewrite (lacks_replace _ _ _ n Hn2).
  replace (replace ", " "," ", ") with "," by reflexivity.
  replace (replace ", " "," (sub_spaces false template_into)) with query_into
    by (vm_compute; reflexivity).
  replace (replace ", " "," query_joins) with query_joins
    by (vm_compute; reflexivity).
  reflexivity.
Qed.

Section Query.

Variable format_10g : Q -> string.
Variables ra dec radius : angle.

Let fra := format_10g (ensure_deg ra).
Let fdec := format_10g (ensure_deg dec).
Let fr := format_10g (ensure_deg radius * 60)%Q.

Hypothesis fra_numeral : is_numeral fra = true.
Hypothesis fdec_numeral : is_numeral fdec = true.
Hypothesis fr_numeral : is_numeral fr = true.

(** The query for a staging table whose name consists of letters. *)
Lemma construct_query_named (name : string) :
  all_chars is_letter name = true ->
  construct_query format_10g ra dec radius (Some name)
  = query_select +:+ fra +:+ "," +:+ fdec +:+ "," +:+ fr +:+ query_into +:+ name
    +:+ query_joins.
Proof.
  intros [Hn1 Hn2]%letters_plain.
  unfold construct_query. cbv beta iota zeta delta [negb].
  now apply template_normal_form.
Qed.

(** The query without a staging table. *)
Lemma construct_query_unnamed :
  construct_query format_10g ra dec radius None
  = query_select +:+ fra +:+ "," +:+ fdec +:+ "," +:+ fr +:+ query_from
    +:+ query_joins.
Proof.
  destruct (is_numeral_plain _ fra_numeral) as (_ & _ & _ & Hra).
  destruct (is_numeral_plain _ fdec_numeral) as (_ & _ & _ & Hdec).
  destruct (is_numeral_plain _ fr_numeral) as (_ & _ & _ & Hr).
  unfold construct_query. cbv beta iota zeta delta [negb].
  fold fra fdec fr.
  rewrite template_normal_form by (assumption || reflexivity).
  replace ("INTO mydb." +:+ "TO_BE_REMOVED" +:+ " ")
    with "INTO mydb.TO_BE_REMOVED " by reflexivity.
  rewrite (replace_app _ _ query_select) by (vm_compute; reflexivity).
  rewrite (replace_app _ _ fra) by now apply lacks_safe.
  rewrite (lacks_replace _ _ _ fra Hra).
  rewrite (replace_app _ _ ",") by reflexivity.
  rewrite (replace_app _ _ fdec) by now apply lacks_safe.
  rewrite (lacks_replace _ _ _ fdec Hdec).
  rewrite (replace_app _ _ ",") by reflexivity.
  rewrite (replace_app _ _ fr) by now apply lacks_safe.
  rewrite (lacks_replace _ _ _ fr Hr).
  replace (replace "INTO mydb.TO_BE_REMOVED " EmptyString query_select)
    with query_select by (vm_compute; reflexivity).
  replace (replace "INTO mydb.TO_BE_REMOVED " EmptyString ",")
    with "," by reflexivity.
  replace (replace "INTO mydb.TO_BE_REMOVED " EmptyString
             (query_into +:+ "TO_BE_REMOVED" +:+ query_joins))
    with (query_from +:+ query_joins) by (vm_compute; reflexivity).
  reflexivity.
Qed.

Lemma construct_query_unnamed_no_into :
  contains "INTO mydb." (construct_query format_10g ra dec radius None) = false.
Proof.
  destruct (is_numeral_plain _ fra_numeral) as (_ & _ & _ & Hra).
  destruct (is_numeral_plain _ fdec_numeral) as (_ & _ & _ & Hdec).
  destruct (is_numeral_plain _ fr_numeral) as (_ & _ & _ & Hr).
  rewrite construct_query_unnamed.
  rewrite (contains_app _ _ query_select) by (vm_compute; reflexivity).
  rewrite (contains_app _ _ fra) by now apply lacks_safe.
  rewrite (lacks_contains _ _ fra Hra).
  rewrite (contains_app _ _ ",") by reflexivity.
  rewrite (contains_app _ _ fdec) by now apply lacks_safe.
  rewrite (lacks_contains _ _ fdec Hdec).
  rewrite (contains_app _ _ ",") by reflexivity.
  rewrite (contains_app _ _ fr) by now apply lacks_safe.
  rewrite (lacks_contains _ _ fr Hr).
  replace (contains "INTO mydb." query_select) with false
    by (vm_compute; reflexivity).
  replace (contains "INTO mydb." (query_from +:+ query_joins)) with false
    by (vm_compute; reflexivity).
  reflexivity.
Qed.

End Query.

End ExternalFacts.

(** ** Claim about [SdssQuery] *)

Module ExternalClaims.
Import PyStr External ScanFacts ExternalFacts.

(** C10: whatever [db_table_name] is given to [SdssQuery], the staging
    table name that stands in the generated SQL after "INTO mydb." is
    the supplied name (or "SAGA" and the random letters, when none is
    supplied) with every character that is not an ASCII letter removed,
    so it consists of ASCII letters only; and when [construct_query]
    gets [None] for the name, as it does for a SciServer query, the
    generated SQL contains no "INTO mydb." at all.  The three numbers
    are assumed to be printed with the characters of a [.10g] float. *)
Theorem staging_table_name_is_letters
    (format_10g : Q -> string) (getenv : string -> option string)
    (_HAS_SCISERVER_ : bool) (get_random_string : nat -> string)
    (ra dec radius : angle) (table_name : option string) (context : string)
    (user password : option string) (default_use_sciserver : bool) :
  is_numeral (format_10g (ensure_deg ra)) = true ->
  is_numeral (format_10g (ensure_deg dec)) = true ->
  is_numeral (format_10g (ensure_deg radius * 60)%Q) = true ->
  let self := init format_10g getenv _HAS_SCISERVER_ get_random_string
                ra dec radius table_name context user password
                default_use_sciserver in
  let supplied := match table_name with
                  | Some (String c s) => String c s
                  | _ => "SAGA" +:+ get_random_string 4%nat
                  end in
  (use_sciserver self = false ->
     db_table_name self = Some (keep_letters supplied) /\
     all_chars is_letter (keep_letters supplied) = true /\
     query self
     = query_select +:+ format_10g (ensure_deg ra) +:+ "," +:+
       format_10g (ensure_deg dec) +:+ "," +:+
       format_10g (ensure_deg radius * 60)%Q +:+
       query_into +:+ keep_letters supplied +:+ query_joins) /\
  (use_sciserver self = true ->
     db_table_name self = None /\
     contains "INTO mydb." (query self) = false) /\
  contains "INTO mydb." (construct_query format_10g ra dec radius None) = false.
Proof.
  intros Hra Hdec Hr self supplied. subst self. unfold init.
  cbn [use_sciserver db_table_name query].
  set (sci := default_use_sciserver && _HAS_SCISERVER_ && _ && _).
  split; [|split].
  - intros ->. split; [reflexivity|].
    split; [apply keep_letters_letters|].
    apply construct_query_named; try assumption. apply keep_letters_letters.
  - intros ->. split; [reflexivity|].
    now apply construct_query_unnamed_no_into.
  - now apply construct_query_unnamed_no_into.
Qed.

Lemma staging_table_name_is_letters_witness :
  let self := init Examples.format_example Examples.no_environment true
                Examples.drawn (Float (60100 # 400)) (Float (5 # 2)) (Float 1)
                (Some "saga_host-61945 (test)") "DR14" None None true in
  db_table_name self = Some "sagahosttest" /\
  query self
  = query_select +:+ "150.25,2.5,60" +:+ query_into +:+ "sagahosttest"
    +:+ query_joins /\
  contains "INTO mydb."
    (construct_query Examples.format_example (Float (60100 # 400))
       (Float (5 # 2)) (Float 1) None) = false.
Proof.
  destruct (staging_table_name_is_letters Examples.format_example
              Examples.no_environment true Examples.drawn
              (Float (60100 # 400)) (Float (5 # 2)) (Float 1)
              (Some "saga_host-61945 (test)") "DR14" None None true)
    as (Hnamed & _ & Hnone); try reflexivity.
  destruct (Hnamed eq_refl) as (Hname & _ & Hquery).
  cbv zeta. split; [exact Hname|]. split; [|exact Hnone].
  rewrite Hquery. reflexivity.
Defined.

End ExternalClaims.

(** * Further properties of the sources *)

(** ** Host resolution: case, names and lists *)

Module HostsMore.
Import PyStr PyStrFacts Hosts HostsFacts.

Lemma lower_char_classes (c : ascii) :
  is_int_space (lower_char c) = is_int_space c /\
  is_digit (lower_char c) = is_digit c /\
  Ascii.eqb (lower_char c) "_" = Ascii.eqb c "_" /\
  (is_digit c = true -> lower_char c = c).
Proof.
  destruct c as [[] [] [] [] [] [] [] []]; vm_compute;
    repeat split; try reflexivity; intros; discriminate.
Qed.

Lemma lstrip_lower (s : string) : int_lstrip (lower s) = lower (int_lstrip s).
Proof.
  induction s as [|c s IH]; [reflexivity|]. cbn [lower int_lstrip].
  destruct (lower_char_classes c) as (-> & _).
  destruct (is_int_space c); [exact IH|reflexivity].
Qed.

Lemma rstrip_lower (s : string) : int_rstrip (lower s) = lower (int_rstrip s).
Proof.
  induction s as [|c s IH]; [reflexivity|]. cbn [lower int_rstrip].
  rewrite IH. destruct (lower_char_classes c) as (-> & _).
  destruct (int_rstrip s); cbn [lower]; [|reflexivity].
  destruct (is_int_space c); reflexivity.
Qed.

Lemma parse_digits_lower (s : string) :
  forall (acc : Z) (prev : bool),
    parse_digits acc prev (lower s) = parse_digits acc prev s.
Proof.
  induction s as [|c s IH]; intros acc prev; [reflexivity|].
  cbn [lower parse_digits].
  destruct (lower_char_classes c) as (_ & -> & -> & Hdigit).
  destruct (is_digit c).
  - rewrite (Hdigit eq_refl). apply IH.
  - destruct (Ascii.eqb c "_" && prev); [apply IH|reflexivity].
Qed.

(** [int] does not tell upper case from lower case. *)
Lemma int_of_str_lower (s : string) : int_of_str (lower s) = int_of_str s.
Proof.
  unfold int_of_str. rewrite lstrip_lower, rstrip_lower.
  destruct (int_rstrip (int_lstrip s)) as [|c r]; [reflexivity|].
  cbn [lower].
  destruct c as [[] [] [] [] [] [] [] []];
    match goal with
    | |- context [lower_char ?c] =>
        let c' := eval vm_compute in (lower_char c) in
        change (lower_char c) with c'
    end;
    cbv beta iota; rewrite ?parse_digits_lower; try reflexivity;
    match goal with
    | |- _ = parse_digits _ _ (String ?d r) =>
        exact (parse_digits_lower (String d r) 0 false)
    end.
Qed.

(** X1: resolution does not depend on the case of a string token: a
    token and its lower-cased form give the same list or the same
    error. *)
Theorem resolve_id_ignores_case (self : HostCatalog) (s : string) :
  resolve_id self (HStr (lower s)) = resolve_id self (HStr s).
Proof.
  rewrite !resolve_id_str, int_of_str_lower. unfold resolve_name.
  now rewrite !lower_idemp.
Qed.

Lemma dict_of_pairs_notin {K V} `{Countable K} (l : list (K * V)) (k : K) :
  forall m : gmap K V,
    k ∉ l.*1 -> foldl (fun m p => <[p.1 := p.2]> m) m l !! k = m !! k.
Proof.
  induction l as [|[a b] l IH]; intros m Hk; [reflexivity|].
  cbn in Hk. apply not_elem_of_cons in Hk as [Hne Hk].
  cbn [foldl]. rewrite (IH _ Hk). cbn. now rewrite lookup_insert_ne.
Qed.

Lemma dict_of_pairs_lookup {K V} `{Countable K} (l : list (K * V)) (k : K) (v : V) :
  NoDup l.*1 -> (k, v) ∈ l -> dict_of_pairs l !! k = Some v.
Proof.
  unfold dict_of_pairs. generalize (∅ : gmap K V).
  induction l as [|[a b] l IH]; intros m Hnd Hin; [inversion Hin|].
  cbn in Hnd. apply NoDup_cons in Hnd as [Ha Hnd].
  cbn [foldl]. apply elem_of_cons in Hin as [[= -> ->]|Hin].
  - rewrite (dict_of_pairs_notin _ _ _ Ha). cbn. apply lookup_insert_eq.
  - now apply IH.
Qed.

Lemma dict_of_pairs_None {K V} `{Countable K} (l : list (K * V)) (k : K) :
  dict_of_pairs l !! k = None <-> k ∉ l.*1.
Proof.
  unfold dict_of_pairs.
  assert (G : forall m : gmap K V,
    foldl (fun m p => <[p.1 := p.2]> m) m l !! k = None <->
    m !! k = None /\ k ∉ l.*1).
  { induction l as [|[a b] l IH]; intros m; cbn.
    - split; [intros ?; split; [assumption|apply not_elem_of_nil]|tauto].
    - rewrite IH, not_elem_of_cons. cbn.
      destruct (decide (a = k)) as [->|Hne].
      + rewrite lookup_insert_eq. split; [intros [[=] _]|intros (_ & ? & _); congruence].
      + rewrite lookup_insert_ne by exact Hne.
        split; [intros [? ?]; auto|intros (? & _ & ?); auto]. }
  rewrite G, lookup_empty. tauto.
Qed.

(** X2: a host of the named-host table is found by its name, in any
    case, and its id gives the name back, provided the names are
    distinct when case is ignored, the ids are distinct, and the name
    is neither a number nor one of the shorthands. *)
Theorem named_host_round_trip (all_ids : list Z) (named : list (string * Z))
    (n : string) (i : Z) :
  (n, i) ∈ named ->
  NoDup (map (fun p => lower p.1) named) ->
  NoDup (map snd named) ->
  int_of_str n = None ->
  lower n ∉ ["all"; "paper1_complete"; "paper1_incomplete"; "paper1"] ->
  let self := init all_ids named in
  resolve_id self (HStr n) = Return [i] /\
  resolve_id self (HStr (lower n)) = Return [i] /\
  id_to_name self i = Some n.
Proof.
  intros Hin Hnames Hids Hint Hshort self.
  assert (Hres : resolve_id self (HStr n) = Return [i]).
  { rewrite resolve_id_str, Hint. unfold resolve_name.
    assert (Hidem := lower_idemp n).
    repeat (apply not_elem_of_cons in Hshort as [Hne%String.eqb_neq Hshort];
            rewrite Hne; clear Hne).
    rewrite Hidem. subst self. unfold init. cbn [_host_name_to_id].
    rewrite (dict_of_pairs_lookup _ (lower n) i); [reflexivity| |].
    - now rewrite <- list_fmap_compose.
    - apply list_elem_of_fmap. now exists (n, i). }
  split; [exact Hres|]. split; [now rewrite resolve_id_ignores_case|].
  subst self. unfold id_to_name, init. cbn [_host_id_to_name].
  apply dict_of_pairs_lookup.
  - now rewrite <- list_fmap_compose.
  - apply list_elem_of_fmap. now exists (n, i).
Qed.

Lemma named_host_round_trip_witness :
  resolve_id Examples.catalog (HStr "GILGAMESH") = Return [166313] /\
  id_to_name Examples.catalog 166313 = Some "Gilgamesh".
Proof.
  destruct (named_host_round_trip [166313; 147100; 61945; 13927; 85746]
    [("Odyssey", 147100); ("AnaK", 61945); ("Gilgamesh", 166313)]
    "Gilgamesh" 166313) as (_ & Hlow & Hname).
  - apply list_elem_of_further, list_elem_of_further, list_elem_of_here.
  - apply (bool_decide_unpack _). vm_compute. exact I.
  - apply (bool_decide_unpack _). vm_compute. exact I.
  - reflexivity.
  - apply (bool_decide_unpack _). vm_compute. exact I.
  - split; [|exact Hname].
    rewrite <- resolve_id_ignores_case. exact Hlow.
Defined.

(** X3: [id_to_name] never raises; it returns [None] exactly for the ids
    that do not occur in the named-host table. *)
Theorem id_to_name_unknown (all_ids : list Z) (named : list (string * Z)) (i : Z) :
  id_to_name (init all_ids named) i = None <-> i ∉ map snd named.
Proof.
  unfold id_to_name, init. cbn [_host_id_to_name].
  rewrite dict_of_pairs_None, <- list_fmap_compose. reflexivity.
Qed.

Lemma mapM_app_result {A B} (f : A -> result B) (a b : list A) :
  mapM f (a ++ b) = (x ← mapM f a; y ← mapM f b; Return (x ++ y)).
Proof.
  induction a as [|h a IH]; cbn [app mapM].
  - cbn. now destruct (mapM f b).
  - destruct (f h) as [y|e]; [|reflexivity]. cbn. rewrite IH.
    destruct (mapM f a) as [ys|e]; [|reflexivity]. cbn.
    now destruct (mapM f b).
Qed.

(** X4: resolving a list is compositional.  The list [a ++ b] resolves
    to the ids of [a] followed by the ids of [b], with the error of [a]
    taking precedence, and a one-element list resolves like its
    element; so nested lists are flattened. *)
Theorem resolve_id_list_app (self : HostCatalog) (a b : list hosts) (h : hosts) :
  resolve_id self (HList (a ++ b))
  = (x ← resolve_id self (HList a);
     y ← resolve_id self (HList b);
     Return (x ++ y)) /\
  resolve_id self (HList [h]) = resolve_id self h /\
  resolve_id self (HList [HList a; HList b]) = resolve_id self (HList (a ++ b)).
Proof.
  assert (Happ : forall a b, resolve_id self (HList (a ++ b))
    = (x ← resolve_id self (HList a);
       y ← resolve_id self (HList b);
       Return (x ++ y))).
  { intros a' b'. rewrite !resolve_id_list, mapM_app_result.
    destruct (mapM (resolve_id self) a') as [xs|e]; [|reflexivity]. cbn.
    destruct (mapM (resolve_id self) b') as [ys|e]; [|reflexivity]. cbn.
    now rewrite concat_app. }
  assert (Hone : forall h, resolve_id self (HList [h]) = resolve_id self h).
  { intros h'. rewrite resolve_id_list. cbn [mapM].
    destruct (resolve_id self h') as [ids|e]; [|reflexivity]. cbn.
    now rewrite app_nil_r. }
  split; [apply Happ|]. split; [apply Hone|].
  change [HList a; HList b] with ([HList a] ++ [HList b]).
  now rewrite !Happ, !Hone.
Qed.

(** X5: the shorthands are recognised in any case and before the host
    names: "all" gives the ids of the host list, "paper1_complete" and
    "paper1_incomplete" their fixed ids, whatever hosts are named, and
    "paper1" is the same as the list of the two. *)
Theorem resolve_id_shorthands (self : HostCatalog) (s : string) :
  (lower s = "all" -> resolve_id self (HStr s) = Return (_all_host_ids self)) /\
  (lower s = "paper1_complete" ->
   resolve_id self (HStr s) = Return _paper1_complete_hosts) /\
  (lower s = "paper1_incomplete" ->
   resolve_id self (HStr s) = Return _paper1_incomplete_hosts) /\
  resolve_id self (HStr "paper1")
  = resolve_id self (HList [HStr "paper1_complete"; HStr "paper1_incomplete"]).
Proof.
  repeat split; try (intros H; rewrite <- resolve_id_ignores_case, H);
    reflexivity.
Qed.

Lemma resolve_id_shorthands_witness :
  resolve_id (init [5; 7] [("All", 99)]) (HStr "ALL") = Return [5; 7] /\
  resolve_id Examples.catalog (HStr "Paper1_Incomplete")
  = Return [161174; 85746; 145729; 140594; 126115; 13927; 137625; 129237].
Proof.
  split.
  - apply (resolve_id_shorthands (init [5; 7] [("All", 99)]) "ALL"). reflexivity.
  - apply (resolve_id_shorthands Examples.catalog "Paper1_Incomplete"). reflexivity.
Defined.

End HostsMore.

(** ** The join and the fill: errors *)

Module UtilsMore.
Import Tables TablesFacts Utils UtilsFacts FillSpec.

(** X7: when the base table has no column of the given RA name the call
    raises KeyError for that name, and when the base coordinates are
    read but the other table has no column of its RA name the call
    raises KeyError for that one; in both cases the base table is left
    as it was. *)
Theorem join_without_coordinate_column
    (separation distance3d : coord -> coord -> Q)
    (astype : Column -> cell -> result cell) (row_eq : Row -> string -> bool)
    (table table_to_join : Table)
    (columns_to_join : option (list string))
    (columns_to_rename : option (gmap string string))
    (max_distance : Q) (missing_value : missing)
    (ra dec ra2 dec2 : string) :
  let out := join_table_by_coordinates separation distance3d astype row_eq
               table table_to_join columns_to_join columns_to_rename
               max_distance missing_value ra dec ra2 dec2 in
  (getcol ra table = None -> out = (table, Raise (KeyError ra))) /\
  (forall sc, sky_coords ra dec table = Return sc ->
              getcol ra2 table_to_join = None ->
              out = (table, Raise (KeyError ra2))).
Proof.
  cbv zeta. unfold join_table_by_coordinates. split.
  - intros H. unfold sky_coords, getitem. now rewrite H.
  - intros sc Hsc H. rewrite Hsc. unfold sky_coords at 1, getitem. now rewrite H.
Qed.

Lemma join_without_coordinate_column_witness :
  join_table_by_coordinates Examples.equator_separation
    Examples.equator_distance Examples.same_kind Examples.row_is
    Examples.base Examples.wise_near None None Examples.one_arcsec
    (MissingValue NaN) "ra" "dec" "RA" "DEC"
  = (Examples.base, Raise (KeyError "ra")) /\
  join_table_by_coordinates Examples.equator_separation
    Examples.equator_distance Examples.same_kind Examples.row_is
    Examples.base Examples.wise_near None None Examples.one_arcsec
    (MissingValue NaN) "RA" "DEC" "ra" "dec"
  = (Examples.base, Raise (KeyError "ra")).
Proof.
  split.
  - apply (join_without_coordinate_column Examples.equator_separation
             Examples.equator_distance Examples.same_kind Examples.row_is
             Examples.base Examples.wise_near None None Examples.one_arcsec
             (MissingValue NaN) "ra" "dec" "RA" "DEC"). reflexivity.
  - eapply (join_without_coordinate_column Examples.equator_separation
              Examples.equator_distance Examples.same_kind Examples.row_is
              Examples.base Examples.wise_near None None Examples.one_arcsec
              (MissingValue NaN) "RA" "DEC" "ra" "dec"); reflexivity.
Defined.

(** X9: [fill_values_by_query] is not all-or-nothing.  When some row
    matches, the columns named before a column [c] exist and convert
    their values, and the table does not have [c], the call raises
    KeyError for [c] after it has put, at the matched rows, the
    converted values into the columns named before it; the columns
    named after it are not touched. *)
Theorem fill_values_missing_column
    (astype : Column -> cell -> result cell) (table : Table) (query : Query)
    (pre post : list (string * cell)) (c : string) (v : cell) :
  matching_rows query table <> [] ->
  NoDup pre.*1 ->
  storable astype table pre ->
  getcol c table = None ->
  exists table',
    fill_values_by_query astype table query (pre ++ (c, v) :: post)
    = (table', Raise (KeyError c)) /\
    colnames table' = colnames table /\
    forall name,
      match dict_get name pre with
      | Some w => exists col x, getcol name table = Some col /\
                    astype col w = Return x /\
                    getcol name table'
                    = Some (masked_fill (mask query table) x col)
      | None => getcol name table' = getcol name table
      end.
Proof.
  intros Hpos Hnd Hall Hc.
  destruct (fill_columns_spec astype (mask query table) pre table Hnd Hall)
    as (t' & Hrun & Hnames & Hget).
  exists t'. split; [|auto].
  unfold fill_values_by_query. rewrite count_nonzero_mask.
  replace (truthy _) with true
    by (destruct (matching_rows query table); [congruence|reflexivity]).
  rewrite fill_columns_app, Hrun. cbn [fill_columns]. unfold getitem.
  specialize (Hget c). destruct (dict_get c pre).
  - destruct Hget as (col & x & Hcol & _). congruence.
  - now rewrite Hget, Hc.
Qed.

Lemma fill_values_missing_column_witness :
  fill_values_by_query Examples.same_kind Examples.base Examples.objid_is_2
    [("RA", Num 99); ("SPEC_Z", Num 1); ("DEC", NaN)]
  = ([("OBJID", [Num 1; Num 2; Num 3]);
      ("RA", [Num 10; Num 99; Num 30]);
      ("DEC", [Num 0; Num 0; Num 0])], Raise (KeyError "SPEC_Z")).
Proof.
  destruct (fill_values_missing_column Examples.same_kind Examples.base
              Examples.objid_is_2 [("RA", Num 99)] [("DEC", NaN)] "SPEC_Z"
              (Num 1))
    as (table' & Hrun & _).
  - discriminate.
  - apply (bool_decide_unpack _). vm_compute. exact I.
  - repeat constructor. eexists _, _. split; reflexivity.
  - reflexivity.
  - reflexivity.
Defined.

End UtilsMore.

(** ** The generic reader: which files count *)

Module SpectraMore.
Import PyStr Tables Spectra SpectraFacts SpectraSpec.

Section Generic.

Variable ensure_specs_dtype : Table -> bool -> result Table.
Variable dir_path extension telname : string.
Variable usecols : gmap nat string.
Variable n_cols_total : nat.
Variable cuts : option Query.
Variable postprocess : option (Table -> result Table).
Variable midprocess : option (Table -> result (option Table)).

Let read_one := read_one ensure_specs_dtype dir_path extension usecols
                         n_cols_total cuts midprocess.
Let read_all := read_all ensure_specs_dtype dir_path extension usecols
                         n_cols_total cuts midprocess.
Let read_generic_spectra :=
  read_generic_spectra ensure_specs_dtype dir_path extension telname usecols
                       n_cols_total cuts postprocess midprocess.

Lemma read_all_skipped (pre post : list (string * file)) (f : string) (c : file) :
  read_one f c = Skipped ->
  read_all (pre ++ (f, c) :: post) = read_all (pre ++ post).
Proof.
  intros Hf. unfold read_all, read_one in *.
  induction pre as [|[g d] pre IH]; cbn [app Spectra.read_all].
  - now rewrite Hf.
  - now rewrite IH.
Qed.

Lemma read_all_warned (pre post : list (string * file)) (f : string) (c : file)
    (w : warning) :
  read_one f c = Warned w ->
  (read_all (pre ++ (f, c) :: post)).2 = (read_all (pre ++ post)).2.
Proof.
  intros Hf. unfold read_all, read_one in *.
  induction pre as [|[g d] pre IH]; cbn [app Spectra.read_all].
  - rewrite Hf. now destruct (Spectra.read_all _ _ _ _ _ _ _ post).
  - destruct (Spectra.read_one _ _ _ _ _ _ _ g d) as [|w'|this|e];
      [exact IH| | |reflexivity];
      destruct (Spectra.read_all _ _ _ _ _ _ _ (pre ++ (f, c) :: post)),
               (Spectra.read_all _ _ _ _ _ _ _ (pre ++ post));
      cbn [snd] in *; now rewrite IH.
Qed.

Lemma read_generic_spectra_eq (files files' : list (string * file)) :
  read_all files = read_all files' ->
  read_generic_spectra files = read_generic_spectra files'.
Proof.
  unfold read_generic_spectra, Spectra.read_generic_spectra, read_all.
  now intros ->.
Qed.

(** X10: a file whose name does not end with the reader's extension is
    ignored altogether: with or without it the reader logs the same
    warnings and gives the same table or exception. *)
Theorem other_extension_ignored (pre post : list (string * file))
    (f : string) (content : file) :
  endswith extension f = false ->
  read_generic_spectra (pre ++ (f, content) :: post)
  = read_generic_spectra (pre ++ post).
Proof.
  intros Hext. apply read_generic_spectra_eq, read_all_skipped.
  unfold read_one, Spectra.read_one. now rewrite Hext.
Qed.

(** X11: a file for which [Table.read] raises IOError (it cannot be
    opened) or CParserError costs a warning and nothing else: the table
    or exception of the reader is the one of the directory without the
    file, and when the file comes first its warning comes first. *)
Theorem unreadable_file_only_warns (pre post : list (string * file))
    (f : string) (content : file) (e : exn) :
  endswith extension f = true ->
  contains "conflicted copy" f = false ->
  Table_read (names usecols n_cols_total)
             (exclude_names usecols n_cols_total) content = Raise e ->
  (exists msg, e = IOError msg) \/ (exists msg, e = CParserError msg) ->
  (read_generic_spectra (pre ++ (f, content) :: post)).2
  = (read_generic_spectra (pre ++ post)).2 /\
  (read_generic_spectra ((f, content) :: post)).1
  = CouldNotRead dir_path f e :: (read_generic_spectra post).1.
Proof.
  intros Hext Hcopy Hread He.
  pose proof (read_one_unreadable ensure_specs_dtype dir_path extension usecols
                n_cols_total cuts midprocess f content e Hext Hcopy Hread He)
    as Hone.
  split.
  - unfold read_generic_spectra. rewrite !read_generic_spectra_result.
    fold read_all. now rewrite (read_all_warned pre post f content _ Hone).
  - unfold read_generic_spectra, Spectra.read_generic_spectra.
    cbn [Spectra.read_all]. rewrite Hone.
    now destruct (Spectra.read_all _ _ _ _ _ _ _ post).
Qed.

(** X12: a directory in which every file is passed over, silently (its
    name has another extension, or all its rows are cut) or with a
    warning (a conflicted copy, a file that cannot be read), an empty
    directory included, makes the reader raise the ValueError of
    [vstack], which gets an empty list. *)
Theorem no_contribution_raises (files : list (string * file)) :
  Forall (fun fc => read_one fc.1 fc.2 = Skipped \/
                    exists w, read_one fc.1 fc.2 = Warned w) files ->
  (read_generic_spectra files).2
  = Raise (ValueError "no values provided to stack.").
Proof.
  intros Hall.
  assert (Hout : (read_all files).2 = Return []).
  { unfold read_all, read_one in *.
    induction Hall as [|[f c] files Hf _ IH]; [reflexivity|].
    cbn [Spectra.read_all]. cbn [fst snd] in Hf.
    destruct Hf as [->|(w & ->)]; [exact IH|].
    now destruct (Spectra.read_all _ _ _ _ _ _ _ files). }
  unfold read_generic_spectra. rewrite read_generic_spectra_result.
  fold read_all. rewrite Hout. reflexivity.
Qed.

(** X13: an exception other than the two that are caught ends the
    reader at once: when the files listed before have been read without
    one, the reader raises it, whatever the files listed after hold. *)
Theorem failure_aborts_reader (pre post : list (string * file))
    (f : string) (content : file) (e : exn)
    (ws : list warning) (output : list (option Table)) :
  read_all pre = (ws, Return output) ->
  read_one f content = Failed e ->
  read_generic_spectra (pre ++ (f, content) :: post) = (ws, Raise e).
Proof.
  intros Hpre Hf.
  assert (Hall : read_all (pre ++ (f, content) :: post) = (ws, Raise e)).
  { unfold read_all, read_one in *. revert ws output Hpre.
    induction pre as [|[g d] pre IH]; intros ws output Hpre; cbn [app Spectra.read_all].
    - rewrite Hf. cbn in Hpre. now injection Hpre as <- _.
    - cbn [Spectra.read_all] in Hpre.
      destruct (Spectra.read_one _ _ _ _ _ _ _ g d) as [|w'|this|e'].
      + eapply IH, Hpre.
      + destruct (Spectra.read_all _ _ _ _ _ _ _ pre) as [ws' out'] eqn:E.
        injection Hpre as <- ->. now rewrite (IH _ _ eq_refl).
      + destruct (Spectra.read_all _ _ _ _ _ _ _ pre) as [ws' [out'|e'']] eqn:E;
          [|discriminate].
        injection Hpre as <- _. now rewrite (IH _ _ eq_refl).
      + discriminate. }
  unfold read_generic_spectra, Spectra.read_generic_spectra.
  unfold read_all in Hall. now rewrite Hall.
Qed.

End Generic.

Lemma other_extension_ignored_witness :
  let read := read_generic_spectra Examples.no_coercion "/spectra" ".zlog"
                "IMACS" (list_to_map [(2, "RA"); (3, "DEC"); (8, "SPECOBJID")]%nat)
                11 None None None in
  read (("notes.txt", Unreadable "Permission denied") :: take 1 Examples.conflicted_dir)
  = read (take 1 Examples.conflicted_dir).
Proof.
  cbv zeta.
  apply (other_extension_ignored Examples.no_coercion "/spectra" ".zlog" "IMACS"
           _ 11 None None None [] (take 1 Examples.conflicted_dir)
           "notes.txt" (Unreadable "Permission denied")).
  reflexivity.
Defined.

Lemma unreadable_file_only_warns_witness :
  let read := read_generic_spectra Examples.no_coercion "/spectra" ".zlog"
                "IMACS" (list_to_map [(2, "RA"); (3, "DEC"); (8, "SPECOBJID")]%nat)
                11 None None None in
  (read (take 2 Examples.mixed_dir)).2
  = (read (drop 1 (take 2 Examples.mixed_dir))).2 /\
  (read (take 2 Examples.mixed_dir)).1
  = CouldNotRead "/spectra" "broken.zlog" (IOError "Permission denied")
    :: (read (drop 1 (take 2 Examples.mixed_dir))).1.
Proof.
  cbv zeta.
  apply (unreadable_file_only_warns Examples.no_coercion "/spectra" ".zlog"
           "IMACS" _ 11 None None None [] (drop 1 (take 2 Examples.mixed_dir))
           "broken.zlog" (Unreadable "Permission denied")
           (IOError "Permission denied")); try reflexivity.
  left. eexists. reflexivity.
Defined.

Lemma no_contribution_raises_witness :
  (read_generic_spectra Examples.no_coercion "/spectra" ".zlog" "IMACS"
     (list_to_map [(2, "RA"); (3, "DEC"); (7, "ZQUALITY"); (8, "SPECOBJID")]%nat)
     11
     (Some (fun row => cell_ge_num (Utils.dict_get "ZQUALITY" row) 5))
     None None
     [("notes.txt", Lines [[Str "to do"]]);
      ("early (conflicted copy 2017-01-01).zlog",
       Lines [Examples.zlog_line "c1" (9 # 10)]);
      ("gone.zlog", Unreadable "No such file or directory");
      ("early.zlog", Lines [Examples.zlog_line "b1" (2 # 10)])]).2
  = Raise (ValueError "no values provided to stack.").
Proof.
  apply no_contribution_raises.
  apply Forall_cons. split; [left; reflexivity|].
  apply Forall_cons. split; [right; eexists; reflexivity|].
  apply Forall_cons. split; [right; eexists; reflexivity|].
  apply Forall_cons. split; [left; vm_compute; reflexivity|constructor].
Defined.

Lemma failure_aborts_reader_witness :
  read_generic_spectra Examples.no_coercion "/spectra" ".zlog" "MMT"
    (list_to_map [(2, "RA"); (3, "DEC"); (5, "SPEC_Z"); (8, "SPECOBJID")]%nat)
    11 None None
    (Some (midprocess_of Examples.fits_headers Examples.fixed_correction
             "/spectra" None ".zlog" "mmt" "RA" "DEC" "DATE-OBS"))
    (("broken.zlog", Unreadable "Permission denied") :: Examples.zlog_dir)
  = ([CouldNotRead "/spectra" "broken.zlog" (IOError "Permission denied")],
     Raise (KeyError "DATE-OBS")).
Proof.
  apply (failure_aborts_reader Examples.no_coercion "/spectra" ".zlog" "MMT"
           _ 11 None None _ [("broken.zlog", Unreadable "Permission denied")]
           (drop 1 Examples.zlog_dir) "late.zlog"
           (Lines [Examples.zlog_line "a1" (1 # 10)]) (KeyError "DATE-OBS")
           _ []);
    vm_compute; reflexivity.
Defined.

End SpectraMore.

(** ** The columns of a parsed file *)

Module ReaderColumns.
Import PyStr Tables Spectra.

Lemma column_names_length (usecols : gmap nat string) (n : nat) :
  length (column_names usecols n) = n.
Proof. unfold column_names. now rewrite length_map, length_seq. Qed.

Lemma default_name_excluded (usecols : gmap nat string) (n i : nat) :
  (i < n)%nat -> usecols !! (i + 1)%nat = None ->
  existsb (String.eqb ("_" +:+ pretty i))
          (excluded_names (column_names usecols n)) = true.
Proof.
  intros Hi Hnone. apply existsb_exists. exists ("_" +:+ pretty i).
  split; [|apply String.eqb_refl].
  unfold excluded_names. apply filter_In. split; [|reflexivity].
  unfold column_names. apply in_map_iff. exists i.
  split; [now rewrite Hnone|]. apply in_seq. lia.
Qed.

Lemma used_name_kept (usecols : gmap nat string) (n : nat) (name : string) :
  startswith "_" name = false ->
  existsb (String.eqb name) (excluded_names (column_names usecols n)) = false.
Proof.
  intros Hname. apply not_true_iff_false. intros (x & Hx & Heq)%existsb_exists.
  apply String.eqb_eq in Heq as <-.
  unfold excluded_names in Hx. apply filter_In in Hx as [_ Hx]. congruence.
Qed.

Lemma omap_indexed {A B} (F : nat * A -> option B) (f : nat -> A) (m : nat) :
  forall k : nat,
    omap F (imap (fun i x => (k + i, x)%nat) (map f (seq k m)))
    = omap (fun i => F (i, f i)) (seq k m).
Proof.
  induction m as [|m IH]; intros k; [reflexivity|].
  cbn [seq map]. rewrite imap_cons.
  rewrite (imap_ext _ (fun i x => (S k + i, x)%nat)).
  2:{ intros i x _. unfold compose. f_equal. lia. }
  cbn [omap list_omap]. rewrite Nat.add_0_r.
  change (list_omap ?g ?l) with (omap g l).
  now rewrite IH.
Qed.

Lemma omap_ext_in {A B} (f g : A -> option B) (l : list A) :
  (forall x, x ∈ l -> f x = g x) -> omap f l = omap g l.
Proof.
  intros H. apply list_omap_ext. induction l as [|x l IH]; constructor.
  - apply H, list_elem_of_here.
  - apply IH. intros y Hy. now apply H, list_elem_of_further.
Qed.

Lemma map_omap {A B C} (g : B -> C) (f : A -> option B) (l : list A) :
  map g (omap f l) = omap (fun x => g <$> f x) l.
Proof.
  induction l as [|x l IH]; [reflexivity|]. cbn [omap list_omap].
  repeat change (list_omap ?h ?k) with (omap h k).
  destruct (f x); cbn [fmap option_fmap option_map map]; now rewrite IH.
Qed.

Lemma NoDup_omap_inj {A B} (f : A -> option B) (l : list A) :
  NoDup l ->
  (forall x y z, x ∈ l -> y ∈ l -> f x = Some z -> f y = Some z -> x = y) ->
  NoDup (omap f l).
Proof.
  induction 1 as [|x l Hx Hl IH]; intros Hinj; [constructor|].
  cbn [omap list_omap]. change (list_omap ?h ?k) with (omap h k).
  assert (Hrest : NoDup (omap f l)).
  { apply IH. intros a b z Ha Hb. apply Hinj; now apply list_elem_of_further. }
  destruct (f x) as [z|] eqn:Hz; [|exact Hrest].
  apply NoDup_cons. split; [|exact Hrest].
  intros (y & Hy & Hfy)%list_elem_of_omap. apply Hx.
  rewrite (Hinj x y z); [exact Hy|apply list_elem_of_here|
                         now apply list_elem_of_further|exact Hz|exact Hfy].
Qed.

(** X14: a file with at least one line, whose lines all have
    [n_cols_total] fields, is parsed into exactly the columns that
    [usecols] names for the positions 1 to [n_cols_total], in the order
    of the positions, each holding that field of every line; the other
    fields are dropped.  (No name of [usecols] starts with an underscore
    and no name is given to two of the positions.) *)
Theorem parsed_columns_follow_usecols (usecols : gmap nat string) (n : nat)
    (fields : list (list cell)) :
  (forall k name, usecols !! k = Some name -> startswith "_" name = false) ->
  (forall i j name, (i < n)%nat -> (j < n)%nat ->
     usecols !! (i + 1)%nat = Some name -> usecols !! (j + 1)%nat = Some name ->
     i = j) ->
  fields <> [] ->
  Forall (fun line => length line = n) fields ->
  let names := column_names usecols n in
  Table_read names (excluded_names names) (Lines fields)
  = Return (omap (fun i =>
              (fun name => (name, map (fun line => default NaN (line !! i)) fields))
              <$> usecols !! (i + 1)%nat) (seq 0 n)).
Proof.
  intros Hnames Hinj Hne Hall names. unfold Table_read. subst names.
  rewrite column_names_length.
  destruct fields as [|first rest] eqn:Hfields; [congruence|]. rewrite <- Hfields.
  assert (Hfirst : Nat.eqb (length first) n = true).
  { apply Nat.eqb_eq. now apply Forall_cons in Hall as [? _]. }
  assert (Hrest : forallb (fun r => Nat.eqb (length r) n) rest = true).
  { apply forallb_forall. intros line Hin%list_elem_of_In.
    apply Forall_cons in Hall as [_ Hall].
    rewrite Forall_forall in Hall. apply Nat.eqb_eq. now apply Hall. }
  rewrite Hfirst, Hrest. cbn [negb].
  assert (Htable :
    omap (fun kn : nat * string =>
            if existsb (String.eqb kn.2) (excluded_names (column_names usecols n))
            then None
            else Some (kn.2, map (fun r => default NaN (r !! kn.1)) fields))
         (imap pair (column_names usecols n))
    = omap (fun i =>
              (fun name => (name, map (fun line => default NaN (line !! i)) fields))
              <$> usecols !! (i + 1)%nat) (seq 0 n)).
  { unfold column_names at 2.
    rewrite (imap_ext pair (fun i x => (0 + i, x)%nat)) by reflexivity.
    rewrite (omap_indexed _ _ n 0).
    apply omap_ext_in. intros i Hi%elem_of_seq.
    cbn [fst snd].
    destruct (usecols !! (i + 1)%nat) as [name|] eqn:Hname;
      cbn [default fmap option_fmap option_map].
    + now rewrite (used_name_kept _ _ _ (Hnames _ _ Hname)).
    + rewrite default_name_excluded; [reflexivity|lia|exact Hname]. }
  rewrite Htable. rewrite bool_decide_eq_true_2; [reflexivity|].
  unfold colnames. rewrite map_omap. apply NoDup_omap_inj; [apply NoDup_seq|].
  intros i j name Hi%elem_of_seq Hj%elem_of_seq Hfi Hfj.
  destruct (usecols !! (i + 1)%nat) as [a|] eqn:Ha; [|discriminate].
  destruct (usecols !! (j + 1)%nat) as [b|] eqn:Hb; [|discriminate].
  cbn in Hfi, Hfj. injection Hfi as ->. injection Hfj as ->.
  apply (Hinj i j name); [lia|lia|exact Ha|exact Hb].
Qed.

Lemma parsed_columns_follow_usecols_witness :
  Table_read
    (column_names (list_to_map [(8, "SPECOBJID"); (2, "RA"); (40, "X")]%nat) 11)
    (excluded_names
       (column_names (list_to_map [(8, "SPECOBJID"); (2, "RA"); (40, "X")]%nat) 11))
    (Lines [Examples.zlog_line "a1" (1 # 10); Examples.zlog_line "a2" (2 # 10)])
  = Return [("RA", [Num 10; Num 10]); ("SPECOBJID", [Str "a1"; Str "a2"])].
Proof.
  eapply eq_trans.
  - apply (parsed_columns_follow_usecols
             (list_to_map [(8, "SPECOBJID"); (2, "RA"); (40, "X")]%nat) 11).
    + intros k name Hk%elem_of_list_to_map_2.
      repeat (apply elem_of_cons in Hk as [[= -> ->]|Hk]; [reflexivity|]).
      inversion Hk.
    + intros i j name Hi Hj Hfi Hfj.
      do 11 (destruct i as [|i];
             [do 11 (destruct j as [|j];
                     [first [reflexivity
                            | vm_compute in Hfi; vm_compute in Hfj; congruence]|]);
              lia|]).
      lia.
    + discriminate.
    + repeat constructor.
  - reflexivity.
Defined.

End ReaderColumns.

(** ** The heliocentric correction of one file *)

Module MidprocessFacts.
Import PyStr Tables TablesFacts Spectra SpectraFacts SpectraSpec.

Lemma map_const_replicate {A B} (v : B) (l : list A) :
  map (fun _ => v) l = replicate (length l) v.
Proof. induction l as [|x l IH]; [reflexivity|]. cbn. now rewrite IH. Qed.

(** Setting a column to a scalar on a table that has rows. *)
Lemma setitem_scalar_result (name : string) (v : cell) (t : Table) :
  table_ok t -> (0 < nrows t)%nat ->
  exists t', setitem_scalar name v t = Return t' /\
    table_ok t' /\ nrows t' = nrows t /\
    getcol name t' = Some (replicate (nrows t) v) /\
    forall c, c <> name -> getcol c t' = getcol c t.
Proof.
  intros Hok Hpos. unfold setitem_scalar.
  assert (Hlen : length (replicate (nrows t) v) = nrows t) by apply length_replicate.
  destruct (getcol name t) as [old|] eqn:Hold.
  - rewrite map_const_replicate, (table_ok_getcol _ _ _ Hok Hold).
    eexists. split; [reflexivity|].
    split; [now apply table_ok_setcol|]. split; [now apply nrows_setcol|].
    split; [apply getcol_setcol_eq|].
    intros c Hc. apply getcol_setcol_ne. congruence.
  - destruct (Nat.eqb_spec (nrows t) 0); [lia|].
    eexists. split; [reflexivity|].
    split; [now apply table_ok_setcol|]. split; [now apply nrows_setcol|].
    split; [apply getcol_setcol_eq|].
    intros c Hc. apply getcol_setcol_ne. congruence.
Qed.

Lemma iadd_numbers (col : Column) (corr : Q) :
  forallb is_number col = true -> iadd col corr = Return (map (shift_cell corr) col).
Proof.
  unfold iadd. induction col as [|c col IH]; [reflexivity|].
  cbn [forallb map mapM]. intros [Hc Hcol]%andb_true_iff.
  rewrite (IH Hcol). destruct c; try discriminate; reflexivity.
Qed.

Section Midprocess.

Variable getheader : string -> result (gmap string cell).
Variable radial_velocity_correction : string -> cell -> cell -> Q -> Q.
Variable dir_path : string.
Variables extension site ra_name dec_name time_name : string.

Let heliocentric (m : string) :=
  heliocentric_correction getheader radial_velocity_correction
    (path_join dir_path (replace extension ".fits.gz" m))
    site ra_name dec_name time_name.
Let midprocess (before_time : option Q) :=
  midprocess_of getheader radial_velocity_correction dir_path before_time
    extension site ra_name dec_name time_name.

(** X15: [midprocess] ends in its bare [return], giving [None], exactly
    when a cutoff is given, the companion header is read, and the
    header's time is later than the cutoff; never without a cutoff and
    never for a mask whose companion file cannot be opened. *)
Theorem midprocess_none_iff_late (before_time : option Q) (t : Table) :
  midprocess before_time t = Return None <->
  exists m rest corr obstime before,
    getcol "MASKNAME" t = Some (Str m :: rest) /\
    heliocentric m = Return (corr, obstime) /\
    before_time = Some before /\ (before < obstime)%Q.
Proof.
  split.
  - unfold midprocess, midprocess_of, getitem.
    destruct (getcol "MASKNAME" t) as [[|[| |m|] rest]|] eqn:Hmask;
      cbn [mbind result_bind lookup list_lookup]; try discriminate.
    fold (heliocentric m).
    destruct (heliocentric m) as [[corr obstime]|e] eqn:Hcorr.
    + destruct before_time as [before|].
      * destruct (Qle_bool obstime before) eqn:Hle; cbn [negb].
        -- destruct (getcol "SPEC_Z" t); cbn [mbind result_bind]; [|discriminate].
           destruct (iadd _ corr); cbn [mbind result_bind]; [|discriminate].
           destruct (setitem_scalar _ _ _); discriminate.
        -- intros _. exists m, rest, corr, obstime, before.
           split; [reflexivity|]. split; [exact Hcorr|]. split; [reflexivity|].
           apply Qnot_le_lt. intros Hle'%Qle_bool_iff. congruence.
      * destruct (getcol "SPEC_Z" t); cbn [mbind result_bind]; [|discriminate].
        destruct (iadd _ corr); cbn [mbind result_bind]; [|discriminate].
        destruct (setitem_scalar _ _ _); discriminate.
    + destruct e; try discriminate.
      destruct (setitem_scalar _ _ _); discriminate.
  - intros (m & rest & corr & obstime & before & Hmask & Hcorr & -> & Hlate).
    eapply midprocess_of_after_cutoff; eassumption.
Qed.

(** X16: a mask whose companion FITS file cannot be opened is kept, with
    or without a cutoff: every row gets HELIO_CORR = False and no other
    column, SPEC_Z included, is changed. *)
Theorem midprocess_without_companion (before_time : option Q) (t : Table)
    (m msg : string) (rest : Column) :
  table_ok t ->
  getcol "MASKNAME" t = Some (Str m :: rest) ->
  getheader (path_join dir_path (replace extension ".fits.gz" m))
    = Raise (IOError msg) ->
  exists t', midprocess before_time t = Return (Some t') /\
    nrows t' = nrows t /\
    getcol "HELIO_CORR" t' = Some (replicate (nrows t) (Bool false)) /\
    forall c, c <> "HELIO_CORR" -> getcol c t' = getcol c t.
Proof.
  intros Hok Hmask Hhdr.
  assert (Hpos : (0 < nrows t)%nat).
  { rewrite <- (table_ok_getcol _ _ _ Hok Hmask). cbn. lia. }
  destruct (setitem_scalar_result "HELIO_CORR" (Bool false) t Hok Hpos)
    as (t' & Hset & _ & Hn & Hcol & Hframe).
  exists t'. split; [|auto].
  unfold midprocess, midprocess_of, getitem, heliocentric_correction.
  rewrite Hmask. cbn [mbind result_bind lookup list_lookup].
  rewrite Hhdr. cbn [mbind result_bind]. now rewrite Hset.
Qed.

(** X17: a mask whose companion header is read and is not later than the
    cutoff (or there is no cutoff) is kept: the correction is added to
    every SPEC_Z, every row gets HELIO_CORR = True, and the other
    columns are unchanged. *)
Theorem midprocess_applies_correction (before_time : option Q) (t : Table)
    (m : string) (rest spec_z : Column) (corr obstime : Q) :
  table_ok t ->
  getcol "MASKNAME" t = Some (Str m :: rest) ->
  heliocentric m = Return (corr, obstime) ->
  (forall before, before_time = Some before -> (obstime <= before)%Q) ->
  getcol "SPEC_Z" t = Some spec_z ->
  forallb is_number spec_z = true ->
  exists t', midprocess before_time t = Return (Some t') /\
    nrows t' = nrows t /\
    getcol "SPEC_Z" t' = Some (map (shift_cell corr) spec_z) /\
    getcol "HELIO_CORR" t' = Some (replicate (nrows t) (Bool true)) /\
    forall c, c <> "HELIO_CORR" -> c <> "SPEC_Z" -> getcol c t' = getcol c t.
Proof.
  intros Hok Hmask Hcorr Hcut Hz Hnum.
  assert (Hpos : (0 < nrows t)%nat).
  { rewrite <- (table_ok_getcol _ _ _ Hok Hmask). cbn. lia. }
  set (t1 := setcol "SPEC_Z" (map (shift_cell corr) spec_z) t).
  assert (Hlen : length (map (shift_cell corr) spec_z) = nrows t).
  { rewrite length_map. eapply table_ok_getcol; eassumption. }
  assert (Hok1 : table_ok t1) by now apply table_ok_setcol.
  assert (Hn1 : nrows t1 = nrows t) by now apply nrows_setcol.
  destruct (setitem_scalar_result "HELIO_CORR" (Bool true) t1 Hok1)
    as (t' & Hset & _ & Hn & Hcol & Hframe); [lia|].
  exists t'. split.
  - unfold midprocess, midprocess_of, getitem.
    rewrite Hmask. cbn [mbind result_bind lookup list_lookup].
    fold (heliocentric m). rewrite Hcorr.
    replace (match before_time with Some before => _ | None => false end)
      with false.
    2:{ destruct before_time as [before|]; [|reflexivity].
        symmetry. apply negb_false_iff, Qle_bool_iff. now apply Hcut. }
    rewrite Hz. cbn [mbind result_bind]. rewrite (iadd_numbers _ _ Hnum).
    cbn [mbind result_bind]. fold t1. now rewrite Hset.
  - split; [congruence|]. split.
    { rewrite Hframe by discriminate. apply getcol_setcol_eq. }
    split; [now rewrite Hcol, Hn1|].
    intros c Hc1 Hc2. rewrite (Hframe _ Hc1). apply getcol_setcol_ne. congruence.
Qed.

End Midprocess.

Lemma midprocess_without_companion_witness :
  exists t',
    midprocess_of Examples.fits_headers Examples.fixed_correction "/spectra"
      Examples.cutoff ".zlog" "mmt" "RA" "DEC" "MJD" Examples.orphan_mask
      = Return (Some t') /\
    nrows t' = nrows Examples.orphan_mask /\
    getcol "HELIO_CORR" t'
      = Some (replicate (nrows Examples.orphan_mask) (Bool false)) /\
    forall c, c <> "HELIO_CORR" -> getcol c t' = getcol c Examples.orphan_mask.
Proof.
  apply (midprocess_without_companion Examples.fits_headers
           Examples.fixed_correction "/spectra" ".zlog" "mmt" "RA" "DEC" "MJD"
           Examples.cutoff Examples.orphan_mask "orphan.zlog"
           "No such file or directory" [Str "orphan.zlog"]).
  - repeat constructor.
  - reflexivity.
  - reflexivity.
Defined.

Lemma midprocess_applies_correction_witness :
  exists t',
    midprocess_of Examples.fits_headers Examples.fixed_correction "/spectra"
      Examples.cutoff ".zlog" "mmt" "RA" "DEC" "MJD" Examples.early_mask
      = Return (Some t') /\
    nrows t' = nrows Examples.early_mask /\
    getcol "SPEC_Z" t'
      = Some (map (shift_cell (1 # 10000)) [Num (2 # 10); NaN]) /\
    getcol "HELIO_CORR" t'
      = Some (replicate (nrows Examples.early_mask) (Bool true)) /\
    forall c, c <> "HELIO_CORR" -> c <> "SPEC_Z" ->
      getcol c t' = getcol c Examples.early_mask.
Proof.
  apply (midprocess_applies_correction Examples.fits_headers
           Examples.fixed_correction "/spectra" ".zlog" "mmt" "RA" "DEC" "MJD"
           Examples.cutoff Examples.early_mask "early.zlog" [Str "early.zlog"]
           [Num (2 # 10); NaN] (1 # 10000) 56000).
  - repeat constructor.
  - reflexivity.
  - reflexivity.
  - intros before [= <-]. vm_compute. discriminate.
  - reflexivity.
  - reflexivity.
Defined.

End MidprocessFacts.

(** ** Files written by [SAGA/utils.py] *)

Module FilesFacts.
Import PyStr Files.

#[local] Arguments String.append !s1 s2 : simpl nomatch.

Lemma length_append (a b : string) :
  String.length (a +:+ b) = (String.length a + String.length b)%nat.
Proof.
  induction a as [|c a IH]; [reflexivity|].
  simpl. now rewrite IH.
Qed.

Lemma append_ne (a b : string) : b <> EmptyString -> a +:+ b <> a.
Proof.
  intros Hb E. apply (f_equal String.length) in E. rewrite length_append in E.
  destruct b; [congruence|]. cbn in E. lia.
Qed.

Lemma lower_app (a b : string) : lower (a +:+ b) = lower a +:+ lower b.
Proof.
  induction a as [|c a IH]; [reflexivity|].
  simpl. now rewrite IH.
Qed.

Lemma endswith_app (p a : string) : endswith p (a +:+ p) = true.
Proof.
  induction a as [|c a IH].
  - destruct p; cbn; rewrite ?Ascii.eqb_refl, ?String.eqb_refl; reflexivity.
  - simpl. rewrite IH. apply orb_true_r.
Qed.

Section IO.

Variable gzip : bytes -> bytes.
Variable writable : string -> bool.
Variable requests_get : string -> result bytes.
Variable str_float : Q -> string.

(** The file system after compressing to another path. *)
Lemma gzip_compress_other_path (fs : files) (path out : string)
    (delete_original : bool) (content : bytes) :
  fs !! path = Some content -> writable out = true -> out <> path ->
  gzip_compress gzip writable fs path (Some out) delete_original
  = (if delete_original then delete path (<[out := gzip content]> fs)
     else <[out := gzip content]> fs, Return out).
Proof.
  intros Hsrc Hw Hout. unfold gzip_compress.
  change (default (path +:+ ".gz") (Some out)) with out.
  rewrite Hsrc, Hw. cbn [negb].
  rewrite lookup_insert_ne, Hsrc by exact Hout.
  change (default [] (Some content)) with content.
  now rewrite insert_insert_eq.
Qed.

(** X18: compressing an existing file to another path (by default the
    path with ".gz" appended, which is always another path) leaves the
    compressed content at the output path, removes the original exactly
    when [delete_original] is set, returns the output path and touches
    no other file. *)
Theorem gzip_compress_result (fs : files) (path : string)
    (out_path : option string) (delete_original : bool) (content : bytes) :
  let out := default (path +:+ ".gz") out_path in
  fs !! path = Some content ->
  writable out = true ->
  out_path <> Some path ->
  exists fs',
    gzip_compress gzip writable fs path out_path delete_original
      = (fs', Return out) /\
    out <> path /\
    fs' !! out = Some (gzip content) /\
    fs' !! path = (if delete_original then None else Some content) /\
    forall p, p <> out -> p <> path -> fs' !! p = fs !! p.
Proof.
  intros out Hsrc Hw Hne.
  assert (Hout : out <> path).
  { subst out. destruct out_path as [o|]; cbn; [congruence|].
    apply append_ne. discriminate. }
  unfold gzip_compress. fold out. rewrite Hsrc, Hw. cbn [negb].
  rewrite lookup_insert_ne, Hsrc by exact Hout.
  change (default [] (Some content)) with content.
  eexists. split; [reflexivity|]. split; [exact Hout|].
  destruct delete_original.
  - split; [rewrite lookup_delete_ne, lookup_insert_eq by congruence; reflexivity|].
    split; [apply lookup_delete_eq|].
    intros p Hp1 Hp2. now rewrite lookup_delete_ne, !lookup_insert_ne by congruence.
  - split; [apply lookup_insert_eq|].
    split; [now rewrite !lookup_insert_ne by exact Hout|].
    intros p Hp1 Hp2. now rewrite !lookup_insert_ne by congruence.
Qed.

(** X19: compressing a file onto its own path loses its content: the
    output is opened, and so truncated, before anything is read, so what
    is written is the compression of nothing, and with
    [delete_original] the file is removed altogether. *)
Theorem gzip_compress_onto_itself (fs : files) (path : string)
    (delete_original : bool) (content : bytes) :
  fs !! path = Some content ->
  writable path = true ->
  gzip_compress gzip writable fs path (Some path) delete_original
  = (if delete_original then delete path fs else <[path := gzip []]> fs,
     Return path).
Proof.
  intros Hsrc Hw. unfold gzip_compress.
  change (default (path +:+ ".gz") (Some path)) with path.
  rewrite Hsrc, Hw. cbn [negb]. rewrite lookup_insert_eq.
  change (default [] (Some [])) with (@nil Byte.byte).
  rewrite insert_insert_eq. destruct delete_original; [|reflexivity].
  now rewrite delete_insert_eq.
Qed.

(** X20: when [out] is given, the image is saved under a name that ends
    in ".jpg" whatever the case of its letters: [out] itself if it
    already does, else [out] with ".jpg" appended; the bytes saved are
    the bytes returned, and nothing is written when the call raises. *)
Theorem decals_image_saved_as_jpg (fs : files) (ra dec pixscale : Q)
    (layer : string) (size : nat) (out : string) :
  let '(fs', r) := get_decals_viewer_image writable requests_get str_float
                     fs ra dec pixscale layer size (Some out) in
  match r with
  | Raise _ => fs' = fs
  | Return content =>
      exists name,
        (endswith ".jpg" (lower out) = true -> name = out) /\
        (endswith ".jpg" (lower out) = false -> name = out +:+ ".jpg") /\
        endswith ".jpg" (lower name) = true /\
        fs' = <[name := content]> fs
  end.
Proof.
  unfold get_decals_viewer_image.
  destruct (requests_get _) as [content|e]; [|reflexivity].
  destruct (endswith ".jpg" (lower out)) eqn:Hend; cbn [negb].
  - destruct (writable out); [|reflexivity].
    exists out. repeat split; [discriminate|exact Hend].
  - destruct (writable (out +:+ ".jpg")); [|reflexivity].
    exists (out +:+ ".jpg"). repeat split; [discriminate|].
    rewrite lower_app. apply endswith_app.
Qed.

End IO.

Lemma gzip_compress_result_witness :
  let out := default ("/data/nsa61945.fits" +:+ ".gz") None in
  exists fs',
    gzip_compress Examples.gz Examples.any_path Examples.disk
      "/data/nsa61945.fits" None true = (fs', Return out) /\
    out <> "/data/nsa61945.fits" /\
    fs' !! out = Some (Examples.gz [Byte.x53; Byte.x49; Byte.x4d]) /\
    fs' !! "/data/nsa61945.fits" = None /\
    forall p, p <> out -> p <> "/data/nsa61945.fits" ->
      fs' !! p = Examples.disk !! p.
Proof.
  apply (gzip_compress_result Examples.gz Examples.any_path Examples.disk
           "/data/nsa61945.fits" None true [Byte.x53; Byte.x49; Byte.x4d]).
  - reflexivity.
  - reflexivity.
  - discriminate.
Defined.

Lemma gzip_compress_onto_itself_witness :
  gzip_compress Examples.gz Examples.any_path Examples.disk
    "/data/nsa61945.fits" (Some "/data/nsa61945.fits") true
  = (delete "/data/nsa61945.fits" Examples.disk, Return "/data/nsa61945.fits").
Proof.
  apply (gzip_compress_onto_itself Examples.gz Examples.any_path Examples.disk
           "/data/nsa61945.fits" true [Byte.x53; Byte.x49; Byte.x4d]).
  - reflexivity.
  - reflexivity.
Defined.

End FilesFacts.

(** ** Waiting for a CasJobs job ([SAGA/objects/sdss.py]) *)

Module SdssFacts.
Import PyStr Files Sdss FilesFacts.

Section Casjob.

Variable gzip : bytes -> bytes.
Variable writable : string -> bool.
Variable environ : string -> bool.
Variable submit : string -> outcome unit.
Variable status : nat -> outcome Z.
Variable request_and_get_output : string -> outcome bytes.
Variable drop_table : string -> outcome unit.

Let run_casjob :=
  run_casjob gzip writable environ submit status request_and_get_output
    drop_table.

Lemma wait_never (fuel k : nat) :
  (forall j, exists c, status j = Done c /\ c <> 5) -> wait status fuel k = None.
Proof.
  intros Hall. revert k. induction fuel as [|fuel IH]; intros k; [reflexivity|].
  cbn [wait]. destruct (Hall k) as (c & -> & Hc).
  destruct (Z.eqb_spec c 5); [contradiction|]. apply IH.
Qed.

Lemma wait_found (fuel k n : nat) :
  (k <= n < k + fuel)%nat ->
  status n = Done 5 ->
  (forall j, (k <= j < n)%nat -> exists c, status j = Done c /\ c <> 5) ->
  wait status fuel k = Some (S n, Done tt).
Proof.
  revert k. induction fuel as [|fuel IH]; intros k Hk Hn Hbefore; [lia|].
  cbn [wait]. destruct (decide (k = n)) as [->|Hne].
  - now rewrite Hn.
  - destruct (Hbefore k) as (c & -> & Hc); [lia|].
    destruct (Z.eqb_spec c 5); [contradiction|].
    apply IH; [lia|exact Hn|]. intros j Hj. apply Hbefore. lia.
Qed.

(** X21: a submitted job is waited for until a status call reports code
    5.  If every call reports another code (3 for a cancelled job, 4 for
    a failed one), [run_casjob] never returns and never raises, however
    many calls it is given. *)
Theorem run_casjob_waits_for_code_5 (fuel : nat) (fs : files)
    (query db_table_name output_path : string) (compress overwrite : bool) :
  environ "CASJOBS_WSID" = true -> environ "CASJOBS_PW" = true ->
  overwrite || negb (isfile fs output_path) = true ->
  submit query = Done tt ->
  (forall k, exists c, status k = Done c /\ c <> 5) ->
  run_casjob fuel fs query db_table_name output_path compress overwrite = None.
Proof.
  intros He1 He2 Hrun Hsub Hall. unfold run_casjob, Sdss.run_casjob.
  cbn [forallb]. rewrite He1, He2, Hrun, Hsub. cbn [andb negb].
  now rewrite wait_never.
Qed.

(** X22: when the status call number [n] (from 0) is the first to report
    code 5, the output is fetched and the table dropped, [run_casjob]
    with [compress] returns after [n + 1] status calls; the compressed
    output is at [output_path], the temporary file is gone and no other
    file is touched. *)
Theorem run_casjob_downloads_and_compresses (fuel n : nat) (fs : files)
    (query db_table_name output_path : string) (overwrite : bool)
    (content : bytes) :
  environ "CASJOBS_WSID" = true -> environ "CASJOBS_PW" = true ->
  overwrite || negb (isfile fs output_path) = true ->
  submit query = Done tt ->
  status n = Done 5 ->
  (forall j, (j < n)%nat -> exists c, status j = Done c /\ c <> 5) ->
  (n < fuel)%nat ->
  request_and_get_output db_table_name = Done content ->
  drop_table db_table_name = Done tt ->
  writable (output_path +:+ ".tmp") = true ->
  writable output_path = true ->
  exists fs',
    run_casjob fuel fs query db_table_name output_path true overwrite
    = Some (fs',
            (Submit query :: replicate (S n) Status
               ++ [RequestOutput db_table_name]) ++ [DropTable db_table_name],
            Done tt) /\
    fs' !! output_path = Some (gzip content) /\
    fs' !! (output_path +:+ ".tmp") = None /\
    forall p, p <> output_path -> p <> output_path +:+ ".tmp" ->
      fs' !! p = fs !! p.
Proof.
  intros He1 He2 Hrun Hsub Hn Hbefore Hfuel Hreq Hdrop Hwtmp Hw.
  assert (Htmp : output_path <> output_path +:+ ".tmp").
  { intros E. symmetry in E. revert E. apply append_ne. discriminate. }
  unfold run_casjob, Sdss.run_casjob.
  cbn [forallb]. rewrite He1, He2, Hrun, Hsub. cbn [andb negb].
  rewrite (wait_found fuel 0 n) by (try lia; try exact Hn; intros j Hj; apply Hbefore; lia).
  rewrite Hreq, Hwtmp, Hdrop. cbn [negb].
  rewrite (gzip_compress_other_path gzip writable _ _ output_path true content)
    by (try apply lookup_insert_eq; try exact Hw; exact Htmp).
  eexists. split; [reflexivity|].
  split; [now rewrite lookup_delete_ne, lookup_insert_eq by congruence|].
  split; [apply lookup_delete_eq|].
  intros p Hp1 Hp2.
  now rewrite lookup_delete_ne, !lookup_insert_ne by congruence.
Qed.

End Casjob.

Lemma run_casjob_waits_for_code_5_witness :
  run_casjob Examples.gz Examples.any_path Examples.environment
    Examples.accepted Examples.cancelled Examples.fetched Examples.accepted
    1000 Examples.disk "SELECT 1" "SAGAqxzv" "/data/nsa13927.fits.gz" true false
  = None.
Proof.
  apply (run_casjob_waits_for_code_5 Examples.gz Examples.any_path
           Examples.environment Examples.accepted Examples.cancelled
           Examples.fetched Examples.accepted).
  - reflexivity.
  - reflexivity.
  - reflexivity.
  - reflexivity.
  - intros k. exists 3. split; [reflexivity|lia].
Defined.

Lemma run_casjob_downloads_and_compresses_witness :
  exists fs',
    run_casjob Examples.gz Examples.any_path Examples.environment
      Examples.accepted Examples.finishes_third Examples.fetched
      Examples.accepted 10 Examples.disk "SELECT 1" "SAGAqxzv"
      "/data/nsa13927.fits.gz" true false
    = Some (fs',
            (Submit "SELECT 1" :: replicate 3 Status
               ++ [RequestOutput "SAGAqxzv"]) ++ [DropTable "SAGAqxzv"],
            Done tt) /\
    fs' !! "/data/nsa13927.fits.gz"
      = Some (Examples.gz [Byte.x53; Byte.x49; Byte.x4d]) /\
    fs' !! ("/data/nsa13927.fits.gz" +:+ ".tmp") = None /\
    forall p, p <> "/data/nsa13927.fits.gz" ->
      p <> "/data/nsa13927.fits.gz" +:+ ".tmp" ->
      fs' !! p = Examples.disk !! p.
Proof.
  apply (run_casjob_downloads_and_compresses Examples.gz Examples.any_path
           Examples.environment Examples.accepted Examples.finishes_third
           Examples.fetched Examples.accepted 10 2).
  - reflexivity.
  - reflexivity.
  - reflexivity.
  - reflexivity.
  - reflexivity.
  - intros j Hj. exists 1. split; [|lia].
    destruct j as [|[|j]]; [reflexivity|reflexivity|lia].
  - lia.
  - reflexivity.
  - reflexivity.
  - reflexivity.
  - reflexivity.
Defined.

End SdssFacts.

(** ** Running a query and downloading catalogs
       ([SAGA/database/external.py]) *)

Module DownloadFacts.
Import PyStr Tables Files External ExternalFacts Download DownloadSpec.

Section Services.

Variable gzip : bytes -> bytes.
Variable writable : string -> bool.
Variable getenv : string -> option string.
Variable _HAS_CASJOBS_ : bool.
Variable _HAS_SCISERVER_ : bool.
Variable strftime : string.
Variable submit : string -> string -> string -> outcome unit.
Variable monitor : string -> outcome Z.
Variable request_and_get_output : string -> outcome bytes.
Variable drop_table : string -> outcome unit.
Variable login : string -> string -> outcome unit.
Variable executeQuery : string -> string -> outcome bytes.

Let run_casjobs_with_casjobs :=
  run_casjobs_with_casjobs gzip writable _HAS_CASJOBS_ strftime submit monitor
    request_and_get_output drop_table.
Let run_casjobs_with_sciserver :=
  run_casjobs_with_sciserver gzip writable getenv _HAS_SCISERVER_ login
    executeQuery.
Let download_as_file :=
  download_as_file gzip writable getenv _HAS_CASJOBS_ _HAS_SCISERVER_ strftime
    submit monitor request_and_get_output drop_table login executeQuery.

Lemma casjobs_frame (fs : files) (query : string) (name : option string)
    (path : string) (compress : bool) (context : string)
    (userid password : option string) (fs' : files) (calls : list call)
    (r : outcome unit) :
  run_casjobs_with_casjobs fs query name path compress context userid password
    = (fs', calls, r) ->
  forall p, p <> path -> fs' !! p = fs !! p.
Proof.
  unfold run_casjobs_with_casjobs, Download.run_casjobs_with_casjobs.
  intros H p Hp.
  repeat match type of H with
         | (if ?b then _ else _) = _ => destruct b
         | match ?x with _ => _ end = _ => destruct x
         end;
    injection H as <- <- <-; try reflexivity;
    now rewrite lookup_insert_ne by congruence.
Qed.

Lemma sciserver_frame (fs : files) (query path : string) (compress : bool)
    (context : string) (username password : option string) (fs' : files)
    (calls : list call) (r : outcome unit) :
  run_casjobs_with_sciserver fs query path compress context username password
    = (fs', calls, r) ->
  forall p, p <> path -> fs' !! p = fs !! p.
Proof.
  unfold run_casjobs_with_sciserver, Download.run_casjobs_with_sciserver.
  intros H p Hp.
  repeat match type of H with
         | (if ?b then _ else _) = _ => destruct b
         | match ?x with _ => _ end = _ => destruct x
         end;
    injection H as <- <- <-; try reflexivity;
    now rewrite lookup_insert_ne by congruence.
Qed.

(** [download_as_file] writes no file but [file_path]. *)
Lemma download_as_file_frame (self : SdssQuery) (fs : files) (path : string)
    (overwrite compress : bool) (fs' : files) (calls : list call)
    (r : outcome unit) :
  download_as_file self fs path overwrite compress = (fs', calls, r) ->
  forall p, p <> path -> fs' !! p = fs !! p.
Proof.
  unfold download_as_file, Download.download_as_file.
  destruct (isfile fs path && negb overwrite).
  - intros [= <- <- <-]. reflexivity.
  - destruct (use_sciserver self); [apply sciserver_frame|apply casjobs_frame].
Qed.

(** X23: [run_casjobs_with_casjobs] drops the staging table exactly when
    the job was submitted, was reported finished (code 5) and the output
    file could be opened; then the output file exists afterwards, also
    when fetching the output raised.  In every other case, a cancelled
    or failed job included, the table is not dropped, the call raises
    and no file is touched. *)
Theorem staging_table_dropped_iff (fs : files) (query name path : string)
    (compress : bool) (context : string) (userid password : option string) :
  let '(fs', calls, r) :=
    run_casjobs_with_casjobs fs query (Some name) path compress context
      userid password in
  (DropTable name ∈ calls <->
   _HAS_CASJOBS_ = true /\
   submit query context ("casjobs_" +:+ name) = Done tt /\
   monitor query = Done 5 /\
   writable path = true) /\
  (DropTable name ∈ calls -> is_Some (fs' !! path)) /\
  (DropTable name ∉ calls -> fs' = fs /\ exists e, r = Fail e).
Proof.
  unfold run_casjobs_with_casjobs, Download.run_casjobs_with_casjobs.
  assert (Hno1 : DropTable name ∉ []) by apply not_elem_of_nil.
  assert (Hno2 : DropTable name
                   ∉ [Submit query context ("casjobs_" +:+ name)]).
  { intros H. apply list_elem_of_singleton in H. discriminate. }
  assert (Hno3 : DropTable name
                   ∉ [Submit query context ("casjobs_" +:+ name); Monitor]).
  { intros H. apply elem_of_cons in H as [H|H]; [discriminate|].
    apply list_elem_of_singleton in H. discriminate. }
  assert (Hyes : DropTable name
                   ∈ [Submit query context ("casjobs_" +:+ name); Monitor]
                     ++ [RequestOutput name; DropTable name]).
  { apply elem_of_app. right. apply elem_of_cons. right.
    apply list_elem_of_singleton. reflexivity. }
  destruct _HAS_CASJOBS_; cbn [negb].
  2:{ split; [|split]; [split|..]; try tauto; [intros (? & _); discriminate|eauto]. }
  destruct (submit query context ("casjobs_" +:+ name)) as [[]|e].
  2:{ split; [|split]; [split|..]; try tauto;
        [intros (_ & ? & _); discriminate|eauto]. }
  destruct (monitor query) as [code|e].
  2:{ split; [|split]; [split|..]; try tauto;
        [intros (_ & _ & ? & _); discriminate|eauto]. }
  destruct (Z.eqb_spec code 3) as [->|H3]; cbn [orb].
  { split; [|split]; [split|..]; try tauto;
      [intros (_ & _ & ? & _); discriminate|eauto]. }
  destruct (Z.eqb_spec code 4) as [->|H4].
  { split; [|split]; [split|..]; try tauto;
      [intros (_ & _ & ? & _); discriminate|eauto]. }
  destruct (Z.eqb_spec code 5) as [->|H5]; cbn [negb].
  2:{ split; [|split]; [split|..]; try tauto;
        [intros (_ & _ & [= ?] & _); contradiction|eauto]. }
  destruct (writable path); cbn [negb].
  2:{ split; [|split]; [split|..]; try tauto;
        [intros (_ & _ & _ & ?); discriminate|eauto]. }
  destruct (request_and_get_output name) as [content|e].
  - split; [|split]; [split|..]; try tauto.
    intros _. rewrite lookup_insert_eq. eauto.
  - split; [|split]; [split|..]; try tauto.
    intros _. rewrite lookup_insert_eq. eauto.
Qed.

Lemma truthy_py_or (a b : option string) :
  truthy_str a = true -> py_or a b = a.
Proof. unfold py_or. now intros ->. Qed.

Lemma truthy_str_of (a : option string) :
  truthy_str a = true -> a = Some (str_of a) /\ str_of a <> EmptyString.
Proof. destruct a as [[|c s]|]; try discriminate. intros _. now split. Qed.

Section Constructed.

Variable format_10g : Q -> string.
Variable get_random_string : nat -> string.

(** X24: a query object made by [SdssQuery.__init__] reaches the service
    it chose.  When the file is to be downloaded (and casjobs is
    installed), the first call is the login to SciServer with the stored
    user and password, both non-empty, if [use_sciserver] is set, and
    else the submission of the object's query to CasJobs under a task
    name made of "casjobs_" and letters; so neither the set-up check of
    SciServer nor a missing table name stops the download. *)
Theorem constructed_query_reaches_service
    (ra dec radius : angle) (table_name : option string) (context_ : string)
    (user password : option string) (default_use_sciserver : bool)
    (fs : files) (path : string) (overwrite compress : bool) :
  let self := init format_10g getenv _HAS_SCISERVER_ get_random_string
                ra dec radius table_name context_ user password
                default_use_sciserver in
  isfile fs path && negb overwrite = false ->
  _HAS_CASJOBS_ = true ->
  let '(_, calls, _) := download_as_file self fs path overwrite compress in
  exists first rest, calls = first :: rest /\
    if use_sciserver self
    then exists u p, u <> EmptyString /\ p <> EmptyString /\
           sciserver_user self = Some u /\ sciserver_pass self = Some p /\
           first = Login u p
    else exists n, db_table_name self = Some n /\
           all_chars is_letter n = true /\
           first = Submit (query self) context_ ("casjobs_" +:+ n).
Proof.
  intros self Hrun Hcas.
  unfold download_as_file, Download.download_as_file. rewrite Hrun.
  destruct (use_sciserver self) eqn:Huse.
  - unfold self, init in Huse. cbn [use_sciserver] in Huse.
    apply andb_true_iff in Huse as [Huse Hp].
    apply andb_true_iff in Huse as [Huse Hu].
    apply andb_true_iff in Huse as [_ Hhas].
    unfold Download.run_casjobs_with_sciserver.
    change (sciserver_user self) with (py_or user (getenv "SCISERVER_USER")).
    change (sciserver_pass self) with (py_or password (getenv "SCISERVER_PASS")).
    rewrite (truthy_py_or _ _ Hu), (truthy_py_or _ _ Hp), Hhas, Hu, Hp.
    cbn [andb negb].
    destruct (truthy_str_of _ Hu) as [Eu Hu'].
    destruct (truthy_str_of _ Hp) as [Ep Hp'].
    destruct (login _ _); [destruct (executeQuery _ _); [destruct (writable path)|]|];
      cbn [negb app]; (eexists _, _; split; [reflexivity|]);
      eexists _, _; eauto.
  - unfold Download.run_casjobs_with_casjobs. rewrite Hcas. cbn [negb].
    assert (Hname : exists n, db_table_name self = Some n /\
                      all_chars is_letter n = true).
    { unfold self, init. cbn [db_table_name].
      unfold self, init in Huse. cbn [use_sciserver] in Huse. rewrite Huse.
      eexists. split; [reflexivity|]. apply keep_letters_letters. }
    destruct Hname as (n & Hn & Hletters). rewrite Hn.
    change (context self) with context_.
    destruct (submit _ _ _).
    2:{ eexists _, _. split; [reflexivity|]. eauto. }
    destruct (monitor _) as [code|].
    2:{ eexists _, _. split; [reflexivity|]. eauto. }
    destruct ((code =? 3) || (code =? 4)).
    { eexists _, _. split; [reflexivity|]. eauto. }
    destruct (code =? 5); cbn [negb].
    2:{ eexists _, _. split; [reflexivity|]. eauto. }
    destruct (writable path); cbn [negb].
    2:{ eexists _, _. split; [reflexivity|]. eauto. }
    destruct (request_and_get_output n);
      (eexists _, _; split; [reflexivity|]; eauto).
Qed.

End Constructed.

End Services.

Lemma constructed_query_reaches_service_witness :
  let self := init Examples.format_example Examples.no_environment true
                Examples.drawn (Float (60100 # 400)) (Float (5 # 2)) (Float 1)
                (Some "saga_host-61945 (test)") "DR14" None None true in
  let '(_, calls, _) :=
    download_as_file Examples.gz Examples.any_path Examples.no_environment
      true true "[11/04 12:00:00]" Examples.submitted Examples.finished
      Examples.fetched Examples.accepted Examples.logged_in Examples.answered
      self Examples.disk "/data/nsa13927.fits.gz" false true in
  exists first rest, calls = first :: rest /\
    if use_sciserver self
    then exists u p, u <> EmptyString /\ p <> EmptyString /\
           sciserver_user self = Some u /\ sciserver_pass self = Some p /\
           first = Login u p
    else exists n, db_table_name self = Some n /\
           all_chars is_letter n = true /\
           first = Submit (query self) "DR14" ("casjobs_" +:+ n).
Proof.
  apply (constructed_query_reaches_service Examples.gz Examples.any_path
           Examples.no_environment true true "[11/04 12:00:00]"
           Examples.submitted Examples.finished Examples.fetched
           Examples.accepted Examples.logged_in Examples.answered
           Examples.format_example Examples.drawn
           (Float (60100 # 400)) (Float (5 # 2)) (Float 1)
           (Some "saga_host-61945 (test)") "DR14" None None true
           Examples.disk "/data/nsa13927.fits.gz" false true).
  - reflexivity.
  - reflexivity.
Defined.

Lemma sdss_query_frame : writes_only_its_path Examples.sdss_query.
Proof.
  intros ra dec query_obj path overwrite compress fs fs' calls r Hclass Hrun.
  unfold Examples.sdss_query in Hclass.
  destruct ra; try discriminate. destruct dec; try discriminate.
  injection Hclass as <-. unfold method_of, Examples.sdss_download in Hrun.
  eapply download_as_file_frame. exact Hrun.
Qed.

Lemma catalog_bytes_size : getsize Examples.catalog_bytes = 1000000.
Proof.
  unfold getsize, Examples.catalog_bytes. rewrite length_replicate.
  now rewrite Z2Nat.id by lia.
Qed.

Section Hosts.

Variable query_class : cell -> cell -> outcome downloader.
Variable format : string -> cell -> string.
Variable file_path_pattern : string.
Variables overwrite compress : bool.
Variables host_id_label host_ra_label host_dec_label : string.

Let download_all :=
  download_all query_class format file_path_pattern overwrite compress
    host_id_label host_ra_label host_dec_label.
Let download_catalogs_for_hosts :=
  download_catalogs_for_hosts query_class format file_path_pattern overwrite
    compress host_id_label host_ra_label host_dec_label.
Let path_of := host_path format file_path_pattern host_id_label.

(** What processing the first row leaves: either the loop ends there
    with an exception, or the rest is processed on the files it leaves,
    and a row flagged as not failed has left a file of 10^6 bytes or
    more at its path. *)
Lemma download_all_cons_inv (host : Row) (rest : list Row) (fs fs' : files)
    (calls : list call) (r : outcome (list bool)) :
  writes_only_its_path query_class ->
  download_all (host :: rest) fs = (fs', calls, r) ->
  (forall p, p <> path_of host -> fs' !! p = fs !! p) /\ (exists e, r = Fail e)
  \/
  exists fs1 calls1 calls2 flag r2,
    download_all rest fs1 = (fs', calls2, r2) /\
    calls = calls1 ++ calls2 /\ r = flagged flag r2 /\
    (forall p, p <> path_of host -> fs1 !! p = fs !! p) /\
    (flag = false ->
     exists data, fs1 !! path_of host = Some data /\ 1000000 <= getsize data).
Proof.
  intros Hframe. unfold download_all. cbn [Download.download_all].
  fold download_all. unfold row_get, path_of, host_path.
  destruct (Utils.dict_get host_id_label host) as [host_id|];
    [|intros [= <- <- <-]; left; eauto].
  destruct (Utils.dict_get host_ra_label host) as [host_ra|];
    [|intros [= <- <- <-]; left; eauto].
  destruct (Utils.dict_get host_dec_label host) as [host_dec|];
    [|intros [= <- <- <-]; left; eauto].
  change (default NaN (Some host_id)) with host_id.
  set (path := format file_path_pattern host_id).
  destruct (query_class host_ra host_dec) as [query_obj|e] eqn:Hclass;
    [|intros [= <- <- <-]; left; eauto].
  destruct (query_obj path overwrite compress fs) as [[fs1 calls1] r1] eqn:Hrun.
  pose proof (Hframe _ _ _ _ _ _ _ _ _ _ Hclass Hrun) as Hfs1.
  destruct r1 as [[]|e].
  - destruct (fs1 !! path) as [data|] eqn:Hdata;
      [|intros [= <- <- <-]; left; eauto].
    destruct (Z.ltb_spec (getsize data) 1000000) as [Hsmall|Hbig].
    + destruct (download_all rest (delete path fs1)) as [[fs2 calls2] r2] eqn:Hrest.
      intros [= <- <- <-]. right. exists (delete path fs1), calls1, calls2, true, r2.
      split; [exact Hrest|]. split; [reflexivity|]. split; [reflexivity|].
      split; [|discriminate].
      intros p Hp. rewrite lookup_delete_ne by congruence. now apply Hfs1.
    + destruct (download_all rest fs1) as [[fs2 calls2] r2] eqn:Hrest.
      intros [= <- <- <-]. right. exists fs1, calls1, calls2, false, r2.
      split; [exact Hrest|]. split; [reflexivity|]. split; [reflexivity|].
      split; [exact Hfs1|]. intros _. exists data. split; [exact Hdata|lia].
  - destruct (caught e).
    + destruct (download_all rest fs1) as [[fs2 calls2] r2] eqn:Hrest.
      intros [= <- <- <-]. right. exists fs1, calls1, calls2, true, r2.
      split; [exact Hrest|]. split; [reflexivity|]. split; [reflexivity|].
      split; [exact Hfs1|]. discriminate.
    + intros [= <- <- <-]. left. eauto.
Qed.

Lemma download_all_frame (hosts : list Row) :
  writes_only_its_path query_class ->
  forall fs fs' calls r,
    download_all hosts fs = (fs', calls, r) ->
    forall p, p ∉ map path_of hosts -> fs' !! p = fs !! p.
Proof.
  intros Hframe. induction hosts as [|host rest IH]; intros fs fs' calls r Hrun p Hp.
  - injection Hrun as <- _ _. reflexivity.
  - apply not_elem_of_cons in Hp as [Hp1 Hp2].
    apply (download_all_cons_inv _ _ _ _ _ _ Hframe) in Hrun
      as [[Hfs _]|(fs1 & calls1 & calls2 & flag & r2 & Hrest & _ & _ & Hfs1 & _)].
    + now apply Hfs.
    + rewrite (IH _ _ _ _ Hrest p Hp2). now apply Hfs1.
Qed.

(** A row whose download leaves a file of 10^6 bytes or more. *)
Lemma download_all_cons_done (host : Row) (rest : list Row)
    (host_id host_ra host_dec : cell) (query_obj : downloader)
    (fs fs1 : files) (calls1 : list call) (data : bytes) :
  Utils.dict_get host_id_label host = Some host_id ->
  Utils.dict_get host_ra_label host = Some host_ra ->
  Utils.dict_get host_dec_label host = Some host_dec ->
  query_class host_ra host_dec = Done query_obj ->
  query_obj (format file_path_pattern host_id) overwrite compress fs
    = (fs1, calls1, Done tt) ->
  fs1 !! format file_path_pattern host_id = Some data ->
  1000000 <= getsize data ->
  download_all (host :: rest) fs
  = let '(fs', calls', failed) := download_all rest fs1 in
    (fs', calls1 ++ calls', flagged false failed).
Proof.
  intros Hid Hra Hdec Hclass Hrun Hfile Hsize.
  unfold download_all. cbn [Download.download_all]. fold download_all.
  unfold row_get. rewrite Hid, Hra, Hdec, Hclass, Hrun, Hfile.
  destruct (Z.ltb_spec (getsize data) 1000000); [lia|].
  destruct (download_all rest _) as [[fs2 calls2] r2]. reflexivity.
Qed.

(** X25: when the catalog paths of the rows are pairwise different and
    the query objects write no file but the one asked for, a call of
    [download_catalogs_for_hosts] that returns gives one flag per row,
    and every row whose flag is False has, when the call returns, a file
    of at least 10^6 bytes at its path. *)
Theorem unflagged_hosts_have_catalogs (fs fs' : files) (hosts : Table)
    (file_size_check : Q) (calls : list call) (failed : list bool) :
  writes_only_its_path query_class ->
  NoDup (map path_of (rows hosts)) ->
  download_catalogs_for_hosts fs hosts file_size_check
    = (fs', calls, Done failed) ->
  length failed = nrows hosts /\
  forall i host,
    rows hosts !! i = Some host -> failed !! i = Some false ->
    exists data, fs' !! path_of host = Some data /\ 1000000 <= getsize data.
Proof.
  intros Hframe. unfold download_catalogs_for_hosts,
    Download.download_catalogs_for_hosts. fold download_all.
  replace (nrows hosts) with (length (rows hosts))
    by (unfold rows; now rewrite length_map, length_seq).
  generalize (rows hosts) as l. clear hosts.
  intros l. revert fs fs' calls failed.
  induction l as [|host rest IH]; intros fs fs' calls failed Hnodup Hrun.
  - injection Hrun as _ _ <-. split; [reflexivity|]. intros i host Hi. discriminate.
  - apply NoDup_cons in Hnodup as [Hfresh Hnodup].
    apply (download_all_cons_inv _ _ _ _ _ _ Hframe) in Hrun
      as [[_ [e He]]|(fs1 & calls1 & calls2 & flag & r2 & Hrest & _ & Hr & Hfs1 & Hflag)];
      [discriminate|].
    destruct r2 as [failed2|]; [|discriminate]. injection Hr as ->.
    destruct (IH _ _ _ _ Hnodup Hrest) as [Hlen Hall].
    split; [cbn; now rewrite Hlen|].
    intros [|i] host' Hi Hfalse.
    + injection Hi as <-. injection Hfalse as ->.
      destruct (Hflag eq_refl) as (data & Hdata & Hsize).
      exists data. split; [|exact Hsize].
      now rewrite (download_all_frame _ Hframe _ _ _ _ Hrest _ Hfresh).
    + now apply (Hall i).
Qed.

(** X26: with [overwrite] off, a host whose file exists but is smaller
    than 10^6 bytes is not downloaded again by an [SdssQuery]: no call
    is made for it, its file is deleted, it is flagged as failed, and
    the loop goes on with the next row. *)
Theorem stale_small_file_is_only_deleted
    (gzip : bytes -> bytes) (writable : string -> bool)
    (getenv : string -> option string) (_HAS_CASJOBS_ _HAS_SCISERVER_ : bool)
    (strftime : string) (submit : string -> string -> string -> outcome unit)
    (monitor : string -> outcome Z)
    (request_and_get_output : string -> outcome bytes)
    (drop_table : string -> outcome unit)
    (login : string -> string -> outcome unit)
    (executeQuery : string -> string -> outcome bytes)
    (self : SdssQuery) (host : Row) (rest : list Row)
    (host_id host_ra host_dec : cell) (fs : files) (data : bytes) :
  Utils.dict_get host_id_label host = Some host_id ->
  Utils.dict_get host_ra_label host = Some host_ra ->
  Utils.dict_get host_dec_label host = Some host_dec ->
  query_class host_ra host_dec
    = Done (method_of
              (download_as_file gzip writable getenv _HAS_CASJOBS_
                 _HAS_SCISERVER_ strftime submit monitor request_and_get_output
                 drop_table login executeQuery) self) ->
  overwrite = false ->
  fs !! format file_path_pattern host_id = Some data ->
  getsize data < 1000000 ->
  download_all (host :: rest) fs
  = let '(fs', calls, failed) :=
      download_all rest (delete (format file_path_pattern host_id) fs) in
    (fs', calls, flagged true failed).
Proof.
  intros Hid Hra Hdec Hclass Hover Hfile Hsmall.
  unfold download_all. cbn [Download.download_all]. fold download_all.
  unfold row_get. rewrite Hid, Hra, Hdec, Hclass.
  unfold method_of, download_as_file, isfile. rewrite Hfile, Hover.
  cbn [negb andb].
  rewrite Hfile. destruct (Z.ltb_spec (getsize data) 1000000); [|lia].
  destruct (download_all rest _) as [[fs2 calls2] r2]. reflexivity.
Qed.

(** X27: the loop can be run in batches.  Processing the rows [a ++ b]
    is processing [a] and then, unless that raised, [b] on the files
    that [a] left: the calls and the flags are those of [a] followed by
    those of [b]. *)
Theorem download_in_batches (a b : list Row) (fs : files) :
  download_all (a ++ b) fs
  = let '(fs1, calls1, r1) := download_all a fs in
    match r1 with
    | Fail r => (fs1, calls1, Fail r)
    | Done failed1 =>
        let '(fs2, calls2, r2) := download_all b fs1 in
        (fs2, calls1 ++ calls2,
         match r2 with
         | Done failed2 => Done (failed1 ++ failed2)
         | Fail r => Fail r
         end)
    end.
Proof.
  revert fs. induction a as [|host rest IH]; intros fs.
  - cbn [app]. unfold download_all at 2. cbn [Download.download_all].
    destruct (download_all b fs) as [[fs2 calls2] [failed2|r]]; reflexivity.
  - unfold download_all. cbn [app Download.download_all]. fold download_all.
    destruct (row_get host host_id_label) as [host_id|]; [|reflexivity].
    destruct (row_get host host_ra_label) as [host_ra|]; [|reflexivity].
    destruct (row_get host host_dec_label) as [host_dec|]; [|reflexivity].
    destruct (query_class host_ra host_dec) as [query_obj|]; [|reflexivity].
    destruct (query_obj _ overwrite compress fs) as [[fs1 calls1] r1].
    assert (Hnext : forall fs1 flag,
      (let '(fs0, calls', failed) := download_all (rest ++ b) fs1 in
       (fs0, calls1 ++ calls', flagged flag failed))
      = (let '(fs2, calls2, r2) :=
           let '(fs0, calls', failed) := download_all rest fs1 in
           (fs0, calls1 ++ calls', flagged flag failed) in
         match r2 with
         | Fail r => (fs2, calls2, Fail r)
         | Done failed1 =>
             let '(fs3, calls3, r3) := download_all b fs2 in
             (fs3, calls2 ++ calls3,
              match r3 with
              | Done failed2 => Done (failed1 ++ failed2)
              | Fail r => Fail r
              end)
         end)).
    { intros fs0 flag. rewrite IH.
      destruct (download_all rest fs0) as [[fs2 calls2] [failed1|r]];
        [|reflexivity].
      destruct (download_all b fs2) as [[fs3 calls3] [failed2|r]];
        cbn [flagged app]; now rewrite app_assoc. }
    destruct r1 as [[]|e].
    + destruct (fs1 !! _) as [data|]; [|reflexivity].
      destruct (getsize data <? 1000000); apply Hnext.
    + destruct (caught e); [apply Hnext|reflexivity].
Qed.

End Hosts.

Lemma unflagged_hosts_have_catalogs_witness :
  let self ra dec :=
    init Examples.format_example Examples.sciserver_environment true
      Examples.drawn (Float ra) (Float dec) (Float 1) None "DR14" None None
      true in
  let fs' : files :=
    <["/data/nsa13927.fits" := Examples.catalog_bytes]>
      (<["/data/nsa61945.fits" := Examples.catalog_bytes]> ∅) in
  length [false; false] = nrows Examples.host_table /\
  forall i host,
    rows Examples.host_table !! i = Some host ->
    [false; false] !! i = Some false ->
    exists data,
      fs' !! host_path Examples.nsa_path "/data/nsa{}.fits" "NSAID" host
        = Some data /\
      1000000 <= getsize data.
Proof.
  intros self fs'.
  apply (unflagged_hosts_have_catalogs Examples.sdss_query Examples.nsa_path
           "/data/nsa{}.fits" false false "NSAID" "RA" "Dec" ∅ fs'
           Examples.host_table 1000000
           ([Login "saga" "secret"; ExecuteQuery (query (self 10%Q 0%Q)) "DR14"]
            ++ [Login "saga" "secret"; ExecuteQuery (query (self 20%Q 1%Q)) "DR14"]
            ++ [])).
  - exact sdss_query_frame.
  - apply (bool_decide_unpack _). vm_compute. exact I.
  - unfold download_catalogs_for_hosts.
    change (rows Examples.host_table)
      with [[("NSAID", Num 61945); ("RA", Num 10); ("Dec", Num 0)];
            [("NSAID", Num 13927); ("RA", Num 20); ("Dec", Num 1)]].
    rewrite (download_all_cons_done Examples.sdss_query Examples.nsa_path
               "/data/nsa{}.fits" false false "NSAID" "RA" "Dec"
               [("NSAID", Num 61945); ("RA", Num 10); ("Dec", Num 0)]
               [[("NSAID", Num 13927); ("RA", Num 20); ("Dec", Num 1)]]
               (Num 61945) (Num 10) (Num 0)
               (method_of Examples.sdss_download (self 10%Q 0%Q)) ∅
               (<["/data/nsa61945.fits" := Examples.catalog_bytes]> ∅)
               [Login "saga" "secret"; ExecuteQuery (query (self 10%Q 0%Q)) "DR14"]
               Examples.catalog_bytes);
      [|reflexivity|reflexivity|reflexivity|reflexivity|reflexivity
       |apply lookup_insert_eq|rewrite catalog_bytes_size; lia].
    rewrite (download_all_cons_done Examples.sdss_query Examples.nsa_path
               "/data/nsa{}.fits" false false "NSAID" "RA" "Dec"
               [("NSAID", Num 13927); ("RA", Num 20); ("Dec", Num 1)] []
               (Num 13927) (Num 20) (Num 1)
               (method_of Examples.sdss_download (self 20%Q 1%Q))
               (<["/data/nsa61945.fits" := Examples.catalog_bytes]> ∅)
               fs'
               [Login "saga" "secret"; ExecuteQuery (query (self 20%Q 1%Q)) "DR14"]
               Examples.catalog_bytes);
      [|reflexivity|reflexivity|reflexivity|reflexivity|reflexivity
       |apply lookup_insert_eq|rewrite catalog_bytes_size; lia].
    reflexivity.
Defined.

Lemma stale_small_file_is_only_deleted_witness :
  download_all Examples.sdss_query Examples.nsa_path "/data/nsa{}.fits" false
    true "NSAID" "RA" "Dec"
    [[("NSAID", Num 61945); ("RA", Num 10); ("Dec", Num 0)]] Examples.disk
  = let '(fs', calls, failed) :=
      download_all Examples.sdss_query Examples.nsa_path "/data/nsa{}.fits"
        false true "NSAID" "RA" "Dec" []
        (delete (Examples.nsa_path "/data/nsa{}.fits" (Num 61945))
           Examples.disk) in
    (fs', calls, flagged true failed).
Proof.
  apply (stale_small_file_is_only_deleted Examples.sdss_query Examples.nsa_path
           "/data/nsa{}.fits" false true "NSAID" "RA" "Dec"
           Examples.gz Examples.any_path Examples.sciserver_environment
           true true "[11/04 12:00:00]" Examples.submitted Examples.finished
           Examples.fetched Examples.accepted Examples.logged_in
           Examples.answered
           (init Examples.format_example Examples.sciserver_environment true
              Examples.drawn (Float 10) (Float 0) (Float 1) None "DR14" None
              None true)
           _ [] (Num 61945) (Num 10) (Num 0) Examples.disk
           [Byte.x53; Byte.x49; Byte.x4d]).
  - reflexivity.
  - reflexivity.
  - reflexivity.
  - reflexivity.
  - reflexivity.
  - reflexivity.
  - reflexivity.
Defined.

End DownloadFacts.
